(** * BloodAlertSystem: alert lifecycle and donor matching

    A shallow embedding of the backend's alert model
    ([backend/models/Alert.js]), donor model ([backend/models/Donor.js]),
    hospital model ([backend/models/Hospital.js]), notification service
    ([backend/services/notificationService.js]) and of the handlers of
    the alert, donor, notification, inventory and hospital routes,
    followed by the properties of the alert lifecycle, of the
    donor-matching engine, of the inventory and of the partnerships.

    Conventions.
    - A JavaScript string is a [string]; [===] on strings is [String.eqb].
    - A Mongo ObjectId is its [toString()] image, a [string]: every
      comparison of ids in the source goes through [toString()].
    - [undefined] and [null] are [None].
    - An integral Number (a counter, a number of units, a time value in
      milliseconds) is a [Z]. Sums and differences of such values are
      exact in doubles below 2^53, and [Math.floor] of the quotient of two
      of them by a positive constant is the floor division of [Z] for
      every pair of dates that are less than thousands of years apart.
    - A Number that need not be integral and is only compared (a weight,
      a travel distance) is a rational, a [Q].
    - The percentages are quotients of two counts, rounded: they are
      evaluated in IEEE-754 binary64 with the operations of [SpecFloat],
      because there the rounding of the quotient shows in the result.
    - A handler is a function of the request, of the clock reading and of
      the documents that its queries return; its result is the reply and,
      on success, the document that [save()] stored. Socket emissions and
      console output are not modelled, except for the choice between the
      two transition events of the inventory route.

    The first part holds the definitions, the second the lemmas and
    theorems. *)

From Stdlib Require Import ZArith List String Ascii Bool Lia.
From Stdlib Require Import QArith Qround.
From Stdlib Require Import DecimalString DecimalPos.
From Stdlib Require Import Floats.SpecFloat.
Import ListNotations.

Local Open Scope string_scope.
Local Open Scope Z_scope.
Local Open Scope list_scope.

(** ** JavaScript helpers *)

Module Js.

(** [xs.includes(x)] and [xs.some(y => y === x)] on arrays of strings. *)
Definition includes (xs : list string) (x : string) : bool :=
  existsb (String.eqb x) xs.

(** Lookup of a key in an object literal used as a table. *)
Fixpoint prop {A} (o : list (string * A)) (k : string) : option A :=
  match o with
  | [] => None
  | (k', v) :: o' => if String.eqb k' k then Some v else prop o' k
  end.

(** [v || d] where [v] is an array or [undefined]. *)
Definition orElse {A} (v : option A) (d : A) : A :=
  match v with Some x => x | None => d end.

(** [x < y] on Numbers that need not be integral (a weight in kg, a
    distance in km), as rationals. *)
Definition ltQ (x y : Q) : bool := negb (Qle_bool y x).

(** Template-literal rendering of an integral Number, and [String(n)];
    for a Number below 10^21 in absolute value (from there on JavaScript
    prints an exponent). *)
Definition numToString (n : Z) : string :=
  NilZero.string_of_int (Z.to_int n).

(** The characters of a string, which is held in UTF-8: the bytes that
    do not continue a character. *)
Definition isContinuation (c : ascii) : bool :=
  let n := N_of_ascii c in ((128 <=? n) && (n <=? 191))%N.

Definition characters (s : string) : nat :=
  List.length
    (filter (fun c => negb (isContinuation c)) (list_ascii_of_string s)).

(** The variation selectors U+FE0E and U+FE0F of a string (in UTF-8 the
    bytes EF B8 8E and EF B8 8F). *)
Fixpoint selectors (cs : list ascii) : nat :=
  match cs with
  | [] => 0
  | a :: cs' =>
      (match cs' with
       | b :: c :: _ =>
           if ((N_of_ascii a =? 239) && (N_of_ascii b =? 184)
               && ((N_of_ascii c =? 142) || (N_of_ascii c =? 143)))%N
           then 1 else 0
       | _ => 0
       end + selectors cs')%nat
  end.

(** A value of a request body that passes for a number: a Number with an
    integral value, or a string. *)
Inductive Operand :=
| Number (n : Z)
| Numeral (s : string).

Definition digit (c : ascii) : option Z :=
  let n := N_of_ascii c in
  if ((48 <=? n) && (n <=? 57))%N then Some (Z.of_N n - 48) else None.

Fixpoint digits (acc : Z) (cs : list ascii) : option Z :=
  match cs with
  | [] => Some acc
  | c :: cs' =>
      match digit c with
      | Some d => digits (10 * acc + d) cs'
      | None => None
      end
  end.

(** The integer that a string of the form [/^[-+]?[0-9]+$/] writes. *)
Definition numeral (s : string) : option Z :=
  match list_ascii_of_string s with
  | [] => None
  | sign :: cs =>
      if Ascii.eqb sign "+" then
        match cs with [] => None | _ :: _ => digits 0 cs end
      else if Ascii.eqb sign "-" then
        match cs with
        | [] => None
        | _ :: _ => option_map Z.opp (digits 0 cs)
        end
      else digits 0 (sign :: cs)
  end.

End Js.

(** ** Blood types and the two compatibility tables *)

Definition ObjectId := string.

(** The [enum] of [bloodType] (Alert.js) and of [medicalInfo.bloodGroup]
    (Donor.js). *)
Definition BLOOD_TYPES : list string :=
  ["A+"; "A-"; "B+"; "B-"; "AB+"; "AB-"; "O+"; "O-"].

Module AlertRoutes_tables.

(** The object literal [compatibleDonorTypes] of [findEligibleDonors]. *)
Definition compatibleDonorTypes_table : list (string * list string) :=
  [ ("A+",  ["A+"; "A-"; "O+"; "O-"]);
    ("A-",  ["A-"; "O-"]);
    ("B+",  ["B+"; "B-"; "O+"; "O-"]);
    ("B-",  ["B-"; "O-"]);
    ("AB+", ["A+"; "A-"; "B+"; "B-"; "AB+"; "AB-"; "O+"; "O-"]);
    ("AB-", ["A-"; "B-"; "AB-"; "O-"]);
    ("O+",  ["O+"; "O-"]);
    ("O-",  ["O-"]) ].

(** [compatibleDonorTypes[alert.bloodType] || []]. *)
Definition compatibleDonorTypes (bloodType : string) : list string :=
  Js.orElse (Js.prop compatibleDonorTypes_table bloodType) [].

End AlertRoutes_tables.
Export AlertRoutes_tables.

Module AlertModel_tables.

(** The object literal [compatibleBloodTypes] of
    [Alert.checkDonorEligibility]. *)
Definition compatibleBloodTypes_table : list (string * list string) :=
  [ ("A+",  ["A+"; "A-"; "O+"; "O-"]);
    ("A-",  ["A-"; "O-"]);
    ("B+",  ["B+"; "B-"; "O+"; "O-"]);
    ("B-",  ["B-"; "O-"]);
    ("AB+", ["A+"; "A-"; "B+"; "B-"; "AB+"; "AB-"; "O+"; "O-"]);
    ("AB-", ["A-"; "B-"; "AB-"; "O-"]);
    ("O+",  ["O+"; "O-"]);
    ("O-",  ["O-"]) ].

Definition compatibleBloodTypes (bloodType : string) : list string :=
  Js.orElse (Js.prop compatibleBloodTypes_table bloodType) [].

End AlertModel_tables.
Export AlertModel_tables.

Module DonorRoutes_tables.

(** [getCompatibleBloodTypes(donorBloodType)] of the donor routes. *)
Definition getCompatibleBloodTypes (donorBloodType : string) : list string :=
  let compatibility :=
    [ ("A+",  ["A+"; "AB+"]);
      ("A-",  ["A+"; "A-"; "AB+"; "AB-"]);
      ("B+",  ["B+"; "AB+"]);
      ("B-",  ["B+"; "B-"; "AB+"; "AB-"]);
      ("AB+", ["AB+"]);
      ("AB-", ["AB+"; "AB-"]);
      ("O+",  ["A+"; "B+"; "AB+"; "O+"]);
      ("O-",  ["A+"; "A-"; "B+"; "B-"; "AB+"; "AB-"; "O+"; "O-"]) ] in
  Js.orElse (Js.prop compatibility donorBloodType) [].

End DonorRoutes_tables.
Export DonorRoutes_tables.

(** The standard ABO/Rh chart, stated independently of the tables of the
    code: a blood type is the set of antigens on the red cells (A, B and
    RhD), and a donor is compatible with a recipient when the donor carries
    no antigen that the recipient lacks. *)
Module StandardChart.

Record Antigens := { hasA : bool; hasB : bool; rhD : bool }.

Definition antigens (t : string) : option Antigens :=
  Js.prop
    [ ("A+",  {| hasA := true;  hasB := false; rhD := true  |});
      ("A-",  {| hasA := true;  hasB := false; rhD := false |});
      ("B+",  {| hasA := false; hasB := true;  rhD := true  |});
      ("B-",  {| hasA := false; hasB := true;  rhD := false |});
      ("AB+", {| hasA := true;  hasB := true;  rhD := true  |});
      ("AB-", {| hasA := true;  hasB := true;  rhD := false |});
      ("O+",  {| hasA := false; hasB := false; rhD := true  |});
      ("O-",  {| hasA := false; hasB := false; rhD := false |}) ] t.

Definition canDonate (donor recipient : string) : bool :=
  match antigens donor, antigens recipient with
  | Some d, Some r =>
      implb (hasA d) (hasA r) && implb (hasB d) (hasB r)
      && implb (rhD d) (rhD r)
  | _, _ => false
  end.

Definition rhPositive (t : string) : bool :=
  match antigens t with Some a => rhD a | None => false end.

(** The ABO letter of a type: "A", "B", "AB" or "O". *)
Definition letter (t : string) : string :=
  match antigens t with
  | Some a =>
      match hasA a, hasB a with
      | true, true => "AB"
      | true, false => "A"
      | false, true => "B"
      | false, false => "O"
      end
  | None => ""
  end.

End StandardChart.

(** ** IEEE-754 binary64, for the two places where the code divides *)

Module F64.

Definition prec : Z := 53.
Definition emax : Z := 1024.

Definition t := spec_float.

(** An integral Number as a double (exact below 2^53). *)
Definition ofZ (n : Z) : t := binary_normalize prec emax n 0 false.

Definition div (x y : t) : t := SFdiv prec emax x y.
Definition mul (x y : t) : t := SFmul prec emax x y.

(** [Math.round(x)]: the integer closest to [x], ties towards +infinity;
    [NaN], the infinities and the zeros are returned unchanged, and a
    result of zero keeps the sign of [x]. A finite double with a
    non-negative exponent is already integral. *)
Definition round (x : t) : t :=
  match x with
  | S754_finite s m e =>
      if 0 <=? e then x
      else
        let num := 2 * (if s then Z.neg m else Z.pos m) + 2 ^ (- e) in
        let r := num / 2 ^ (- e + 1) in
        if r =? 0 then S754_zero s else ofZ r
  | _ => x
  end.

(** The double closest to an integer (ties to the even significand),
    for an integer below 2^1024 in absolute value: what a sum of two
    integral doubles is rounded to. Integers up to 2^53 are doubles. *)
Definition nearest (z : Z) : Z :=
  let a := Z.abs z in
  let e := Z.log2 a - 52 in
  if e <=? 0 then z
  else
    let q := a / 2 ^ e in
    let r := a mod 2 ^ e in
    let half := 2 ^ (e - 1) in
    let q' := if (half <? r) || ((r =? half) && Z.odd q) then q + 1 else q in
    Z.sgn z * (q' * 2 ^ e).

(** The integer denoted by a double, when it denotes one. *)
Definition toZ (x : t) : option Z :=
  match x with
  | S754_zero _ => Some 0
  | S754_finite s m e =>
      let v := if s then Z.neg m else Z.pos m in
      if 0 <=? e then Some (v * 2 ^ e)
      else if v mod 2 ^ (- e) =? 0 then Some (v / 2 ^ (- e)) else None
  | _ => None
  end.

End F64.

(** ** backend/models/Alert.js *)

Module ContactInfo.
Record t := { phone : option string; email : option string;
              preferredTime : option string }.
End ContactInfo.

Module DonationDetails.
Record t := { volume : option Z; date : option Z;
              location : option string; notes : option string }.
End DonationDetails.

(** An element of [notifications.sentTo]. *)
Module SentTo.
Record t := {
  donor : ObjectId;
  method : string;
  sentAt : Z;
  opened : bool;
  openedAt : option Z;
  responded : bool;
  respondedAt : option Z;
  response : option string
}.
End SentTo.

(** An element of [responses]. *)
Module Response.
Record t := {
  donor : ObjectId;
  responseType : string;
  message : option string;
  contactInfo : option ContactInfo.t;
  estimatedArrival : option Z;
  actualArrival : option Z;
  donationCompleted : bool;
  donationDetails : option DonationDetails.t;
  responseTime : option Z;
  timestamp : Z
}.
End Response.

(** An element of [sharing.sharedWith]. The schema gives [sharedAt],
    [unitsPromised] and [unitsDelivered] a default and gives [response]
    none. *)
Module SharedWith.
Record t := {
  hospital : ObjectId;
  sharedAt : Z;
  response : option string;
  unitsPromised : Z;
  unitsDelivered : Z;
  notes : option string
}.
End SharedWith.

Module Notifications.
Record t := {
  sent : Z;
  opened : Z;
  responded : Z;
  sentTo : list SentTo.t
}.
End Notifications.

Module Sharing.
Record t := { allowSharing : bool; sharedWith : list SharedWith.t }.
End Sharing.

(** The second argument of [addResponse]: an object whose own properties
    are spread over the new response. A property that is absent is
    [None]. *)
Module AdditionalData.
Record t := {
  donor : option ObjectId;
  responseType : option string;
  message : option string;
  contactInfo : option ContactInfo.t;
  estimatedArrival : option Z;
  actualArrival : option Z;
  donationCompleted : option bool;
  donationDetails : option DonationDetails.t
}.
Definition empty : t :=
  {| donor := None; responseType := None; message := None;
     contactInfo := None; estimatedArrival := None; actualArrival := None;
     donationCompleted := None; donationDetails := None |}.
End AdditionalData.

Module Alert.

Definition URGENCY_LEVELS : list string := ["low"; "medium"; "high"; "critical"].
Definition STATUSES : list string :=
  ["active"; "partially_fulfilled"; "fulfilled"; "expired"; "cancelled"].
Definition METHODS : list string := ["email"; "sms"; "push"].
Definition SENT_TO_RESPONSES : list string :=
  ["interested"; "not_available"; "not_eligible"].
Definition RESPONSE_TYPES : list string :=
  ["interested"; "committed"; "donated"; "not_available"; "not_eligible"].
Definition SHARE_RESPONSES : list string :=
  ["pending"; "accepted"; "declined"; "partially_fulfilled"].

(** The document. [patientInfo], [analytics], [tags] and the coordinates
    of [location] are carried by no operation below and are left out, as
    are [createdAt] and [updatedAt], which the store maintains
    ([timestamps: true]). *)
Record t := {
  _id : ObjectId;
  hospital : ObjectId;
  bloodType : string;
  urgencyLevel : string;
  unitsNeeded : Z;
  unitsCollected : Z;
  reason : string;
  searchRadius : Z;                      (* location.searchRadius, km *)
  status : string;
  notifications : Notifications.t;
  responses : list Response.t;
  sharing : Sharing.t;
  expiresAt : Z;
  isActive : bool;
  createdBy : ObjectId;
  lastModifiedBy : option ObjectId;
  internalNotes : option string
}.

(** Field assignments used by the methods and the handlers. *)
Definition set_status (v : string) (a : t) : t :=
  {| _id := _id a; hospital := hospital a; bloodType := bloodType a;
     urgencyLevel := urgencyLevel a; unitsNeeded := unitsNeeded a;
     unitsCollected := unitsCollected a; reason := reason a;
     searchRadius := searchRadius a; status := v;
     notifications := notifications a; responses := responses a;
     sharing := sharing a; expiresAt := expiresAt a; isActive := isActive a;
     createdBy := createdBy a; lastModifiedBy := lastModifiedBy a;
     internalNotes := internalNotes a |}.

Definition set_unitsCollected (v : Z) (a : t) : t :=
  {| _id := _id a; hospital := hospital a; bloodType := bloodType a;
     urgencyLevel := urgencyLevel a; unitsNeeded := unitsNeeded a;
     unitsCollected := v; reason := reason a;
     searchRadius := searchRadius a; status := status a;
     notifications := notifications a; responses := responses a;
     sharing := sharing a; expiresAt := expiresAt a; isActive := isActive a;
     createdBy := createdBy a; lastModifiedBy := lastModifiedBy a;
     internalNotes := internalNotes a |}.

Definition set_notifications (v : Notifications.t) (a : t) : t :=
  {| _id := _id a; hospital := hospital a; bloodType := bloodType a;
     urgencyLevel := urgencyLevel a; unitsNeeded := unitsNeeded a;
     unitsCollected := unitsCollected a; reason := reason a;
     searchRadius := searchRadius a; status := status a;
     notifications := v; responses := responses a;
     sharing := sharing a; expiresAt := expiresAt a; isActive := isActive a;
     createdBy := createdBy a; lastModifiedBy := lastModifiedBy a;
     internalNotes := internalNotes a |}.

Definition set_responses (v : list Response.t) (a : t) : t :=
  {| _id := _id a; hospital := hospital a; bloodType := bloodType a;
     urgencyLevel := urgencyLevel a; unitsNeeded := unitsNeeded a;
     unitsCollected := unitsCollected a; reason := reason a;
     searchRadius := searchRadius a; status := status a;
     notifications := notifications a; responses := v;
     sharing := sharing a; expiresAt := expiresAt a; isActive := isActive a;
     createdBy := createdBy a; lastModifiedBy := lastModifiedBy a;
     internalNotes := internalNotes a |}.

Definition set_sharing (v : Sharing.t) (a : t) : t :=
  {| _id := _id a; hospital := hospital a; bloodType := bloodType a;
     urgencyLevel := urgencyLevel a; unitsNeeded := unitsNeeded a;
     unitsCollected := unitsCollected a; reason := reason a;
     searchRadius := searchRadius a; status := status a;
     notifications := notifications a; responses := responses a;
     sharing := v; expiresAt := expiresAt a; isActive := isActive a;
     createdBy := createdBy a; lastModifiedBy := lastModifiedBy a;
     internalNotes := internalNotes a |}.

Definition set_expiresAt (v : Z) (a : t) : t :=
  {| _id := _id a; hospital := hospital a; bloodType := bloodType a;
     urgencyLevel := urgencyLevel a; unitsNeeded := unitsNeeded a;
     unitsCollected := unitsCollected a; reason := reason a;
     searchRadius := searchRadius a; status := status a;
     notifications := notifications a; responses := responses a;
     sharing := sharing a; expiresAt := v; isActive := isActive a;
     createdBy := createdBy a; lastModifiedBy := lastModifiedBy a;
     internalNotes := internalNotes a |}.

(** The [default] function of [expiresAt], evaluated at [Date.now() = now]:
    24 hours for critical, 72 hours for others. *)
Definition expiresAt_default (urgencyLevel : string) (now : Z) : Z :=
  let hours := if String.eqb urgencyLevel "critical" then 24 else 72 in
  now + hours * 60 * 60 * 1000.

(** What the create handler passes to [new Alert(alertData)]. *)
Record Data := {
  data_hospital : ObjectId;
  data_bloodType : string;
  data_urgencyLevel : string;
  data_unitsNeeded : Z;
  data_reason : string;
  data_searchRadius : Z;
  data_createdBy : ObjectId
}.

(** [new Alert(alertData)] at time [now], with the defaults of the schema;
    [id] is the fresh [_id]. *)
Definition new (id : ObjectId) (now : Z) (d : Data) : t :=
  {| _id := id;
     hospital := data_hospital d;
     bloodType := data_bloodType d;
     urgencyLevel := data_urgencyLevel d;
     unitsNeeded := data_unitsNeeded d;
     unitsCollected := 0;
     reason := data_reason d;
     searchRadius := data_searchRadius d;
     status := "active";
     notifications :=
       {| Notifications.sent := 0; Notifications.opened := 0;
          Notifications.responded := 0; Notifications.sentTo := [] |};
     responses := [];
     sharing := {| Sharing.allowSharing := true; Sharing.sharedWith := [] |};
     expiresAt := expiresAt_default (data_urgencyLevel d) now;
     isActive := true;
     createdBy := data_createdBy d;
     lastModifiedBy := None;
     internalNotes := None |}.

(** The virtual [completionPercentage]. *)
Definition completionPercentage (this : t) : F64.t :=
  if unitsNeeded this =? 0 then F64.ofZ 0
  else F64.round
         (F64.mul (F64.div (F64.ofZ (unitsCollected this))
                           (F64.ofZ (unitsNeeded this)))
                  (F64.ofZ 100)).

(** The virtual [timeRemaining], read at time [now]. *)
Definition timeRemaining (now : Z) (this : t) : Z :=
  let remaining := expiresAt this - now in
  if remaining <=? 0 then 0 else remaining / (1000 * 60 * 60).

(** [isExpired()], read at time [now]. *)
Definition isExpired (now : Z) (this : t) : bool := expiresAt this <? now.

(** [getResponseRate()]. *)
Definition getResponseRate (this : t) : F64.t :=
  if Notifications.sent (notifications this) =? 0 then F64.ofZ 0
  else F64.round
         (F64.mul
            (F64.div (F64.ofZ (Notifications.responded (notifications this)))
                     (F64.ofZ (Notifications.sent (notifications this))))
            (F64.ofZ 100)).

(** [getConversionRate()]. *)
Definition getConversionRate (this : t) : F64.t :=
  let totalResponses := Z.of_nat (List.length (responses this)) in
  if totalResponses =? 0 then F64.ofZ 0
  else
    let donations :=
      Z.of_nat (List.length (filter Response.donationCompleted (responses this))) in
    F64.round
      (F64.mul (F64.div (F64.ofZ donations) (F64.ofZ totalResponses))
               (F64.ofZ 100)).

(** [{ donor: donorId, responseType, ...additionalData }], cast to a
    sub-document of [responses] at time [now] (defaults:
    [donationCompleted = false], [timestamp = Date.now()]). *)
Definition spreadResponse (now : Z) (donorId : ObjectId) (responseType : string)
    (additionalData : AdditionalData.t) : Response.t :=
  {| Response.donor :=
       Js.orElse (AdditionalData.donor additionalData) donorId;
     Response.responseType :=
       Js.orElse (AdditionalData.responseType additionalData) responseType;
     Response.message := AdditionalData.message additionalData;
     Response.contactInfo := AdditionalData.contactInfo additionalData;
     Response.estimatedArrival :=
       AdditionalData.estimatedArrival additionalData;
     Response.actualArrival := AdditionalData.actualArrival additionalData;
     Response.donationCompleted :=
       Js.orElse (AdditionalData.donationCompleted additionalData) false;
     Response.donationDetails :=
       AdditionalData.donationDetails additionalData;
     Response.responseTime := None;
     Response.timestamp := now |}.

Definition set_responseTime (v : Z) (r : Response.t) : Response.t :=
  {| Response.donor := Response.donor r;
     Response.responseType := Response.responseType r;
     Response.message := Response.message r;
     Response.contactInfo := Response.contactInfo r;
     Response.estimatedArrival := Response.estimatedArrival r;
     Response.actualArrival := Response.actualArrival r;
     Response.donationCompleted := Response.donationCompleted r;
     Response.donationDetails := Response.donationDetails r;
     Response.responseTime := Some v;
     Response.timestamp := Response.timestamp r |}.

(** The three assignments to the notification that [find] returned. *)
Definition markResponded (now : Z) (responseType : string) (n : SentTo.t)
    : SentTo.t :=
  {| SentTo.donor := SentTo.donor n;
     SentTo.method := SentTo.method n;
     SentTo.sentAt := SentTo.sentAt n;
     SentTo.opened := SentTo.opened n;
     SentTo.openedAt := SentTo.openedAt n;
     SentTo.responded := true;
     SentTo.respondedAt := Some now;
     SentTo.response := Some responseType |}.

(** In-place update of the first element that satisfies [p]: the object
    that [Array.prototype.find] returns is the element itself. *)
Fixpoint updateFound {A} (p : A -> bool) (f : A -> A) (l : list A) : list A :=
  match l with
  | [] => []
  | x :: l' => if p x then f x :: l' else x :: updateFound p f l'
  end.

Definition isDonor (donorId : ObjectId) (n : SentTo.t) : bool :=
  String.eqb (SentTo.donor n) donorId.

(** [addResponse(donorId, responseType, additionalData)], run at time
    [now]. The method returns nothing and throws nothing; the result is
    the document after the mutations. *)
Definition addResponse (now : Z) (donorId : ObjectId) (responseType : string)
    (additionalData : AdditionalData.t) (this : t) : t :=
  let response := spreadResponse now donorId responseType additionalData in
  let nots := notifications this in
  let notification := find (isDonor donorId) (Notifications.sentTo nots) in
  let response :=
    match notification with
    | Some n => set_responseTime ((now - SentTo.sentAt n) / (1000 * 60)) response
    | None => response
    end in
  let sentTo' :=
    updateFound (isDonor donorId) (markResponded now responseType)
                (Notifications.sentTo nots) in
  let this1 := set_responses (responses this ++ [response]) this in
  let this2 :=
    set_notifications
      {| Notifications.sent := Notifications.sent nots;
         Notifications.opened := Notifications.opened nots;
         Notifications.responded := Notifications.responded nots + 1;
         Notifications.sentTo := sentTo' |} this1 in
  if String.eqb responseType "donated"
     && match AdditionalData.donationDetails additionalData with
        | Some _ => true | None => false end
  then
    let this3 := set_unitsCollected (unitsCollected this2 + 1) this2 in
    if unitsNeeded this3 <=? unitsCollected this3 then
      set_status "fulfilled" this3
    else if 0 <? unitsCollected this3 then
      set_status "partially_fulfilled" this3
    else this3
  else this2.

(** [extendExpiry(hours)]. *)
Definition extendExpiry (hours : Z) (this : t) : t :=
  set_expiresAt (expiresAt this + hours * 60 * 60 * 1000) this.

(** Validation run by [save()]: the [enum], [min] and [max] validators
    of the schema on the fields of the document and of its
    sub-documents; a value that is [undefined] passes an [enum]. *)
Definition enumValid (allowed : list string) (v : option string) : bool :=
  match v with Some s => Js.includes allowed s | None => true end.

Definition validSentTo (n : SentTo.t) : bool :=
  Js.includes METHODS (SentTo.method n)
  && enumValid SENT_TO_RESPONSES (SentTo.response n).

Definition validResponse (r : Response.t) : bool :=
  Js.includes RESPONSE_TYPES (Response.responseType r).

Definition validSharedWith (s : SharedWith.t) : bool :=
  enumValid SHARE_RESPONSES (SharedWith.response s).

Definition validate (a : t) : bool :=
  Js.includes BLOOD_TYPES (bloodType a)
  && Js.includes URGENCY_LEVELS (urgencyLevel a)
  && (1 <=? unitsNeeded a)
  && (5 <=? searchRadius a) && (searchRadius a <=? 200)
  && Js.includes STATUSES (status a)
  && forallb validSentTo (Notifications.sentTo (notifications a))
  && forallb validResponse (responses a)
  && forallb validSharedWith (Sharing.sharedWith (sharing a)).

(** [await alert.save()]: the document that is stored, or the
    [ValidationError]. *)
Definition save (a : t) : option t :=
  if validate a then Some a else None.

End Alert.

(** ** backend/models/Donor.js *)

(** A [Date] as the donor model observes it: its time value and the three
    calendar getters (which depend on the time zone of the host). *)
Module JsDate.
Record t := { getTime : Z; getFullYear : Z; getMonth : Z; getDate : Z }.
End JsDate.

Module TemporaryDeferral.
Record t := { reason : option string; until : option JsDate.t }.
End TemporaryDeferral.

Module NotificationMethods.
Record t := { email : bool; sms : bool; push : bool }.
End NotificationMethods.

Module Preferences.
Record t := {
  notificationMethods : NotificationMethods.t;
  maxTravelDistance : Q;
  emergencyOnly : bool
}.
End Preferences.

(** The object that [checkEligibility] returns. *)
Module Eligibility.
Record t := { eligible : bool; reason : option string }.
End Eligibility.

Module Donor.

(** The fields of the document that the matching engine reads. *)
Record t := {
  _id : ObjectId;
  user : ObjectId;
  firstName : string;
  lastName : string;
  dateOfBirth : option JsDate.t;           (* personalInfo.dateOfBirth *)
  phone : string;                          (* personalInfo.phone *)
  bloodGroup : string;                     (* medicalInfo.bloodGroup *)
  weight : Q;                              (* medicalInfo.weight, kg *)
  hasInfectiousDisease : bool;             (* medicalInfo *)
  isEligible : bool;                       (* eligibility.isEligible *)
  lastDonationDate : option JsDate.t;      (* eligibility *)
  temporaryDeferral : option TemporaryDeferral.t;
  preferences : Preferences.t;
  isActive : bool;
  verificationStatus : string
}.

(** The virtual [age], with [new Date() = today]; [None] is [null]. *)
Definition age (today : JsDate.t) (this : t) : option Z :=
  match dateOfBirth this with
  | None => None
  | Some birthDate =>
      let age := JsDate.getFullYear today - JsDate.getFullYear birthDate in
      let monthDiff := JsDate.getMonth today - JsDate.getMonth birthDate in
      if (monthDiff <? 0)
         || ((monthDiff =? 0)
             && (JsDate.getDate today <? JsDate.getDate birthDate))
      then Some (age - 1)
      else Some age
  end.

(** [ToNumber] of a value that is a Number or [null]. *)
Definition toNumber (v : option Z) : Z :=
  match v with Some n => n | None => 0 end.

Definition MS_PER_DAY : Z := 1000 * 60 * 60 * 24.

(** [Math.floor((now - lastDonationDate) / (1000 * 60 * 60 * 24))]. *)
Definition daysSinceLastDonation (now last : JsDate.t) : Z :=
  (JsDate.getTime now - JsDate.getTime last) / MS_PER_DAY.

(** The check of the last donation date: the days still to wait, when
    the branch returns. *)
Definition mustWait (now : JsDate.t) (this : t) : option Z :=
  match lastDonationDate this with
  | Some last =>
      if daysSinceLastDonation now last <? 56
      then Some (56 - daysSinceLastDonation now last) else None
  | None => None
  end.

(** The check of the temporary deferral,
    [temporaryDeferral && temporaryDeferral.until > now]: the reason of
    the deferral, when the branch returns. A comparison with an [until]
    that is [undefined] is false. *)
Definition deferred (now : JsDate.t) (this : t) : option (option string) :=
  match temporaryDeferral this with
  | Some td =>
      match TemporaryDeferral.until td with
      | Some until =>
          if JsDate.getTime now <? JsDate.getTime until
          then Some (TemporaryDeferral.reason td) else None
      | None => None
      end
  | None => None
  end.

(** [checkEligibility()], with [new Date() = now]. *)
Definition checkEligibility (now : JsDate.t) (this : t) : Eligibility.t :=
  let age := age now this in
  if (toNumber age <? 18) || (65 <? toNumber age) then
    {| Eligibility.eligible := false;
       Eligibility.reason := Some "Age not within eligible range (18-65)" |}
  else if Js.ltQ (weight this) (inject_Z 45) then
    {| Eligibility.eligible := false;
       Eligibility.reason := Some "Weight below minimum requirement (45kg)" |}
  else
    match mustWait now this with
    | Some more =>
        {| Eligibility.eligible := false;
           Eligibility.reason :=
             Some ("Must wait " ++ Js.numToString more
                   ++ " more days since last donation")%string |}
    | None =>
        match deferred now this with
        | Some why =>
            {| Eligibility.eligible := false; Eligibility.reason := why |}
        | None =>
            if hasInfectiousDisease this then
              {| Eligibility.eligible := false;
                 Eligibility.reason :=
                   Some "Medical condition prevents donation" |}
            else
              {| Eligibility.eligible := true;
                 Eligibility.reason := Some "Eligible for donation" |}
        end
    end.

End Donor.

(** The five rules of the eligibility evaluator, as the specification
    words them. *)
Module Rules.

(** On the calendar day [today], someone born on the day [birth] has
    had the [n]-th birthday. *)
Definition birthdayReached (n : Z) (today birth : JsDate.t) : Prop :=
  JsDate.getFullYear birth + n < JsDate.getFullYear today
  \/ (JsDate.getFullYear birth + n = JsDate.getFullYear today
      /\ (JsDate.getMonth birth < JsDate.getMonth today
          \/ (JsDate.getMonth birth = JsDate.getMonth today
              /\ JsDate.getDate birth <= JsDate.getDate today))).

(** The age in whole years is within 18..65: the date of birth is
    known, the 18th birthday has been reached and the 66th has not. *)
Definition ageOk (now : JsDate.t) (d : Donor.t) : Prop :=
  exists birth,
    Donor.dateOfBirth d = Some birth
    /\ birthdayReached 18 now birth
    /\ ~ birthdayReached 66 now birth.

Definition weightOk (d : Donor.t) : Prop :=
  (inject_Z 45 <= Donor.weight d)%Q.

(** The milliseconds of a day. *)
Definition DAY : Z := 86400000.

(** [k] whole days have passed from [last] to [now]. *)
Definition wholeDays (k : Z) (now last : JsDate.t) : Prop :=
  k * DAY <= JsDate.getTime now - JsDate.getTime last < (k + 1) * DAY.

(** At least 56 whole days have passed since the last donation, if
    any. *)
Definition gapOk (now : JsDate.t) (d : Donor.t) : Prop :=
  forall last, Donor.lastDonationDate d = Some last ->
               56 * DAY <= JsDate.getTime now - JsDate.getTime last.

Definition notDeferred (now : JsDate.t) (d : Donor.t) : Prop :=
  forall td until,
    Donor.temporaryDeferral d = Some td ->
    TemporaryDeferral.until td = Some until ->
    JsDate.getTime until <= JsDate.getTime now.

Definition healthy (d : Donor.t) : Prop :=
  Donor.hasInfectiousDisease d = false.

End Rules.

(** ** HTTP replies of the route handlers *)

Module Http.

Inductive Body :=
| Errors                       (* { errors: errors.array() } *)
| Message (message : string).  (* { message: ... } *)

(** Either the handler ran to its final [res.json] and [A] is what it
    stored and returned, or it replied early with a status and stored
    nothing. *)
Inductive Reply (A : Type) :=
| Ok (result : A)
| Fail (status : Z) (body : Body).
Arguments Ok {A} result.
Arguments Fail {A} status body.

(** A body field checked with [isISO8601()]: a string that the validator
    accepts and [new Date] parses, with its time value; a string that the
    validator accepts and [new Date] does not parse (a week date such as
    '2024-W01-1', an ordinal date), which the cast of a [Date] path
    rejects; or a string that the validator refuses. *)
Inductive DateInput :=
| Iso8601 (time : Z)
| NotADate (raw : string)
| IsoNotParsed (raw : string).

Definition isISO8601 (d : DateInput) : bool :=
  match d with
  | Iso8601 _ => true
  | NotADate _ => false
  | IsoNotParsed _ => true
  end.

Definition dateValue (d : DateInput) : option Z :=
  match d with
  | Iso8601 t => Some t
  | NotADate _ => None
  | IsoNotParsed _ => None
  end.

(** Whether a [Date] path of a schema casts the field: a field that is
    absent is not cast. *)
Definition castsToDate (d : option DateInput) : bool :=
  match d with
  | Some (Iso8601 _) => true
  | Some (NotADate _) => false
  | Some (IsoNotParsed _) => false
  | None => true
  end.

Definition isHexDigit (c : ascii) : bool :=
  let n := N_of_ascii c in
  ((48 <=? n) && (n <=? 57) || (65 <=? n) && (n <=? 70)
   || (97 <=? n) && (n <=? 102))%N.

(** [isHexadecimal()], the expression [/^(0x|0h)?[0-9A-F]+$/i]. *)
(** [isLength({ min })]: the characters of the string are counted, a
    character outside the basic plane once and a variation selector not
    at all. *)
Definition isLength (min : nat) (s : string) : bool :=
  (min <=? Js.characters s - Js.selectors (list_ascii_of_string s))%nat.

Definition isHexadecimal (s : string) : bool :=
  let hex cs :=
    match cs with [] => false | _ :: _ => forallb isHexDigit cs end in
  match list_ascii_of_string s with
  | zero :: mark :: digits =>
      (Ascii.eqb zero "0"
       && (Ascii.eqb mark "x" || Ascii.eqb mark "X"
           || Ascii.eqb mark "h" || Ascii.eqb mark "H")
       && hex digits)
      || hex (zero :: mark :: digits)
  | cs => hex cs
  end.

(** [isMongoId()]: [isHexadecimal(str) && str.length === 24]. *)
Definition isMongoId (s : string) : bool :=
  isHexadecimal s && (String.length s =? 24)%nat.



End Http.

(** ** The donor routes: POST /alerts/:alertId/respond *)

Module DonorRoutes.

Import Http.

Record RespondBody := {
  responseType : option string;
  message : option string;
  estimatedArrival : option DateInput
}.

(** The chain of validators of the route. *)
Definition RESPOND_TYPES : list string :=
  ["interested"; "committed"; "not_available"; "not_eligible"].

Definition validRespondBody (b : RespondBody) : bool :=
  match responseType b with
  | Some ty => Js.includes RESPOND_TYPES ty
  | None => false
  end
  && match estimatedArrival b with
     | Some d => isISO8601 d
     | None => true
     end.

Definition hasResponse (donorId : ObjectId) (r : Response.t) : bool :=
  String.eqb (Response.donor r) donorId.

(** The object [responseData] of the handler. *)
Definition responseData (userEmail : string) (body : RespondBody)
    (donor : Donor.t) : AdditionalData.t :=
  {| AdditionalData.donor := Some (Donor._id donor);
     AdditionalData.responseType := responseType body;
     AdditionalData.message := message body;
     AdditionalData.contactInfo :=
       Some {| ContactInfo.phone := Some (Donor.phone donor);
               ContactInfo.email := Some userEmail;
               ContactInfo.preferredTime := None |};
     AdditionalData.estimatedArrival :=
       match estimatedArrival body with
       | Some d => dateValue d
       | None => None
       end;
     AdditionalData.actualArrival := None;
     AdditionalData.donationCompleted := None;
     AdditionalData.donationDetails := None |}.

(** The handler, run at time [now] for the authenticated user whose
    address is [userEmail]. [donor] is the result of
    [Donor.findOne({ user })] and [alert] that of
    [Alert.findById(alertId)]. Past the validators [responseType] is
    present; the empty string stands for it where it is absent. The
    validation that [save()] runs rejects the document when the cast of
    [estimatedArrival] to a [Date] has failed. *)
Definition respond (now : Z) (userEmail : string) (body : RespondBody)
    (donor : option Donor.t) (alert : option Alert.t) : Reply Alert.t :=
  if negb (validRespondBody body) then Fail 400 Errors
  else
    match donor with
    | None => Fail 404 (Message "Donor profile not found")
    | Some donor =>
        match alert with
        | None => Fail 404 (Message "Alert not found")
        | Some alert =>
            if negb (String.eqb (Alert.status alert) "active") then
              Fail 400 (Message "Alert is no longer active")
            else
              match find (hasResponse (Donor._id donor))
                         (Alert.responses alert) with
              | Some _ =>
                  Fail 400 (Message "You have already responded to this alert")
              | None =>
                  match (if castsToDate (estimatedArrival body)
                         then Alert.save
                                (Alert.addResponse now (Donor._id donor)
                                   (Js.orElse (responseType body) "")
                                   (responseData userEmail body donor) alert)
                         else None) with
                  | Some stored => Ok stored
                  | None => Fail 500 (Message "Server error")
                  end
              end
        end
    end.

(** The alert in the store once the handler has replied. *)
Definition stored (before : Alert.t) (r : Reply Alert.t) : Alert.t :=
  match r with Ok a => a | Fail _ _ => before end.

End DonorRoutes.

(** ** The alert routes: sharing and donor matching *)

Module Partnership.
Record t := { hospitalId : ObjectId; type : string; status : string }.
End Partnership.

Module Hospital.
Record t := { _id : ObjectId; name : string;
              partnerships : list Partnership.t }.
End Hospital.

Module AlertRoutes.

Import Http.

(** *** POST /alerts/:alertId/share *)

Record ShareBody := { hospitalIds : list string; message : option string }.

Definition validShareBody (b : ShareBody) : bool :=
  (1 <=? List.length (hospitalIds b))%nat
  && forallb isMongoId (hospitalIds b).

Record ShareResult := {
  result_hospitalId : string;
  success : bool;
  reason : option string
}.

Definition isPartner (hospital : Hospital.t) (hospitalId : string) : bool :=
  existsb
    (fun p =>
       String.eqb (Partnership.hospitalId p) hospitalId
       && String.eqb (Partnership.status p) "active"
       && Js.includes ["blood_sharing"; "emergency_backup"]
                      (Partnership.type p))
    (Hospital.partnerships hospital).

Definition alreadyShared (alert : Alert.t) (hospitalId : string) : bool :=
  existsb (fun s => String.eqb (SharedWith.hospital s) hospitalId)
          (Sharing.sharedWith (Alert.sharing alert)).

(** [{ hospital: hospitalId, notes: message }] cast to a sub-document of
    [sharing.sharedWith] at time [now]: the defaults of the schema fill
    [sharedAt], [unitsPromised] and [unitsDelivered]; nothing fills
    [response]. *)
Definition newSharedWith (now : Z) (hospitalId : string)
    (message : option string) : SharedWith.t :=
  {| SharedWith.hospital := hospitalId;
     SharedWith.sharedAt := now;
     SharedWith.response := None;
     SharedWith.unitsPromised := 0;
     SharedWith.unitsDelivered := 0;
     SharedWith.notes := message |}.

Definition pushSharedWith (s : SharedWith.t) (alert : Alert.t) : Alert.t :=
  Alert.set_sharing
    {| Sharing.allowSharing := Sharing.allowSharing (Alert.sharing alert);
       Sharing.sharedWith := Sharing.sharedWith (Alert.sharing alert) ++ [s] |}
    alert.

(** One iteration of the loop over [hospitalIds]. *)
Definition shareWith (now : Z) (hospital : Hospital.t)
    (message : option string) (st : Alert.t * list ShareResult)
    (hospitalId : string) : Alert.t * list ShareResult :=
  let (alert, results) := st in
  if negb (isPartner hospital hospitalId) then
    (alert,
     results ++ [{| result_hospitalId := hospitalId; success := false;
                    reason := Some "Hospital is not a partner" |}])
  else if alreadyShared alert hospitalId then
    (alert,
     results ++ [{| result_hospitalId := hospitalId; success := false;
                    reason := Some "Alert already shared with this hospital" |}])
  else
    (pushSharedWith (newSharedWith now hospitalId message) alert,
     results ++ [{| result_hospitalId := hospitalId; success := true;
                    reason := None |}]).

(** [Alert.findOne({ _id, hospital: req.hospital._id })] on the document
    that has the requested [_id], if any. *)
Definition ownedBy (hospital : Hospital.t) (alert : option Alert.t)
    : option Alert.t :=
  match alert with
  | Some a =>
      if String.eqb (Alert.hospital a) (Hospital._id hospital)
      then Some a else None
  | None => None
  end.

(** The handler, run at time [now] for the verified hospital
    [hospital]. *)
Definition share (now : Z) (hospital : Hospital.t) (body : ShareBody)
    (alert : option Alert.t) : Reply (Alert.t * list ShareResult) :=
  if negb (validShareBody body) then Fail 400 Errors
  else
    match ownedBy hospital alert with
    | None => Fail 404 (Message "Alert not found")
    | Some alert =>
        if negb (Sharing.allowSharing (Alert.sharing alert)) then
          Fail 400 (Message "Alert sharing is not allowed")
        else
          let (alert', results) :=
            fold_left (shareWith now hospital (message body))
                      (hospitalIds body) (alert, []) in
          match Alert.save alert' with
          | Some stored => Ok (stored, results)
          | None => Fail 500 (Message "Server error")
          end
    end.

(** *** POST /alerts/:alertId/respond-share *)

Record RespondShareBody := {
  response : option string;
  unitsPromised : option Z;
  notes : option string
}.

Definition validRespondShareBody (b : RespondShareBody) : bool :=
  match response b with
  | Some r => Js.includes ["accepted"; "declined"; "partially_fulfilled"] r
  | None => false
  end
  && match unitsPromised b with
     | Some u => 0 <=? u
     | None => true
     end.

Definition sharedWithHospital (hospitalId : ObjectId) (s : SharedWith.t)
    : bool :=
  String.eqb (SharedWith.hospital s) hospitalId.

(** [sharingEntry.response !== 'pending']. *)
Definition notPending (s : SharedWith.t) : bool :=
  match SharedWith.response s with
  | Some r => negb (String.eqb r "pending")
  | None => true
  end.

(** The three assignments to the sharing entry; [unitsPromised || 0]. *)
Definition recordShareResponse (b : RespondShareBody) (s : SharedWith.t)
    : SharedWith.t :=
  {| SharedWith.hospital := SharedWith.hospital s;
     SharedWith.sharedAt := SharedWith.sharedAt s;
     SharedWith.response := response b;
     SharedWith.unitsPromised := Js.orElse (unitsPromised b) 0;
     SharedWith.unitsDelivered := SharedWith.unitsDelivered s;
     SharedWith.notes := notes b |}.

(** The handler, for the verified hospital [hospital]; [alert] is the
    result of [Alert.findById(alertId)]. *)
Definition respondShare (hospital : Hospital.t) (body : RespondShareBody)
    (alert : option Alert.t) : Reply Alert.t :=
  if negb (validRespondShareBody body) then Fail 400 Errors
  else
    match alert with
    | None => Fail 404 (Message "Alert not found")
    | Some alert =>
        let me := Hospital._id hospital in
        match find (sharedWithHospital me)
                   (Sharing.sharedWith (Alert.sharing alert)) with
        | None => Fail 404 (Message "Alert was not shared with your hospital")
        | Some sharingEntry =>
            if notPending sharingEntry then
              Fail 400 (Message "You have already responded to this alert")
            else
              let alert' :=
                Alert.set_sharing
                  {| Sharing.allowSharing :=
                       Sharing.allowSharing (Alert.sharing alert);
                     Sharing.sharedWith :=
                       Alert.updateFound (sharedWithHospital me)
                         (recordShareResponse body)
                         (Sharing.sharedWith (Alert.sharing alert)) |}
                  alert in
              match Alert.save alert' with
              | Some stored => Ok stored
              | None => Fail 500 (Message "Server error")
              end
        end
    end.

(** Invariant of the loop of [share], on the alert and the results so
    far: for every hospital reported as a success, the entry that
    [respond-share] will find for it (the first of that hospital) has no
    [response]. *)
Definition freshFor (st : Alert.t * list ShareResult) : Prop :=
  forall res,
    In res (snd st) -> success res = true ->
    exists s,
      find (sharedWithHospital (result_hospitalId res))
           (Sharing.sharedWith (Alert.sharing (fst st))) = Some s
      /\ SharedWith.response s = None.

(** *** findEligibleDonors *)

(** The [Donor.find] query over the collection [donors]; [near d] says
    whether the coordinates of [d] are within
    [alert.location.searchRadius * 1000] metres of the alert. *)
Definition queryDonors (near : Donor.t -> bool)
    (eligibleBloodTypes : list string) (donors : list Donor.t)
    : list Donor.t :=
  filter
    (fun d =>
       Js.includes eligibleBloodTypes (Donor.bloodGroup d)
       && Donor.isEligible d
       && String.eqb (Donor.verificationStatus d) "verified"
       && Donor.isActive d
       && near d)
    donors.

(** [Alert.exists({ _id: alert._id, 'responses.donor': donor._id })],
    the alert having just been saved. *)
Definition hasResponded (alert : Alert.t) (donor : Donor.t) : bool :=
  existsb (fun r => String.eqb (Response.donor r) (Donor._id donor))
          (Alert.responses alert).

(** The body of the loop: [true] when the donor is pushed, [false] on
    each [continue]. *)
Definition keepDonor (now : JsDate.t) (alert : Alert.t) (donor : Donor.t)
    : bool :=
  let eligibility := Donor.checkEligibility now donor in
  if negb (Eligibility.eligible eligibility) then false
  else if Js.ltQ (Preferences.maxTravelDistance (Donor.preferences donor))
                 (inject_Z (Alert.searchRadius alert)) then false
  else if hasResponded alert donor then false
  else if Preferences.emergencyOnly (Donor.preferences donor)
          && negb (String.eqb (Alert.urgencyLevel alert) "critical")
       then false
  else true.

Fixpoint pushEligible (now : JsDate.t) (alert : Alert.t)
    (donors eligibleDonors : list Donor.t) : list Donor.t :=
  match donors with
  | [] => eligibleDonors
  | donor :: rest =>
      pushEligible now alert rest
        (if keepDonor now alert donor
         then eligibleDonors ++ [donor] else eligibleDonors)
  end.

(** [findEligibleDonors(alert)] over the collection of donors, the
    queries succeeding (when one rejects, the function logs the error
    and returns the empty array). *)
Definition findEligibleDonors (now : JsDate.t) (near : Donor.t -> bool)
    (collection : list Donor.t) (alert : Alert.t) : list Donor.t :=
  let eligibleBloodTypes := compatibleDonorTypes (Alert.bloodType alert) in
  let donors := queryDonors near eligibleBloodTypes collection in
  pushEligible now alert donors [].

End AlertRoutes.

(** ** backend/services/notificationService.js *)

Module NotificationService.

Inductive Channel := Email | Sms | Push.

Module Count.
Record t := { sent : Z; failed : Z }.
End Count.

(** The object [results]. *)
Record Results := { email : Count.t; sms : Count.t; push : Count.t }.

Definition noResults : Results :=
  {| email := {| Count.sent := 0; Count.failed := 0 |};
     sms := {| Count.sent := 0; Count.failed := 0 |};
     push := {| Count.sent := 0; Count.failed := 0 |} |}.

Definition count (ch : Channel) (r : Results) : Count.t :=
  match ch with Email => email r | Sms => sms r | Push => push r end.

Definition set_count (ch : Channel) (c : Count.t) (r : Results) : Results :=
  match ch with
  | Email => {| email := c; sms := sms r; push := push r |}
  | Sms => {| email := email r; sms := c; push := push r |}
  | Push => {| email := email r; sms := sms r; push := c |}
  end.

(** [results.<ch>.sent++] and [results.<ch>.failed++]. *)
Definition incSent (ch : Channel) (r : Results) : Results :=
  set_count ch {| Count.sent := Count.sent (count ch r) + 1;
                  Count.failed := Count.failed (count ch r) |} r.

Definition incFailed (ch : Channel) (r : Results) : Results :=
  set_count ch {| Count.sent := Count.sent (count ch r);
                  Count.failed := Count.failed (count ch r) + 1 |} r.

Definition enabled (ch : Channel) (donor : Donor.t) : bool :=
  let m := Preferences.notificationMethods (Donor.preferences donor) in
  match ch with
  | Email => NotificationMethods.email m
  | Sms => NotificationMethods.sms m
  | Push => NotificationMethods.push m
  end.

(** The two transports that can reject. [emailDelivers alert donor] is
    [false] when [sendEmailAlert(alert, donor)] throws (no transporter
    configured, or [populate] or [sendMail] rejects), and likewise for
    [sendSMSAlert]. *)
Record Transports := {
  emailDelivers : Alert.t -> Donor.t -> bool;
  smsDelivers : Alert.t -> Donor.t -> bool
}.

(** [sendPushAlert] builds a payload, logs it and returns: it does not
    throw. *)
Definition delivers (tr : Transports) (ch : Channel)
    (alert : Alert.t) (donor : Donor.t) : bool :=
  match ch with
  | Email => emailDelivers tr alert donor
  | Sms => smsDelivers tr alert donor
  | Push => true
  end.

Definition getPreferredMethod (donor : Donor.t) : string :=
  if enabled Email donor then "email"
  else if enabled Sms donor then "sms"
  else if enabled Push donor then "push"
  else "email".

Definition incrementFailedCount (results : Results) (donor : Donor.t)
    : Results :=
  let r1 := if enabled Email donor then incFailed Email results else results in
  let r2 := if enabled Sms donor then incFailed Sms r1 else r1 in
  if enabled Push donor then incFailed Push r2 else r2.

(** The state that the loop of [sendBloodShortageAlert] threads: the
    counters, the alert, and the calls made to the three senders, in
    order. *)
Record State := {
  results : Results;
  alert : Alert.t;
  calls : list (ObjectId * Channel)
}.

(** One [if (enabled) { await send(...); results.<ch>.sent++ }] of the
    [try] block, followed by the rest [k] of the block. The boolean is
    [false] when the block was left by a throw. *)
Definition sendVia (tr : Transports) (ch : Channel) (donor : Donor.t)
    (k : State -> State * bool) (st : State) : State * bool :=
  if enabled ch donor then
    let st1 := {| results := results st; alert := alert st;
                  calls := calls st ++ [(Donor._id donor, ch)] |} in
    if delivers tr ch (alert st) donor then
      k {| results := incSent ch (results st1); alert := alert st1;
           calls := calls st1 |}
    else (st1, false)
  else k st.

(** [alert.notifications.sentTo.push({ donor, method, sentAt })], cast
    with the defaults of the schema. *)
Definition recordNotification (now : Z) (donor : Donor.t) (st : State)
    : State * bool :=
  let a := alert st in
  let n := Alert.notifications a in
  let entry :=
    {| SentTo.donor := Donor._id donor;
       SentTo.method := getPreferredMethod donor;
       SentTo.sentAt := now;
       SentTo.opened := false;
       SentTo.openedAt := None;
       SentTo.responded := false;
       SentTo.respondedAt := None;
       SentTo.response := None |} in
  ({| results := results st;
      alert :=
        Alert.set_notifications
          {| Notifications.sent := Notifications.sent n;
             Notifications.opened := Notifications.opened n;
             Notifications.responded := Notifications.responded n;
             Notifications.sentTo := Notifications.sentTo n ++ [entry] |} a;
      calls := calls st |}, true).

(** The [try { ... } catch { incrementFailedCount }] for one donor. *)
Definition notifyDonor (now : Z) (tr : Transports) (st : State)
    (donor : Donor.t) : State :=
  let (st', completed) :=
    sendVia tr Email donor
      (sendVia tr Sms donor
         (sendVia tr Push donor (recordNotification now donor))) st in
  if completed then st'
  else {| results := incrementFailedCount (results st') donor;
          alert := alert st'; calls := calls st' |}.

(** [sendBloodShortageAlert(alert, donors)] up to the call of
    [alert.save()]: the returned [results], the alert as it is handed to
    [save], and the calls made. *)
Definition sendBloodShortageAlert (now : Z) (tr : Transports)
    (alert0 : Alert.t) (donors : list Donor.t) : State :=
  let st :=
    fold_left (notifyDonor now tr) donors
      {| results := noResults; alert := alert0; calls := [] |} in
  let n := Alert.notifications (alert st) in
  {| results := results st;
     alert :=
       Alert.set_notifications
         {| Notifications.sent :=
              Notifications.sent n + Z.of_nat (List.length donors);
            Notifications.opened := Notifications.opened n;
            Notifications.responded := Notifications.responded n;
            Notifications.sentTo := Notifications.sentTo n |} (alert st);
     calls := calls st |}.

End NotificationService.

(** Vocabulary for the statements about the dispatch: the order in which
    the [try] block calls the senders, and the first call that throws. *)
Module Dispatch.

Import NotificationService.

Definition CHANNELS : list Channel := [Email; Sms; Push].

(** The channels that the [try] block reaches up to and including [ch],
    and those strictly before [ch]. *)
Definition upTo (ch : Channel) : list Channel :=
  match ch with
  | Email => [Email]
  | Sms => [Email; Sms]
  | Push => [Email; Sms; Push]
  end.

Definition before (c ch : Channel) : bool :=
  match c, ch with
  | Email, (Sms | Push) => true
  | Sms, Push => true
  | _, _ => false
  end.

(** A call of the sender of [ch] for [donor] throws. *)
Definition throws (tr : Transports) (a : Alert.t) (donor : Donor.t)
    (ch : Channel) : bool :=
  enabled ch donor && negb (delivers tr ch a donor).

(** The first sender, in the order of the block, whose call throws. *)
Definition firstThrow (tr : Transports) (a : Alert.t) (donor : Donor.t)
    : option Channel :=
  find (throws tr a donor) CHANNELS.

(** The calls of the senders of the channels [chs] that [donor] has
    enabled. *)
Definition callsOf (donor : Donor.t) (chs : list Channel)
    : list (ObjectId * Channel) :=
  map (pair (Donor._id donor)) (filter (fun c => enabled c donor) chs).

Definition one (b : bool) : Z := if b then 1 else 0.

End Dispatch.

(** ** The percentages as the specification words them *)

Module Spec.

(** [round(100 * num / den)], 0 when [den] is 0, with exact rational
    arithmetic and halves rounded up. *)
Definition percentage (num den : Z) : Z :=
  if den =? 0 then 0
  else Qfloor (inject_Z 100 * inject_Z num / inject_Z den + (1 # 2))%Q.

Definition getResponseRate (a : Alert.t) : Z :=
  percentage (Notifications.responded (Alert.notifications a))
             (Notifications.sent (Alert.notifications a)).

Definition getConversionRate (a : Alert.t) : Z :=
  percentage
    (Z.of_nat (List.length (filter Response.donationCompleted
                                   (Alert.responses a))))
    (Z.of_nat (List.length (Alert.responses a))).

(** [100 * num / den] lies exactly halfway between two integers. *)
Definition halfway (num den : Z) : bool :=
  (200 * num) mod (2 * den) =? den.

(** The computation that both methods of the code apply to their two
    counts, and its comparison with [percentage] over a range of
    counts. *)
Definition computed (num den : Z) : F64.t :=
  if den =? 0 then F64.ofZ 0
  else F64.round (F64.mul (F64.div (F64.ofZ num) (F64.ofZ den)) (F64.ofZ 100)).

(** Rounding halves up, on integers: [floor ((200 num + den) / (2 den))]. *)
Definition percentageZ (num den : Z) : Z := (200 * num + den) / (2 * den).

Definition agrees (num den : Z) : bool :=
  match F64.toZ (computed num den) with
  | Some v =>
      if halfway num den
      then (v =? percentageZ num den) || (v =? percentageZ num den - 1)
      else v =? percentageZ num den
  | None => false
  end.

Definition range (lo : Z) (n : nat) : list Z :=
  map (fun k => lo + Z.of_nat k) (seq 0 n).

(** The largest count of the comparison. *)
Definition BOUND : nat := 100.

End Spec.

(** ** Sample documents *)

Module Examples.

Definition hospitalA : ObjectId := "64b7f0a1c2d3e4f5a6b7c801".
Definition hospitalB : ObjectId := "64b7f0a1c2d3e4f5a6b7c802".
Definition userA : ObjectId := "64b7f0a1c2d3e4f5a6b7c8a0".

(** The request of the scenario: O-, three units, critical. *)
Definition criticalONeg : Alert.Data :=
  {| Alert.data_hospital := hospitalA;
     Alert.data_bloodType := "O-";
     Alert.data_urgencyLevel := "critical";
     Alert.data_unitsNeeded := 3;
     Alert.data_reason := "Trauma surgery, stock exhausted";
     Alert.data_searchRadius := 50;
     Alert.data_createdBy := userA |}.

Definition alertId : ObjectId := "64b7f0a1c2d3e4f5a6b7c900".

(** 2024-01-01T00:00:00Z. *)
Definition t0 : Z := 1704067200000.

Definition alert0 : Alert.t := Alert.new alertId t0 criticalONeg.

(** 2024-01-01 in the calendar of the host. *)
Definition day0 : JsDate.t :=
  {| JsDate.getTime := t0; JsDate.getFullYear := 2024;
     JsDate.getMonth := 0; JsDate.getDate := 1 |}.

Definition born1990 : JsDate.t :=
  {| JsDate.getTime := 631152000000; JsDate.getFullYear := 1990;
     JsDate.getMonth := 0; JsDate.getDate := 1 |}.

Definition allChannels : NotificationMethods.t :=
  {| NotificationMethods.email := true; NotificationMethods.sms := true;
     NotificationMethods.push := true |}.

(** A verified, eligible AB- donor whose travel ceiling is 10 km. *)
Definition donorABNeg : Donor.t :=
  {| Donor._id := "64b7f0a1c2d3e4f5a6b7cd01";
     Donor.user := "64b7f0a1c2d3e4f5a6b7cde1";
     Donor.firstName := "Asha";
     Donor.lastName := "Rao";
     Donor.dateOfBirth := Some born1990;
     Donor.phone := "+91 98765 43210";
     Donor.bloodGroup := "AB-";
     Donor.weight := inject_Z 62;
     Donor.hasInfectiousDisease := false;
     Donor.isEligible := true;
     Donor.lastDonationDate := None;
     Donor.temporaryDeferral := None;
     Donor.preferences :=
       {| Preferences.notificationMethods := allChannels;
          Preferences.maxTravelDistance := inject_Z 10;
          Preferences.emergencyOnly := false |};
     Donor.isActive := true;
     Donor.verificationStatus := "verified" |}.

(** The same donor, with another blood group and travel ceiling. *)
Definition donorWith (id : ObjectId) (bloodGroup : string)
    (maxTravelDistance : Q) (methods : NotificationMethods.t)
    (last : option JsDate.t) : Donor.t :=
  {| Donor._id := id;
     Donor.user := Donor.user donorABNeg;
     Donor.firstName := Donor.firstName donorABNeg;
     Donor.lastName := Donor.lastName donorABNeg;
     Donor.dateOfBirth := Donor.dateOfBirth donorABNeg;
     Donor.phone := Donor.phone donorABNeg;
     Donor.bloodGroup := bloodGroup;
     Donor.weight := Donor.weight donorABNeg;
     Donor.hasInfectiousDisease := false;
     Donor.isEligible := true;
     Donor.lastDonationDate := last;
     Donor.temporaryDeferral := None;
     Donor.preferences :=
       {| Preferences.notificationMethods := methods;
          Preferences.maxTravelDistance := maxTravelDistance;
          Preferences.emergencyOnly := false |};
     Donor.isActive := true;
     Donor.verificationStatus := "verified" |}.

Definition donorONeg : Donor.t :=
  donorWith "64b7f0a1c2d3e4f5a6b7cd02" "O-" (inject_Z 100) allChannels None.

(** 56 and 55 days before [day0]: 2023-11-06 and 2023-11-07. *)
Definition before56 : JsDate.t :=
  {| JsDate.getTime := t0 - 56 * Donor.MS_PER_DAY;
     JsDate.getFullYear := 2023; JsDate.getMonth := 10;
     JsDate.getDate := 6 |}.

Definition before55 : JsDate.t :=
  {| JsDate.getTime := t0 - 55 * Donor.MS_PER_DAY;
     JsDate.getFullYear := 2023; JsDate.getMonth := 10;
     JsDate.getDate := 7 |}.

Definition donorLast (last : JsDate.t) : Donor.t :=
  donorWith "64b7f0a1c2d3e4f5a6b7cd03" "A+" (inject_Z 100) allChannels (Some last).

Definition someDetails : DonationDetails.t :=
  {| DonationDetails.volume := Some 450; DonationDetails.date := Some t0;
     DonationDetails.location := Some "Blood bank, ward 3";
     DonationDetails.notes := None |}.

(** [{ donationDetails: { ... } }]. *)
Definition withDetails : AdditionalData.t :=
  {| AdditionalData.donor := None; AdditionalData.responseType := None;
     AdditionalData.message := None; AdditionalData.contactInfo := None;
     AdditionalData.estimatedArrival := None;
     AdditionalData.actualArrival := None;
     AdditionalData.donationCompleted := None;
     AdditionalData.donationDetails := Some someDetails |}.

Definition interested : DonorRoutes.RespondBody :=
  {| DonorRoutes.responseType := Some "interested";
     DonorRoutes.message := Some "On my way";
     DonorRoutes.estimatedArrival := None |}.

(** An alert for AB- blood with a search radius of 50 km. *)
Definition alertABNeg : Alert.t :=
  Alert.new "64b7f0a1c2d3e4f5a6b7c901" t0
    {| Alert.data_hospital := hospitalA;
       Alert.data_bloodType := "AB-";
       Alert.data_urgencyLevel := "high";
       Alert.data_unitsNeeded := 2;
       Alert.data_reason := "Scheduled surgery, rare type";
       Alert.data_searchRadius := 50;
       Alert.data_createdBy := userA |}.

(** A donor who enabled SMS and push only. *)
Definition donorSmsPush : Donor.t :=
  donorWith "64b7f0a1c2d3e4f5a6b7cd04" "O-" (inject_Z 100)
    {| NotificationMethods.email := false; NotificationMethods.sms := true;
       NotificationMethods.push := true |} None.

(** A deployment without [EMAIL_USER]: [sendEmailAlert] throws 'Email
    service not configured'; SMS is delivered. *)
Definition emailNotConfigured : NotificationService.Transports :=
  {| NotificationService.emailDelivers := fun _ _ => false;
     NotificationService.smsDelivers := fun _ _ => true |}.


(** Hospital A, the owner of [alert0], has an active blood-sharing
    partnership with hospital B. *)
Definition hospitalADoc : Hospital.t :=
  {| Hospital._id := hospitalA;
     Hospital.name := "City General";
     Hospital.partnerships :=
       [ {| Partnership.hospitalId := hospitalB;
            Partnership.type := "blood_sharing";
            Partnership.status := "active" |} ] |}.

Definition hospitalBDoc : Hospital.t :=
  {| Hospital._id := hospitalB;
     Hospital.name := "Riverside Clinic";
     Hospital.partnerships :=
       [ {| Partnership.hospitalId := hospitalA;
            Partnership.type := "blood_sharing";
            Partnership.status := "active" |} ] |}.

Definition shareWithB : AlertRoutes.ShareBody :=
  {| AlertRoutes.hospitalIds := [hospitalB];
     AlertRoutes.message := Some "Can you spare O- units?" |}.

Definition accept2 : AlertRoutes.RespondShareBody :=
  {| AlertRoutes.response := Some "accepted";
     AlertRoutes.unitsPromised := Some 2;
     AlertRoutes.notes := Some "Two units on the way" |}.

End Examples.

(** * The rest of the alert, donor, hospital and notification code *)

(** ** backend/models/Alert.js: the static [checkDonorEligibility] *)

Module AlertStatics.

(** [Alert.checkDonorEligibility(donor, alert)], with [new Date() = now]
    in the call of [donor.checkEligibility()]. *)
Definition checkDonorEligibility (now : JsDate.t) (donor : Donor.t)
    (alert : Alert.t) : Eligibility.t :=
  let eligibleBloodTypes := compatibleBloodTypes (Alert.bloodType alert) in
  if negb (Js.includes eligibleBloodTypes (Donor.bloodGroup donor)) then
    {| Eligibility.eligible := false;
       Eligibility.reason := Some "Blood type incompatible" |}
  else
    let donorEligibility := Donor.checkEligibility now donor in
    if negb (Eligibility.eligible donorEligibility) then donorEligibility
    else {| Eligibility.eligible := true;
            Eligibility.reason := Some "Eligible for this alert" |}.

End AlertStatics.

(** ** The alert routes: status, expiry *)

Module AlertLifecycle.

Import Http.

Definition set_lastModifiedBy (v : option ObjectId) (a : Alert.t) : Alert.t :=
  {| Alert._id := Alert._id a; Alert.hospital := Alert.hospital a;
     Alert.bloodType := Alert.bloodType a;
     Alert.urgencyLevel := Alert.urgencyLevel a;
     Alert.unitsNeeded := Alert.unitsNeeded a;
     Alert.unitsCollected := Alert.unitsCollected a;
     Alert.reason := Alert.reason a;
     Alert.searchRadius := Alert.searchRadius a;
     Alert.status := Alert.status a;
     Alert.notifications := Alert.notifications a;
     Alert.responses := Alert.responses a;
     Alert.sharing := Alert.sharing a; Alert.expiresAt := Alert.expiresAt a;
     Alert.isActive := Alert.isActive a; Alert.createdBy := Alert.createdBy a;
     Alert.lastModifiedBy := v;
     Alert.internalNotes := Alert.internalNotes a |}.

Definition set_internalNotes (v : option string) (a : Alert.t) : Alert.t :=
  {| Alert._id := Alert._id a; Alert.hospital := Alert.hospital a;
     Alert.bloodType := Alert.bloodType a;
     Alert.urgencyLevel := Alert.urgencyLevel a;
     Alert.unitsNeeded := Alert.unitsNeeded a;
     Alert.unitsCollected := Alert.unitsCollected a;
     Alert.reason := Alert.reason a;
     Alert.searchRadius := Alert.searchRadius a;
     Alert.status := Alert.status a;
     Alert.notifications := Alert.notifications a;
     Alert.responses := Alert.responses a;
     Alert.sharing := Alert.sharing a; Alert.expiresAt := Alert.expiresAt a;
     Alert.isActive := Alert.isActive a; Alert.createdBy := Alert.createdBy a;
     Alert.lastModifiedBy := Alert.lastModifiedBy a;
     Alert.internalNotes := v |}.

(** *** PUT /alerts/:alertId/status *)

Record StatusBody := { status : option string; reason : option string }.

Definition validStatusBody (b : StatusBody) : bool :=
  match status b with
  | Some s => Js.includes Alert.STATUSES s
  | None => false
  end.

(** A string is truthy when it is not empty. *)
Definition truthy (s : option string) : bool :=
  match s with
  | Some s' => negb (String.eqb s' "")
  | None => false
  end.

Definition newline : string := String (ascii_of_nat 10) EmptyString.

(** The template literal appended to [internalNotes]; [iso] is
    [new Date().toISOString()]. *)
Definition statusNote (notes : option string) (iso oldStatus newStatus
    reason : string) : string :=
  ((if truthy notes then Js.orElse notes "" else "")
   ++ newline ++ iso ++ ": Status changed from " ++ oldStatus ++ " to "
   ++ newStatus ++ ". Reason: " ++ reason)%string.

(** The handler, for the user [userId] of the verified hospital
    [hospital]; [iso] is the ISO rendering of the clock. The body is read
    after the sanitizer [trim()] of [reason]. *)
Definition updateStatus (iso : string) (userId : ObjectId)
    (hospital : Hospital.t) (body : StatusBody) (alert : option Alert.t)
    : Reply Alert.t :=
  if negb (validStatusBody body) then Fail 400 Errors
  else
    match AlertRoutes.ownedBy hospital alert with
    | None => Fail 404 (Message "Alert not found")
    | Some alert =>
        let oldStatus := Alert.status alert in
        let newStatus := Js.orElse (status body) "" in
        let a1 := Alert.set_status newStatus alert in
        let a2 := set_lastModifiedBy (Some userId) a1 in
        let a3 :=
          if truthy (reason body) then
            set_internalNotes
              (Some (statusNote (Alert.internalNotes a2) iso oldStatus
                       newStatus (Js.orElse (reason body) "")))
              a2
          else a2 in
        match Alert.save a3 with
        | Some stored => Ok stored
        | None => Fail 500 (Message "Server error")
        end
    end.

(** *** PUT /alerts/:alertId/extend *)

Record ExtendBody := { hours : option Z }.

Definition validExtendBody (b : ExtendBody) : bool :=
  match hours b with
  | Some h => (1 <=? h) && (h <=? 168)
  | None => false
  end.

Definition extend (hospital : Hospital.t) (body : ExtendBody)
    (alert : option Alert.t) : Reply Alert.t :=
  if negb (validExtendBody body) then Fail 400 Errors
  else
    match AlertRoutes.ownedBy hospital alert with
    | None => Fail 404 (Message "Alert not found")
    | Some alert =>
        if negb (String.eqb (Alert.status alert) "active")
           && negb (String.eqb (Alert.status alert) "partially_fulfilled")
        then Fail 400 (Message "Only active alerts can be extended")
        else
          match Alert.save
                  (Alert.extendExpiry (Js.orElse (hours body) 0) alert) with
          | Some stored => Ok stored
          | None => Fail 500 (Message "Server error")
          end
    end.

End AlertLifecycle.

(** ** The notification routes: PUT /notifications/:notificationId/read *)

Module NotificationRoutes.

Import Http.

(** The two assignments to the notification that [find] returned. *)
Definition markOpened (now : Z) (n : SentTo.t) : SentTo.t :=
  {| SentTo.donor := SentTo.donor n;
     SentTo.method := SentTo.method n;
     SentTo.sentAt := SentTo.sentAt n;
     SentTo.opened := true;
     SentTo.openedAt := Some now;
     SentTo.responded := SentTo.responded n;
     SentTo.respondedAt := SentTo.respondedAt n;
     SentTo.response := SentTo.response n |}.

(** [Alert.findOne({ _id, 'notifications.sentTo.donor': req.user._id })]
    on the document that has the requested [_id], if any. The handler
    matches the notifications on the id of the user. *)
Definition sentToUser (userId : ObjectId) (alert : option Alert.t)
    : option Alert.t :=
  match alert with
  | Some a =>
      if existsb (Alert.isDonor userId)
                 (Notifications.sentTo (Alert.notifications a))
      then Some a else None
  | None => None
  end.

(** The handler for a user of role [role] ('donor' or 'hospital', by
    [authorize]), run at time [now]. [Ok] carries the alert as it is in
    the store when the handler replies. *)
Definition markRead (now : Z) (role : string) (userId : ObjectId)
    (alert : option Alert.t) : Reply (option Alert.t) :=
  if String.eqb role "donor" then
    match sentToUser userId alert with
    | None => Fail 404 (Message "Notification not found")
    | Some a =>
        let n := Alert.notifications a in
        match find (Alert.isDonor userId) (Notifications.sentTo n) with
        | Some notification =>
            if negb (SentTo.opened notification) then
              let a' :=
                Alert.set_notifications
                  {| Notifications.sent := Notifications.sent n;
                     Notifications.opened := Notifications.opened n + 1;
                     Notifications.responded := Notifications.responded n;
                     Notifications.sentTo :=
                       Alert.updateFound (Alert.isDonor userId)
                         (markOpened now) (Notifications.sentTo n) |} a in
              match Alert.save a' with
              | Some stored => Ok (Some stored)
              | None => Fail 500 (Message "Server error")
              end
            else Ok (Some a)
        | None => Ok (Some a)
        end
    end
  else Ok alert.

End NotificationRoutes.

(** ** The alert routes: POST /alerts *)

Module AlertCreate.

Import Http.

(** The fields of the body that the handler reads; [reason] is read
    after the sanitizer [trim()], [unitsNeeded] and [searchRadius] are
    the Numbers that the fields are cast to. Of [patientInfo], which the
    handler copies to the document, [requiredBy] is checked by the route
    and cast by the schema, and [gender] is checked by the schema;
    [otherFieldsCast] tells whether the rest of what the handler copies
    ([age], [condition] and [isEmergency] of [patientInfo], and [tags])
    can be cast to the types of the schema. *)
Record CreateBody := {
  bloodType : option string;
  urgencyLevel : option string;
  unitsNeeded : option Z;
  reason : option string;
  requiredBy : option DateInput;          (* patientInfo.requiredBy *)
  gender : option string;                 (* patientInfo.gender *)
  otherFieldsCast : bool;
  searchRadius : option Z                 (* location.searchRadius *)
}.

Definition GENDERS : list string := ["male"; "female"; "other"].

Definition validCreateBody (b : CreateBody) : bool :=
  match bloodType b with
  | Some t => Js.includes BLOOD_TYPES t | None => false end
  && match urgencyLevel b with
     | Some u => Js.includes Alert.URGENCY_LEVELS u | None => false end
  && match unitsNeeded b with
     | Some u => (1 <=? u) && (u <=? 100) | None => false end
  && isLength 10 (Js.orElse (reason b) "")
  && match requiredBy b with
     | Some d => isISO8601 d | None => false end
  && match searchRadius b with
     | Some r => (5 <=? r) && (r <=? 200) | None => true end.

(** Whether the document that [new Alert(alertData)] builds has been
    cast without error, and [patientInfo.gender] is in its enum: when
    not, the validation that the first [save()] runs rejects it. *)
Definition documentCasts (b : CreateBody) : bool :=
  castsToDate (requiredBy b) && otherFieldsCast b
  && Alert.enumValid GENDERS (gender b).

(** The object [alertData]; [searchRadius || 50]. *)
Definition alertData (userId : ObjectId) (hospital : Hospital.t)
    (b : CreateBody) : Alert.Data :=
  {| Alert.data_hospital := Hospital._id hospital;
     Alert.data_bloodType := Js.orElse (bloodType b) "";
     Alert.data_urgencyLevel := Js.orElse (urgencyLevel b) "";
     Alert.data_unitsNeeded := Js.orElse (unitsNeeded b) 0;
     Alert.data_reason := Js.orElse (reason b) "";
     Alert.data_searchRadius :=
       match searchRadius b with
       | Some r => if r =? 0 then 50 else r
       | None => 50
       end;
     Alert.data_createdBy := userId |}.

(** What the handler meets outside the request: the senders, whether
    [sendHospitalAlert] resolves (it throws without a configured
    transporter), the donors of the collection and the proximity
    predicate of the query for a given alert. *)
Record Env := {
  transports : NotificationService.Transports;
  hospitalMailDelivers : bool;
  donors : list Donor.t;
  near : Alert.t -> Donor.t -> bool
}.

(** The body of the 201 reply. *)
Record Created := {
  alert : Alert.t;
  notificationResults : NotificationService.Results;
  eligibleDonors : nat
}.

(** The reply, the alert in the store when the handler replies, and
    [hospital.statistics.totalBloodRequests] as stored. *)
Record Outcome := {
  reply : Reply Created;
  storedAlert : option Alert.t;
  totalBloodRequests : Z
}.

(** The handler, run at time [now] for the user [userId] of the verified
    hospital [hospital], whose request counter is [requests]; [id] is the
    [_id] of the new document. The first [save] validates the new
    document, the casts and the enum of [patientInfo.gender] included. *)
Definition create (id : ObjectId) (now : JsDate.t) (env : Env)
    (userId : ObjectId) (hospital : Hospital.t) (requests : Z)
    (body : CreateBody) : Outcome :=
  if negb (validCreateBody body) then
    {| reply := Fail 400 Errors; storedAlert := None;
       totalBloodRequests := requests |}
  else
    match (if documentCasts body
           then Alert.save
                  (Alert.new id (JsDate.getTime now)
                     (alertData userId hospital body))
           else None) with
    | None =>
        {| reply := Fail 500 (Message "Server error"); storedAlert := None;
           totalBloodRequests := requests |}
    | Some saved =>
        let eligible :=
          AlertRoutes.findEligibleDonors now (near env saved) (donors env)
            saved in
        let sent :=
          NotificationService.sendBloodShortageAlert (JsDate.getTime now)
            (transports env) saved eligible in
        match Alert.save (NotificationService.alert sent) with
        | None =>
            {| reply := Fail 500 (Message "Server error");
               storedAlert := Some saved;
               totalBloodRequests := requests |}
        | Some notified =>
            if negb (hospitalMailDelivers env) then
              {| reply := Fail 500 (Message "Server error");
                 storedAlert := Some notified;
                 totalBloodRequests := requests |}
            else
              {| reply :=
                   Ok {| alert := notified;
                         notificationResults :=
                           NotificationService.results sent;
                         eligibleDonors := List.length eligible |};
                 storedAlert := Some notified;
                 totalBloodRequests := requests + 1 |}
        end
    end.

End AlertCreate.

(** ** backend/models/Hospital.js: inventory and partnerships *)

(** An entry of [inventory.bloodUnits]. *)
Module Units.
Record t := { available : Z; reserved : Z; critical : Z; lastUpdated : Z }.
End Units.

(** An element of the array that [getCriticalShortages] returns. *)
Module Shortage.
Record t := { bloodType : string; available : Z; critical : Z; deficit : Z }.
End Shortage.

Module HospitalDoc.

(** The hospital document with its inventory: [profile] holds the
    fields of [Hospital.t]; [bloodUnits] is the object
    [inventory.bloodUnits], one property per blood type in the order of
    the schema. *)
Record t := {
  profile : Hospital.t;
  bloodUnits : list (string * Units.t);
  autoAlertEnabled : bool                  (* alerts.autoAlertEnabled *)
}.

(** [this.inventory.bloodUnits[bloodType]], for the name of a blood
    type; the names of the methods that the nested object inherits are
    outside the model. *)
Definition units (this : t) (bloodType : string) : option Units.t :=
  Js.prop (bloodUnits this) bloodType.

(** Assignment to a property that the object has. *)
Fixpoint assign {A} (o : list (string * A)) (k : string) (v : A)
    : list (string * A) :=
  match o with
  | [] => []
  | (k', x) :: o' =>
      if String.eqb k' k then (k', v) :: o' else (k', x) :: assign o' k v
  end.

Definition set_units (bloodType : string) (u : Units.t) (this : t) : t :=
  {| profile := profile this;
     bloodUnits := assign (bloodUnits this) bloodType u;
     autoAlertEnabled := autoAlertEnabled this |}.

(** [isCriticalShortage(bloodType)]; the result [undefined] for a type
    that the inventory does not have is used as a condition only, and is
    [false]. *)
Definition isCriticalShortage (this : t) (bloodType : string) : bool :=
  match units this bloodType with
  | Some inventory => Units.available inventory <=? Units.critical inventory
  | None => false
  end.

(** [getCriticalShortages()]. *)
Definition getCriticalShortages (this : t) : list Shortage.t :=
  flat_map
    (fun bloodType =>
       if isCriticalShortage this bloodType then
         match units this bloodType with
         | Some u =>
             [ {| Shortage.bloodType := bloodType;
                  Shortage.available := Units.available u;
                  Shortage.critical := Units.critical u;
                  Shortage.deficit := Units.critical u - Units.available u |} ]
         | None => []
         end
       else [])
    BLOOD_TYPES.

(** The counter that the third argument of [updateInventory] names; the
    default is 'available'. *)
Inductive Counter := Available | Reserved | Critical.

Definition counter (c : Counter) (u : Units.t) : Z :=
  match c with
  | Available => Units.available u
  | Reserved => Units.reserved u
  | Critical => Units.critical u
  end.

Definition set_counter (c : Counter) (v : Z) (u : Units.t) : Units.t :=
  match c with
  | Available =>
      {| Units.available := v; Units.reserved := Units.reserved u;
         Units.critical := Units.critical u;
         Units.lastUpdated := Units.lastUpdated u |}
  | Reserved =>
      {| Units.available := Units.available u; Units.reserved := v;
         Units.critical := Units.critical u;
         Units.lastUpdated := Units.lastUpdated u |}
  | Critical =>
      {| Units.available := Units.available u;
         Units.reserved := Units.reserved u; Units.critical := v;
         Units.lastUpdated := Units.lastUpdated u |}
  end.

Definition set_lastUpdated (v : Z) (u : Units.t) : Units.t :=
  {| Units.available := Units.available u; Units.reserved := Units.reserved u;
     Units.critical := Units.critical u; Units.lastUpdated := v |}.

(** The cast of a string to a Number path, for an optionally signed
    string of digits and for a string with a sign inside ([NaN], which
    the cast rejects). *)
Definition castNumber (s : string) : option Z :=
  option_map F64.nearest (Js.numeral s).

(** [x += change] for a Number path [x] of a document: the Number
    assigned, the sum of two Numbers or the cast of the concatenation
    with a string; [None] when the cast fails. *)
Definition plusAssign (x : Z) (change : Js.Operand) : option Z :=
  match change with
  | Js.Number c => Some (F64.nearest (x + c))
  | Js.Numeral s => castNumber (Js.numToString x ++ s)
  end.

(** [updateInventory(bloodType, change, type)], run at time [now];
    [None] when the assignment to the counter could not be cast: the
    document is then invalid, and [save()] rejects it. *)
Definition updateInventory (now : Z) (bloodType : string)
    (change : Js.Operand) (type : Counter) (this : t) : option t :=
  match units this bloodType with
  | Some u =>
      match plusAssign (counter type u) change with
      | Some v =>
          let u1 := set_counter type v u in
          let u2 := set_lastUpdated now u1 in
          let u3 :=
            if counter type u2 <? 0 then set_counter type 0 u2 else u2 in
          Some (set_units bloodType u3 this)
      | None => None
      end
  | None => Some this
  end.


(** A new hospital, with the defaults of the schema for the inventory,
    at time [now]. *)
Definition defaultUnits (now : Z) : list (string * Units.t) :=
  map (fun kc =>
         (fst kc,
          {| Units.available := 0; Units.reserved := 0;
             Units.critical := snd kc; Units.lastUpdated := now |}))
      [ ("A+", 5); ("A-", 3); ("B+", 5); ("B-", 3);
        ("AB+", 2); ("AB-", 1); ("O+", 10); ("O-", 5) ].

(** The inventory has the eight properties of the schema. *)
Definition wellFormed (this : t) : Prop :=
  map fst (bloodUnits this) = BLOOD_TYPES.

End HospitalDoc.

(** ** The inventory routes *)

Module InventoryRoutes.

Import Http.

(** *** GET /inventory *)

Record Row := {
  bloodType : string;
  available : Z;
  reserved : Z;
  critical : Z;
  isCritical : bool;
  lastUpdated : Z;
  deficit : Z
}.

Record Summary := {
  inventory : list Row;
  totalUnits : Z;
  totalCritical : nat;
  totalDeficit : Z;
  criticalShortages : list Shortage.t;
  latestUpdate : option Z       (* Math.max(...); None is -Infinity *)
}.

(** The row of one property of [inventory.bloodUnits]. *)
Definition row (hospital : HospitalDoc.t) (entry : string * Units.t) : Row :=
  let (bloodType, u) := entry in
  {| bloodType := bloodType;
     available := Units.available u;
     reserved := Units.reserved u;
     critical := Units.critical u;
     isCritical := HospitalDoc.isCriticalShortage hospital bloodType;
     lastUpdated := Units.lastUpdated u;
     deficit :=
       if HospitalDoc.isCriticalShortage hospital bloodType
       then Units.critical u - Units.available u else 0 |}.

Definition maxOf (l : list Z) : option Z :=
  match l with
  | [] => None
  | x :: l' => Some (fold_left Z.max l' x)
  end.

Definition getInventory (hospital : HospitalDoc.t) : Summary :=
  let inventory := map (row hospital) (HospitalDoc.bloodUnits hospital) in
  let criticalShortages := HospitalDoc.getCriticalShortages hospital in
  {| inventory := inventory;
     totalUnits := fold_left (fun sum item => sum + available item) inventory 0;
     totalCritical := List.length criticalShortages;
     totalDeficit := fold_left (fun sum item => sum + deficit item) inventory 0;
     criticalShortages := criticalShortages;
     latestUpdate := maxOf (map lastUpdated inventory) |}.

(** *** PUT /inventory/:bloodType *)

(** [body_available], [body_reserved] and [body_critical] are the
    Numbers that the fields of the body are cast to when they are
    assigned; [body_change] is the field as the request has it. *)
Record UpdateBody := {
  body_available : option Z;
  body_reserved : option Z;
  body_critical : option Z;
  body_change : option Js.Operand
}.

Definition nonNegative (v : option Z) : bool :=
  match v with Some n => 0 <=? n | None => true end.

Definition validUpdateBody (b : UpdateBody) : bool :=
  nonNegative (body_available b) && nonNegative (body_reserved b)
  && nonNegative (body_critical b).

(** [body('change').optional().isNumeric().isInt()], on the string that
    the value prints as. *)
Definition validChange (v : option Js.Operand) : bool :=
  match v with
  | Some (Js.Number n) => Z.abs n <? 10 ^ 21
  | Some (Js.Numeral s) =>
      match Js.numeral s with Some _ => true | None => false end
  | None => true
  end.

(** The direct updates: each field that the body has is assigned. *)
Definition assignFields (av re cr : option Z) (u : Units.t) : Units.t :=
  {| Units.available := Js.orElse av (Units.available u);
     Units.reserved := Js.orElse re (Units.reserved u);
     Units.critical := Js.orElse cr (Units.critical u);
     Units.lastUpdated := Units.lastUpdated u |}.

(** The event that follows 'inventory-updated', if any. *)
Inductive Transition := CriticalShortageAlert | ShortageResolved.

Record Updated := {
  stored : HospitalDoc.t;
  oldInventory : Units.t;
  newInventory : option Units.t;
  nowCritical : bool;
  transition : option Transition;
  reportedChange : option Js.Operand     (* change || 'Direct update' *)
}.

(** [change || 'Direct update']: the Number 0 is falsy, a string that
    passed the validators is not. *)
Definition truthy (v : Js.Operand) : bool :=
  match v with Js.Number n => negb (n =? 0) | Js.Numeral _ => true end.

(** The handler; a document that [updateInventory] has left invalid is
    rejected by [save()]. *)
Definition updateOne (now : Z) (hospital : HospitalDoc.t)
    (bloodType : string) (body : UpdateBody) : Reply Updated :=
  if negb (validUpdateBody body && validChange (body_change body))
  then Fail 400 Errors
  else
    match HospitalDoc.units hospital bloodType with
    | None => Fail 400 (Message "Invalid blood type")
    | Some old =>
        let h1 :=
          match body_change body with
          | Some change =>
              HospitalDoc.updateInventory now bloodType change
                HospitalDoc.Available hospital
          | None =>
              Some (HospitalDoc.set_units bloodType
                      (assignFields (body_available body)
                                    (body_reserved body)
                                    (body_critical body) old)
                      hospital)
          end in
        match h1 with
        | None => Fail 500 (Message "Server error")
        | Some h1 =>
            let h2 :=
              match HospitalDoc.units h1 bloodType with
              | Some u =>
                  HospitalDoc.set_units bloodType
                    (HospitalDoc.set_lastUpdated now u) h1
              | None => h1
              end in
            let wasCritical := Units.available old <=? Units.critical old in
            let isCritical := HospitalDoc.isCriticalShortage h2 bloodType in
            Ok {| stored := h2;
                  oldInventory := old;
                  newInventory := HospitalDoc.units h2 bloodType;
                  nowCritical := isCritical;
                  transition :=
                    if negb wasCritical && isCritical
                    then Some CriticalShortageAlert
                    else if wasCritical && negb isCritical
                         then Some ShortageResolved else None;
                  reportedChange :=
                    match body_change body with
                    | Some c => if truthy c then Some c else None
                    | None => None
                    end |}
        end
    end.

(** *** PUT /inventory (bulk) *)

Record BulkItem := {
  item_bloodType : option string;
  item_available : option Z;
  item_reserved : option Z;
  item_critical : option Z
}.

Definition validBulkItem (i : BulkItem) : bool :=
  match item_bloodType i with
  | Some t => Js.includes BLOOD_TYPES t | None => false end
  && nonNegative (item_available i) && nonNegative (item_reserved i)
  && nonNegative (item_critical i).

Definition validBulkBody (updates : list BulkItem) : bool :=
  (1 <=? List.length updates)%nat && forallb validBulkItem updates.

Record BulkResult := {
  result_bloodType : string;
  oldValue : Z;
  newValue : Z;
  result_isCritical : bool
}.

(** One iteration of the loop; [None] when the inventory lacks the type
    and [toObject()] is called on [undefined]. *)
Definition bulkStep (now : Z)
    (st : option (HospitalDoc.t * list BulkResult)) (update : BulkItem)
    : option (HospitalDoc.t * list BulkResult) :=
  match st with
  | None => None
  | Some (hospital, results) =>
      let bloodType := Js.orElse (item_bloodType update) "" in
      match HospitalDoc.units hospital bloodType with
      | None => None
      | Some old =>
          let u :=
            HospitalDoc.set_lastUpdated now
              (assignFields (item_available update) (item_reserved update)
                            (item_critical update) old) in
          let h := HospitalDoc.set_units bloodType u hospital in
          Some (h,
                results
                ++ [ {| result_bloodType := bloodType;
                        oldValue := Units.available old;
                        newValue := Units.available u;
                        result_isCritical :=
                          HospitalDoc.isCriticalShortage h bloodType |} ])
      end
  end.

Definition bulkUpdate (now : Z) (hospital : HospitalDoc.t)
    (updates : list BulkItem) : Reply (HospitalDoc.t * list BulkResult) :=
  if negb (validBulkBody updates) then Fail 400 Errors
  else
    match fold_left (bulkStep now) updates (Some (hospital, [])) with
    | Some r => Ok r
    | None => Fail 500 (Message "Server error")
    end.

(** The body of [PUT /inventory/:bloodType] that carries the fields of
    one item of a bulk update, and the single updates sent one after
    another: the hospital as stored after them, or [None] once one of
    them is refused. *)
Definition asUpdateBody (i : BulkItem) : UpdateBody :=
  {| body_available := item_available i;
     body_reserved := item_reserved i;
     body_critical := item_critical i;
     body_change := None |}.

Definition oneByOne (now : Z) (hospital : HospitalDoc.t)
    (updates : list BulkItem) : option HospitalDoc.t :=
  fold_left
    (fun acc i =>
       match acc with
       | Some h =>
           match updateOne now h (Js.orElse (item_bloodType i) "")
                   (asUpdateBody i) with
           | Ok r => Some (stored r)
           | Fail _ _ => None
           end
       | None => None
       end)
    updates (Some hospital).

End InventoryRoutes.

(** ** The hospital routes: inventory with automatic alert, partnerships *)

Module HospitalRoutes.

Import Http.

(** *** PUT /hospitals/inventory/:bloodType *)

(** The reply, and the hospital and the automatic alert in the store
    when the handler replies. *)
Record Outcome := {
  reply : Reply (option Units.t * bool);   (* inventory, isCritical *)
  storedHospital : HospitalDoc.t;
  storedAlert : option Alert.t
}.

(** The document passed to [new Alert] for the automatic alert. *)
Definition autoAlertData (userId : ObjectId) (hospital : HospitalDoc.t)
    (bloodType : string) (u : Units.t) : Alert.Data :=
  {| Alert.data_hospital := Hospital._id (HospitalDoc.profile hospital);
     Alert.data_bloodType := bloodType;
     Alert.data_urgencyLevel := "critical";
     Alert.data_unitsNeeded := Units.critical u - Units.available u;
     Alert.data_reason := "Automatic critical shortage alert";
     Alert.data_searchRadius := 50;
     Alert.data_createdBy := userId |}.

(** The handler, run at time [now] for the user [userId] of the verified
    hospital [hospital]; [id] is the [_id] of the alert that it may
    create. *)
Definition updateInventory (id : ObjectId) (now : Z) (userId : ObjectId)
    (hospital : HospitalDoc.t) (bloodType : string)
    (body : InventoryRoutes.UpdateBody) : Outcome :=
  if negb (InventoryRoutes.validUpdateBody body) then
    {| reply := Fail 400 Errors; storedHospital := hospital;
       storedAlert := None |}
  else
    match HospitalDoc.units hospital bloodType with
    | None =>
        {| reply := Fail 400 (Message "Invalid blood type");
           storedHospital := hospital; storedAlert := None |}
    | Some old =>
        let u :=
          HospitalDoc.set_lastUpdated now
            (InventoryRoutes.assignFields
               (InventoryRoutes.body_available body)
               (InventoryRoutes.body_reserved body)
               (InventoryRoutes.body_critical body) old) in
        let h := HospitalDoc.set_units bloodType u hospital in
        let answer :=
          Ok (HospitalDoc.units h bloodType,
              HospitalDoc.isCriticalShortage h bloodType) in
        if HospitalDoc.autoAlertEnabled h
           && HospitalDoc.isCriticalShortage h bloodType
        then
          match HospitalDoc.units h bloodType with
          | None =>
              {| reply := Fail 500 (Message "Server error");
                 storedHospital := h; storedAlert := None |}
          | Some inv =>
              match Alert.save
                      (Alert.new id now
                         (autoAlertData userId h bloodType inv)) with
              | Some autoAlert =>
                  {| reply := answer; storedHospital := h;
                     storedAlert := Some autoAlert |}
              | None =>
                  {| reply := Fail 500 (Message "Server error");
                     storedHospital := h; storedAlert := None |}
              end
          end
        else
          {| reply := answer; storedHospital := h; storedAlert := None |}
    end.

(** *** POST /hospitals/partnerships *)





End HospitalRoutes.

(** ** backend/models/Donor.js: [updateEligibilityAfterDonation] *)

Module DonorStatistics.
Record t := {
  totalDonations : Z;
  totalVolumeDonated : Z;
  firstDonationDate : option Z;
  lastDonationDate : option Z
}.
End DonorStatistics.

Module DonorRecord.

(** The donor document with the fields that the method writes beside
    those of [Donor.t]. *)
Record t := {
  donor : Donor.t;
  nextEligibleDate : option Z;             (* eligibility.nextEligibleDate *)
  statistics : DonorStatistics.t
}.

Definition set_lastDonationDate (v : option JsDate.t) (d : Donor.t)
    : Donor.t :=
  {| Donor._id := Donor._id d; Donor.user := Donor.user d;
     Donor.firstName := Donor.firstName d; Donor.lastName := Donor.lastName d;
     Donor.dateOfBirth := Donor.dateOfBirth d; Donor.phone := Donor.phone d;
     Donor.bloodGroup := Donor.bloodGroup d; Donor.weight := Donor.weight d;
     Donor.hasInfectiousDisease := Donor.hasInfectiousDisease d;
     Donor.isEligible := Donor.isEligible d;
     Donor.lastDonationDate := v;
     Donor.temporaryDeferral := Donor.temporaryDeferral d;
     Donor.preferences := Donor.preferences d;
     Donor.isActive := Donor.isActive d;
     Donor.verificationStatus := Donor.verificationStatus d |}.

(** [updateEligibilityAfterDonation()], with [new Date() = now] and
    [Date.now() = now.getTime()]. *)
Definition updateEligibilityAfterDonation (now : JsDate.t) (this : t) : t :=
  let s := statistics this in
  {| donor := set_lastDonationDate (Some now) (donor this);
     nextEligibleDate :=
       Some (JsDate.getTime now + 56 * 24 * 60 * 60 * 1000);
     statistics :=
       {| DonorStatistics.totalDonations :=
            DonorStatistics.totalDonations s + 1;
          DonorStatistics.totalVolumeDonated :=
            DonorStatistics.totalVolumeDonated s + 450;
          DonorStatistics.firstDonationDate :=
            match DonorStatistics.firstDonationDate s with
            | Some first => Some first
            | None => Some (JsDate.getTime now)
            end;
          DonorStatistics.lastDonationDate := Some (JsDate.getTime now) |} |}.

End DonorRecord.

(** ** The alerts that the handlers can store *)

Module System.

(** The alerts that enter the store: by the create handler, or as an
    automatic alert. *)
Inductive Initial : Alert.t -> Prop :=
| ByCreate id now env userId hospital requests body a :
    AlertCreate.storedAlert
      (AlertCreate.create id now env userId hospital requests body) = Some a ->
    Initial a
| ByAutoAlert id now userId hospital bloodType body a :
    HospitalRoutes.storedAlert
      (HospitalRoutes.updateInventory id now userId hospital bloodType body)
    = Some a ->
    Initial a.

(** One successful request of a handler that loads an alert: [Step a a']
    when the handler, run on the stored alert [a], stores [a']. A step
    is a request that is served alone: no other request writes the alert
    between the load and the [save()] of the handler, which awaits
    between the two. Requests on one alert that overlap in time are not
    sequences of steps. *)
Inductive Step : Alert.t -> Alert.t -> Prop :=
| ByRespond a now userEmail body donor a' :
    DonorRoutes.respond now userEmail body donor (Some a) = Http.Ok a' ->
    Step a a'
| ByRead a now role userId a' :
    NotificationRoutes.markRead now role userId (Some a)
    = Http.Ok (Some a') ->
    Step a a'
| ByStatus a iso userId hospital body a' :
    AlertLifecycle.updateStatus iso userId hospital body (Some a)
    = Http.Ok a' ->
    Step a a'
| ByExtend a hospital body a' :
    AlertLifecycle.extend hospital body (Some a) = Http.Ok a' ->
    Step a a'
| ByShare a now hospital body a' results :
    AlertRoutes.share now hospital body (Some a) = Http.Ok (a', results) ->
    Step a a'
| ByRespondShare a hospital body a' :
    AlertRoutes.respondShare hospital body (Some a) = Http.Ok a' ->
    Step a a'.

(** The alerts that the store can hold when the requests on an alert
    are served one after another. *)
Inductive Reachable : Alert.t -> Prop :=
| Start a : Initial a -> Reachable a
| Next a a' : Reachable a -> Step a a' -> Reachable a'.

(** The invariant of the reachable alerts. *)
Record Invariant (a : Alert.t) : Prop := {
  inv_valid : Alert.validate a = true;
  inv_units : Alert.unitsCollected a = 0;
  inv_responded :
    Notifications.responded (Alert.notifications a)
    = Z.of_nat (List.length (Alert.responses a));
  inv_one_response : NoDup (map Response.donor (Alert.responses a));
  inv_no_donation :
    Forall (fun r => Response.donationCompleted r = false
                     /\ Response.responseType r <> "donated")
           (Alert.responses a);
  inv_one_share :
    NoDup (map SharedWith.hospital (Sharing.sharedWith (Alert.sharing a)));
  inv_share_unanswered :
    Forall (fun s => SharedWith.response s = None)
           (Sharing.sharedWith (Alert.sharing a));
  inv_opened :
    Notifications.opened (Alert.notifications a)
    = Z.of_nat (List.length
                  (filter SentTo.opened
                          (Notifications.sentTo (Alert.notifications a))));
  inv_sent :
    Z.of_nat (List.length (Notifications.sentTo (Alert.notifications a)))
    <= Notifications.sent (Alert.notifications a)
}.

End System.

(** ** Vocabulary for the dispatch as a whole *)

Module Delivery.

(** The notification that the dispatch records for a donor at time
    [now]. *)
Definition entry (now : Z) (donor : Donor.t) : SentTo.t :=
  {| SentTo.donor := Donor._id donor;
     SentTo.method := NotificationService.getPreferredMethod donor;
     SentTo.sentAt := now;
     SentTo.opened := false;
     SentTo.openedAt := None;
     SentTo.responded := false;
     SentTo.respondedAt := None;
     SentTo.response := None |}.

(** The alert with the notifications [new] pushed to
    [notifications.sentTo]. *)
Definition appendSentTo (new : list SentTo.t) (a : Alert.t) : Alert.t :=
  let n := Alert.notifications a in
  Alert.set_notifications
    {| Notifications.sent := Notifications.sent n;
       Notifications.opened := Notifications.opened n;
       Notifications.responded := Notifications.responded n;
       Notifications.sentTo := Notifications.sentTo n ++ new |} a.

(** [alert.notifications.sent += k]. *)
Definition addSent (k : Z) (a : Alert.t) : Alert.t :=
  let n := Alert.notifications a in
  Alert.set_notifications
    {| Notifications.sent := Notifications.sent n + k;
       Notifications.opened := Notifications.opened n;
       Notifications.responded := Notifications.responded n;
       Notifications.sentTo := Notifications.sentTo n |} a.

(** The number of donors of a list who enabled a channel. *)
Definition enabledCount (ch : NotificationService.Channel)
    (donors : list Donor.t) : Z :=
  Z.of_nat (List.length
              (filter (NotificationService.enabled ch) donors)).

Definition sent (ch : NotificationService.Channel)
    (r : NotificationService.Results) : Z :=
  NotificationService.Count.sent (NotificationService.count ch r).

Definition failed (ch : NotificationService.Channel)
    (r : NotificationService.Results) : Z :=
  NotificationService.Count.failed (NotificationService.count ch r).

End Delivery.

(** ** Arithmetic of the completion percentage over the counts of the routes *)

Module Completion.

(** For collected [c] and needed [n]: what the rounded percentage and
    the halfway test say at the two ends of the scale. *)
Definition ends (c n : Z) : bool :=
  let p := Spec.percentageZ c n in
  let h := Spec.halfway c n in
  (0 <=? (if h then p - 1 else p)) && (p <=? 100)
  && Bool.eqb (p =? 100) (c =? n)
  && implb h (negb (p - 1 =? 0) && negb (p =? 100))
  && Bool.eqb (p =? 0) (c =? 0)
  && implb (c =? n) (negb h).

End Completion.

(** ** More sample documents *)

Module Samples.

(** [alert0] with two of its three units collected. *)
Definition alertTwoOfThree : Alert.t :=
  Alert.set_unitsCollected 2 Examples.alert0.

Definition extendBy12 : AlertLifecycle.ExtendBody :=
  {| AlertLifecycle.hours := Some 12 |}.

Definition cancel : AlertLifecycle.StatusBody :=
  {| AlertLifecycle.status := Some "cancelled";
     AlertLifecycle.reason := Some "Patient transferred" |}.

Definition reopen : AlertLifecycle.StatusBody :=
  {| AlertLifecycle.status := Some "active";
     AlertLifecycle.reason := None |}.

(** Two dates of birth, 18 years before [Examples.day0] and a day
    later, and the donor of the scenario born on such a day. *)
Definition born2006Jan1 : JsDate.t :=
  {| JsDate.getTime := 1136073600000; JsDate.getFullYear := 2006;
     JsDate.getMonth := 0; JsDate.getDate := 1 |}.

Definition born2006Jan2 : JsDate.t :=
  {| JsDate.getTime := 1136160000000; JsDate.getFullYear := 2006;
     JsDate.getMonth := 0; JsDate.getDate := 2 |}.

Definition donorBorn (birth : JsDate.t) : Donor.t :=
  {| Donor._id := Donor._id Examples.donorONeg;
     Donor.user := Donor.user Examples.donorONeg;
     Donor.firstName := Donor.firstName Examples.donorONeg;
     Donor.lastName := Donor.lastName Examples.donorONeg;
     Donor.dateOfBirth := Some birth;
     Donor.phone := Donor.phone Examples.donorONeg;
     Donor.bloodGroup := Donor.bloodGroup Examples.donorONeg;
     Donor.weight := Donor.weight Examples.donorONeg;
     Donor.hasInfectiousDisease := false;
     Donor.isEligible := true;
     Donor.lastDonationDate := None;
     Donor.temporaryDeferral := None;
     Donor.preferences := Donor.preferences Examples.donorONeg;
     Donor.isActive := true;
     Donor.verificationStatus := "verified" |}.

(** A verified A+ donor with a travel ceiling of 100 km. *)
Definition donorAPos : Donor.t :=
  Examples.donorWith "64b7f0a1c2d3e4f5a6b7cd05" "A+" (inject_Z 100)
    Examples.allChannels None.





(** Hospital A with the default inventory of a new hospital, except
    that it holds 7 units of O-. *)
Definition inventoryA : HospitalDoc.t :=
  {| HospitalDoc.profile := Examples.hospitalADoc;
     HospitalDoc.bloodUnits :=
       HospitalDoc.assign (HospitalDoc.defaultUnits Examples.t0) "O-"
         {| Units.available := 7; Units.reserved := 1; Units.critical := 5;
            Units.lastUpdated := Examples.t0 |};
     HospitalDoc.autoAlertEnabled := true |}.



(** The stock of O- is set to the critical level, and below it. *)
Definition setTo (available : Z) : InventoryRoutes.UpdateBody :=
  {| InventoryRoutes.body_available := Some available;
     InventoryRoutes.body_reserved := None;
     InventoryRoutes.body_critical := None;
     InventoryRoutes.body_change := None |}.

(** A deployment in which every sender delivers. *)
Definition allDeliver : NotificationService.Transports :=
  {| NotificationService.emailDelivers := fun _ _ => true;
     NotificationService.smsDelivers := fun _ _ => true |}.

(** A donor who disabled every channel. *)
Definition donorSilent : Donor.t :=
  Examples.donorWith "64b7f0a1c2d3e4f5a6b7cd06" "O-" (inject_Z 100)
    {| NotificationMethods.email := false; NotificationMethods.sms := false;
       NotificationMethods.push := false |} None.

(** [alert0] after the dispatch to [donorONeg]. *)
Definition alertNotified : Alert.t :=
  Delivery.addSent 1
    (Delivery.appendSentTo [Delivery.entry Examples.t0 Examples.donorONeg]
       Examples.alert0).

(** The request of the scenario, as a body of POST /alerts. *)
Definition requestONeg : AlertCreate.CreateBody :=
  {| AlertCreate.bloodType := Some "O-";
     AlertCreate.urgencyLevel := Some "critical";
     AlertCreate.unitsNeeded := Some 3;
     AlertCreate.reason := Some "Trauma surgery, stock exhausted";
     AlertCreate.requiredBy := Some (Http.Iso8601 (Examples.t0 + 86400000));
     AlertCreate.gender := None;
     AlertCreate.otherFieldsCast := true;
     AlertCreate.searchRadius := None |}.

(** The same request with another reason and another date. *)
Definition requestWith (reason : string) (requiredBy : Http.DateInput)
    : AlertCreate.CreateBody :=
  {| AlertCreate.bloodType := Some "O-";
     AlertCreate.urgencyLevel := Some "critical";
     AlertCreate.unitsNeeded := Some 3;
     AlertCreate.reason := Some reason;
     AlertCreate.requiredBy := Some requiredBy;
     AlertCreate.gender := None;
     AlertCreate.otherFieldsCast := true;
     AlertCreate.searchRadius := None |}.

(** A reason of five characters in ten bytes: five times U+00E9. *)
Definition fiveAccents : string :=
  let e := String (ascii_of_N 195) (String (ascii_of_N 169) "") in
  e ++ e ++ e ++ e ++ e.

(** Three donors within reach; the donor senders deliver, the hospital
    mail has no transporter. *)
Definition envNoHospitalMail : AlertCreate.Env :=
  {| AlertCreate.transports := allDeliver;
     AlertCreate.hospitalMailDelivers := false;
     AlertCreate.donors := [Examples.donorONeg; donorAPos; donorSilent];
     AlertCreate.near := fun _ _ => true |}.

(** The alert that the request leaves in the store, and that alert once
    [donorONeg] has answered it. *)
Definition created : Alert.t :=
  Js.orElse
    (AlertCreate.storedAlert
       (AlertCreate.create Examples.alertId Examples.day0 envNoHospitalMail
          Examples.userA Examples.hospitalADoc 7 requestONeg))
    Examples.alert0.

Definition answered : Alert.t :=
  DonorRoutes.stored created
    (DonorRoutes.respond (Examples.t0 + 60000) "asha@example.org"
       Examples.interested (Some Examples.donorONeg) (Some created)).



(** The record of [donorONeg] before a first donation. *)
Definition recordONeg : DonorRecord.t :=
  {| DonorRecord.donor := Examples.donorONeg;
     DonorRecord.nextEligibleDate := None;
     DonorRecord.statistics :=
       {| DonorStatistics.totalDonations := 0;
          DonorStatistics.totalVolumeDonated := 0;
          DonorStatistics.firstDonationDate := None;
          DonorStatistics.lastDonationDate := None |} |}.

(** Two items of a bulk update for the same blood type. *)
Definition bulkTwice : list InventoryRoutes.BulkItem :=
  [ {| InventoryRoutes.item_bloodType := Some "O-";
       InventoryRoutes.item_available := Some 2;
       InventoryRoutes.item_reserved := None;
       InventoryRoutes.item_critical := None |};
    {| InventoryRoutes.item_bloodType := Some "O-";
       InventoryRoutes.item_available := None;
       InventoryRoutes.item_reserved := None;
       InventoryRoutes.item_critical := Some 1 |} ].

End Samples.


(** * Properties *)

(** ** Helper lemmas *)

Lemma includes_In xs x : Js.includes xs x = true <-> In x xs.
Proof.
  unfold Js.includes. rewrite existsb_exists. split.
  - intros [y [Hy E]]. apply String.eqb_eq in E. now subst.
  - intros H. exists x. split; [assumption | apply String.eqb_refl].
Qed.

Lemma includes_false xs x : Js.includes xs x = false <-> ~ In x xs.
Proof.
  rewrite <- includes_In. destruct (Js.includes xs x); intuition congruence.
Qed.


Lemma ltQ_true x y : Js.ltQ x y = true <-> (x < y)%Q.
Proof.
  unfold Js.ltQ. rewrite negb_true_iff, <- not_true_iff_false, Qle_bool_iff.
  split; [apply Qnot_le_lt | apply Qlt_not_le].
Qed.

Lemma ltQ_false x y : Js.ltQ x y = false <-> (y <= x)%Q.
Proof.
  unfold Js.ltQ. rewrite negb_false_iff. apply Qle_bool_iff.
Qed.

(** ** Checks over the eight types *)

Section EightTypes.

(** Every property checked on the eight strings of [BLOOD_TYPES] holds
    of every member of the enum. *)
Lemma forall_blood_types (P : string -> bool) :
  forallb P BLOOD_TYPES = true ->
  forall x, In x BLOOD_TYPES -> P x = true.
Proof.
  intros H x Hx. rewrite forallb_forall in H. now apply H.
Qed.

Lemma forall2_blood_types (P : string -> string -> bool) :
  forallb (fun a => forallb (P a) BLOOD_TYPES) BLOOD_TYPES = true ->
  forall a b, In a BLOOD_TYPES -> In b BLOOD_TYPES -> P a b = true.
Proof.
  intros H a b Ha Hb.
  apply (forall_blood_types (P a)); [| assumption].
  now apply (forall_blood_types
               (fun a => forallb (P a) BLOOD_TYPES)).
Qed.

End EightTypes.


(** ** Blood compatibility (Alert routes, Alert model, donor routes) *)

Section Tables.

Import StandardChart.

(** A type that has antigens is one of the eight. *)
Lemma antigens_blood_type t a : antigens t = Some a -> In t BLOOD_TYPES.
Proof.
  unfold antigens. cbn [Js.prop].
  repeat match goal with
         | |- context [String.eqb ?k t] =>
             destruct (String.eqb_spec k t) as [<- | _];
             [ intros _; cbn; tauto | ]
         end.
  discriminate.
Qed.

Lemma canDonate_blood_types d r :
  canDonate d r = true -> In d BLOOD_TYPES /\ In r BLOOD_TYPES.
Proof.
  unfold canDonate.
  destruct (antigens d) as [ad |] eqn:Ed; [| discriminate].
  destruct (antigens r) as [ar |] eqn:Er; [| discriminate].
  intros _. split; eapply antigens_blood_type; eassumption.
Qed.

(** Both tables list blood types only. *)
Lemma compatibleDonorTypes_closed a d :
  In d (compatibleDonorTypes a) -> In d BLOOD_TYPES.
Proof.
  unfold compatibleDonorTypes, compatibleDonorTypes_table. cbn [Js.prop].
  repeat match goal with
         | |- context [String.eqb ?k a] =>
             destruct (String.eqb_spec k a) as [<- | _];
             [ cbn; tauto | ]
         end.
  cbn. tauto.
Qed.

Lemma compatibleDonorTypes_key a d :
  In d (compatibleDonorTypes a) -> In a BLOOD_TYPES.
Proof.
  unfold compatibleDonorTypes, compatibleDonorTypes_table. cbn [Js.prop].
  repeat match goal with
         | |- context [String.eqb ?k a] =>
             destruct (String.eqb_spec k a) as [<- | _];
             [ intros _; cbn; tauto | ]
         end.
  cbn. tauto.
Qed.

(** The 64 cells, by evaluation. *)
Lemma chart_cells :
  forallb
    (fun x =>
       forallb
         (fun d =>
            Bool.eqb (Js.includes (compatibleDonorTypes x) d) (canDonate d x))
         BLOOD_TYPES)
    BLOOD_TYPES = true.
Proof. vm_compute. reflexivity. Qed.

Lemma inverse_cells :
  forallb
    (fun d =>
       forallb
         (fun a =>
            Bool.eqb (Js.includes (getCompatibleBloodTypes d) a)
                     (Js.includes (compatibleDonorTypes a) d))
         BLOOD_TYPES)
    BLOOD_TYPES = true.
Proof. vm_compute. reflexivity. Qed.

Lemma per_type_checks :
  forallb
    (fun x =>
       Js.includes (compatibleDonorTypes x) "O-"
       && Bool.eqb (Js.includes (compatibleDonorTypes x) "O+") (rhPositive x)
       && forallb
            (fun d =>
               implb (Js.includes (compatibleDonorTypes x) d)
                     (String.eqb (letter x) (letter d)
                      || String.eqb (letter x) "AB"))
            ["A+"; "A-"; "B+"; "B-"]
       && implb (Js.includes (compatibleDonorTypes x) "AB-")
                (String.eqb (letter x) "AB"))
    BLOOD_TYPES = true.
Proof. vm_compute. reflexivity. Qed.

End Tables.

(** C4. For each of the eight alert blood types [X], the list
    [compatibleDonorTypes X] is, as a set, the set of donor types that the
    standard ABO/Rh chart allows for a recipient of type [X] (a donor
    carries no antigen that the recipient lacks), without repetition; the
    copy of the table in [Alert.checkDonorEligibility] is the same table.
    In particular O- is in every set, O+ is in exactly the sets of the
    Rh-positive recipients, an A or B donor type is only in the sets of
    recipients of the same letter or of letter AB, AB- is only in the sets
    of AB recipients, and the set of AB+ is the eight types. *)
Theorem compatibleDonorTypes_standard_chart :
  (forall X, In X BLOOD_TYPES ->
     (forall D, In D (compatibleDonorTypes X)
                <-> StandardChart.canDonate D X = true)
     /\ NoDup (compatibleDonorTypes X)
     /\ compatibleBloodTypes X = compatibleDonorTypes X
     /\ In "O-" (compatibleDonorTypes X)
     /\ (In "O+" (compatibleDonorTypes X)
         <-> StandardChart.rhPositive X = true)
     /\ (forall D, In D ["A+"; "A-"; "B+"; "B-"] ->
           In D (compatibleDonorTypes X) ->
           StandardChart.letter X = StandardChart.letter D
           \/ StandardChart.letter X = "AB")
     /\ (In "AB-" (compatibleDonorTypes X) -> StandardChart.letter X = "AB"))
  /\ (forall D, In D (compatibleDonorTypes "AB+") <-> In D BLOOD_TYPES).
Proof.
  split; [| intros D; cbn; tauto].
  intros X HX.
  pose proof (forall_blood_types _ per_type_checks X HX) as Hx.
  cbv beta in Hx.
  apply andb_prop in Hx as [Hx Hab]. apply andb_prop in Hx as [Hx Hletters].
  apply andb_prop in Hx as [HOneg HOpos].
  refine (conj _ (conj _ (conj _ (conj _ (conj _ (conj _ _)))))).
  - intros D. split; intros HD.
    + pose proof (compatibleDonorTypes_closed _ _ HD) as HDt.
      pose proof (forall2_blood_types _ chart_cells X D HX HDt) as Hc.
      cbv beta in Hc. apply Bool.eqb_prop in Hc. rewrite <- Hc.
      now apply includes_In.
    + destruct (canDonate_blood_types _ _ HD) as [HDt _].
      pose proof (forall2_blood_types _ chart_cells X D HX HDt) as Hc.
      cbv beta in Hc. apply Bool.eqb_prop in Hc.
      apply includes_In. now rewrite Hc.
  - cbn in HX.
    repeat (destruct HX as [<- | HX];
            [ cbn; repeat (constructor;
                           [ cbn; intros F;
                             repeat (destruct F as [F | F];
                                     [ discriminate F | ]);
                             exact F | ]);
              constructor | ]).
    contradiction.
  - reflexivity.
  - now apply includes_In.
  - apply Bool.eqb_prop in HOpos. rewrite <- HOpos. apply iff_sym.
    apply includes_In.
  - intros D HD HDin.
    rewrite forallb_forall in Hletters. specialize (Hletters D HD).
    apply includes_In in HDin. rewrite HDin in Hletters. cbn in Hletters.
    apply orb_prop in Hletters as [E | E]; apply String.eqb_eq in E; auto.
  - intros H. apply includes_In in H. rewrite H in Hab. cbn in Hab.
    now apply String.eqb_eq.
Qed.

Lemma compatibleDonorTypes_standard_chart_witness :
  In "B-" BLOOD_TYPES
  /\ (In "O+" (compatibleDonorTypes "B-")
      <-> StandardChart.rhPositive "B-" = true).
Proof.
  assert (H : In "B-" BLOOD_TYPES) by (cbn; tauto).
  split; [exact H |].
  exact (proj1 (proj2 (proj2 (proj2 (proj2
           (proj1 compatibleDonorTypes_standard_chart "B-" H)))))).
Defined.

(** C5. The donor-direction table is the transpose of the alert-direction
    table: for blood types [d] and [a], [a] is listed for donor [d] by
    [getCompatibleBloodTypes] exactly when [d] is listed for alert [a] by
    [compatibleDonorTypes]. *)
Theorem getCompatibleBloodTypes_transpose :
  forall d a, In d BLOOD_TYPES -> In a BLOOD_TYPES ->
    (In a (getCompatibleBloodTypes d) <-> In d (compatibleDonorTypes a)).
Proof.
  intros d a Hd Ha.
  pose proof (forall2_blood_types _ inverse_cells d a Hd Ha) as Hc.
  cbv beta in Hc. apply Bool.eqb_prop in Hc.
  rewrite <- !includes_In. now rewrite Hc.
Qed.

Lemma getCompatibleBloodTypes_transpose_witness :
  In "O+" BLOOD_TYPES /\ In "AB+" BLOOD_TYPES
  /\ (In "AB+" (getCompatibleBloodTypes "O+")
      <-> In "O+" (compatibleDonorTypes "AB+")).
Proof.
  assert (Hd : In "O+" BLOOD_TYPES) by (cbn; tauto).
  assert (Ha : In "AB+" BLOOD_TYPES) by (cbn; tauto).
  split; [exact Hd |]. split; [exact Ha |].
  exact (getCompatibleBloodTypes_transpose "O+" "AB+" Hd Ha).
Defined.

(** ** The alert model: [addResponse] *)

Section AddResponse.

Variables (now : Z) (donorId : ObjectId) (responseType : string)
          (extra : AdditionalData.t) (a : Alert.t).

(** [addResponse] always appends one response and counts it, whatever
    the responses already recorded. *)
Lemma addResponse_responses :
  exists r,
    Alert.responses (Alert.addResponse now donorId responseType extra a)
    = Alert.responses a ++ [r]
    /\ Response.donor r = Js.orElse (AdditionalData.donor extra) donorId
    /\ Response.responseType r
       = Js.orElse (AdditionalData.responseType extra) responseType.
Proof.
  unfold Alert.addResponse.
  set (r0 := Alert.spreadResponse now donorId responseType extra).
  set (r := match find _ _ with Some n => _ | None => r0 end).
  exists r. split.
  - destruct (String.eqb responseType "donated" && _); [| reflexivity].
    cbn. destruct (_ <=? _); [reflexivity |].
    destruct (_ <? _); reflexivity.
  - subst r. destruct (find _ _); split; reflexivity.
Qed.

Lemma addResponse_length :
  List.length
    (Alert.responses (Alert.addResponse now donorId responseType extra a))
  = S (List.length (Alert.responses a)).
Proof.
  destruct addResponse_responses as [r [E _]]. rewrite E.
  rewrite length_app. cbn. lia.
Qed.

(** Outside the donated branch the method touches [responses] and
    [notifications] only. *)
Lemma addResponse_not_donated :
  String.eqb responseType "donated"
  && match AdditionalData.donationDetails extra with
     | Some _ => true | None => false end = false ->
  exists r n,
    Alert.addResponse now donorId responseType extra a
    = Alert.set_notifications n
        (Alert.set_responses (Alert.responses a ++ [r]) a)
    /\ Notifications.sent n = Notifications.sent (Alert.notifications a)
    /\ Notifications.opened n = Notifications.opened (Alert.notifications a)
    /\ Notifications.responded n
       = Notifications.responded (Alert.notifications a) + 1.
Proof.
  intros H. unfold Alert.addResponse. rewrite H.
  eexists. eexists. split; [reflexivity |]. cbn. auto.
Qed.

End AddResponse.

(** C2. On an alert that needs [n >= 1] units and has collected [c],
    [addResponse] with response type 'donated' and donation details
    moves [unitsCollected] to [c + 1]; the status becomes 'fulfilled'
    when [c + 1 >= n], and otherwise 'partially_fulfilled' when
    [c + 1 > 0]. An alert created at [t0] with critical urgency expires
    at [t0] plus 24 hours, and on the alert of the scenario (three units
    needed) three donated responses lead through 'partially_fulfilled'
    with two units to 'fulfilled' with three. *)
Theorem addResponse_donated_fulfillment :
  (forall now donorId extra details a,
      AdditionalData.donationDetails extra = Some details ->
      1 <= Alert.unitsNeeded a ->
      let a' := Alert.addResponse now donorId "donated" extra a in
      let c := Alert.unitsCollected a in
      let n := Alert.unitsNeeded a in
      Alert.unitsCollected a' = c + 1
      /\ Alert.unitsNeeded a' = n
      /\ (c + 1 >= n -> Alert.status a' = "fulfilled")
      /\ (c + 1 < n -> c + 1 > 0 -> Alert.status a' = "partially_fulfilled"))
  /\ (forall id t0 d,
        Alert.data_urgencyLevel d = "critical" ->
        Alert.expiresAt (Alert.new id t0 d) = t0 + 24 * 60 * 60 * 1000)
  /\ (forall id t0 d t1 t2 t3 d1 d2 d3 e1 e2 e3 x1 x2 x3,
        Alert.data_unitsNeeded d = 3 ->
        AdditionalData.donationDetails e1 = Some x1 ->
        AdditionalData.donationDetails e2 = Some x2 ->
        AdditionalData.donationDetails e3 = Some x3 ->
        let a0 := Alert.new id t0 d in
        let a1 := Alert.addResponse t1 d1 "donated" e1 a0 in
        let a2 := Alert.addResponse t2 d2 "donated" e2 a1 in
        let a3 := Alert.addResponse t3 d3 "donated" e3 a2 in
        Alert.unitsCollected a0 = 0 /\ Alert.status a0 = "active"
        /\ Alert.unitsCollected a2 = 2
        /\ Alert.status a2 = "partially_fulfilled"
        /\ Alert.unitsCollected a3 = 3
        /\ Alert.status a3 = "fulfilled").
Proof.
  assert (Step : forall now donorId extra details a,
             AdditionalData.donationDetails extra = Some details ->
             let a' := Alert.addResponse now donorId "donated" extra a in
             let c := Alert.unitsCollected a in
             let n := Alert.unitsNeeded a in
             Alert.unitsCollected a' = c + 1
             /\ Alert.unitsNeeded a' = n
             /\ (c + 1 >= n -> Alert.status a' = "fulfilled")
             /\ (c + 1 < n -> c + 1 > 0 ->
                 Alert.status a' = "partially_fulfilled")).
  { intros now donorId extra details a Hd. cbv zeta.
    unfold Alert.addResponse. rewrite Hd. cbn.
    destruct (Z.leb_spec (Alert.unitsNeeded a) (Alert.unitsCollected a + 1));
      cbn.
    - repeat split; intros; lia || reflexivity.
    - destruct (Z.ltb_spec 0 (Alert.unitsCollected a + 1)); cbn;
        repeat split; intros; lia || reflexivity. }
  split; [| split].
  - intros now donorId extra details a Hd _. exact (Step _ _ _ _ a Hd).
  - intros id t0 d Hu. cbn. unfold Alert.expiresAt_default. rewrite Hu.
    cbn. lia.
  - intros id t0 d t1 t2 t3 d1 d2 d3 e1 e2 e3 x1 x2 x3 Hn H1 H2 H3.
    cbv zeta.
    set (a0 := Alert.new id t0 d).
    set (a1 := Alert.addResponse t1 d1 "donated" e1 a0).
    set (a2 := Alert.addResponse t2 d2 "donated" e2 a1).
    set (a3 := Alert.addResponse t3 d3 "donated" e3 a2).
    destruct (Step t1 d1 e1 x1 a0 H1) as (C1 & N1 & _ & _).
    destruct (Step t2 d2 e2 x2 a1 H2) as (C2 & N2 & _ & P2).
    destruct (Step t3 d3 e3 x3 a2 H3) as (C3 & N3 & F3 & _).
    fold a1 in C1, N1. fold a2 in C2, N2, P2. fold a3 in C3, N3, F3.
    assert (C0 : Alert.unitsCollected a0 = 0) by reflexivity.
    assert (N0 : Alert.unitsNeeded a0 = 3) by exact Hn.
    repeat split; try reflexivity; try lia.
    + apply P2; lia.
    + apply F3; lia.
Qed.

Lemma addResponse_donated_fulfillment_witness :
  Alert.unitsCollected
    (Alert.addResponse (Examples.t0 + 60000) (Donor._id Examples.donorONeg)
       "donated" Examples.withDetails Examples.alert0) = 0 + 1
  /\ Alert.expiresAt Examples.alert0 = Examples.t0 + 24 * 60 * 60 * 1000.
Proof.
  split.
  - refine (proj1 (proj1 addResponse_donated_fulfillment
                     (Examples.t0 + 60000) (Donor._id Examples.donorONeg)
                     Examples.withDetails Examples.someDetails
                     Examples.alert0 _ _)).
    + reflexivity.
    + cbn. lia.
  - refine (proj1 (proj2 addResponse_donated_fulfillment)
              Examples.alertId Examples.t0 Examples.criticalONeg _).
    reflexivity.
Defined.

(** ** The donor route POST /alerts/:alertId/respond *)

Section Respond.

Import Http DonorRoutes.

(** The four response types of the route are not 'donated'. *)
Lemma respond_type_not_donated ty :
  Js.includes RESPOND_TYPES ty = true -> String.eqb ty "donated" = false.
Proof.
  intros H. apply includes_In in H. cbn in H.
  repeat (destruct H as [<- | H]; [reflexivity |]). contradiction.
Qed.

Lemma find_hasResponse_Some donorId rs :
  (exists r, In r rs /\ Response.donor r = donorId) ->
  exists r, find (hasResponse donorId) rs = Some r.
Proof.
  intros [r [Hin Hd]].
  destruct (find (hasResponse donorId) rs) as [r' |] eqn:E; [now exists r' |].
  pose proof (find_none _ _ E r Hin) as F. unfold hasResponse in F.
  rewrite Hd, String.eqb_refl in F. discriminate.
Qed.

(** What a reply [Ok] of the handler tells. *)
Lemma respond_Ok_inv now userEmail body donor alert a' :
  respond now userEmail body donor alert = Ok a' ->
  exists d a ty,
    donor = Some d /\ alert = Some a
    /\ responseType body = Some ty
    /\ Js.includes RESPOND_TYPES ty = true
    /\ Alert.status a = "active"
    /\ find (hasResponse (Donor._id d)) (Alert.responses a) = None
    /\ a' = Alert.addResponse now (Donor._id d) ty
              (responseData userEmail body d) a
    /\ Alert.validate a' = true.
Proof.
  unfold respond.
  destruct (validRespondBody body) eqn:V; cbn [negb]; [| discriminate].
  destruct donor as [d |]; [| discriminate].
  destruct alert as [a |]; [| discriminate].
  destruct (String.eqb_spec (Alert.status a) "active") as [S | S];
    cbn [negb]; [| discriminate].
  destruct (find _ _) eqn:F; [discriminate |].
  destruct (castsToDate (estimatedArrival body)); [| discriminate].
  unfold Alert.save.
  destruct (Alert.validate _) eqn:Val; [| discriminate].
  intros [= <-].
  unfold validRespondBody in V. apply andb_prop in V as [V _].
  destruct (responseType body) as [ty |] eqn:T; [| discriminate].
  exists d, a, ty. cbn [Js.orElse] in *. auto 10.
Qed.

(** A stored response leaves every field of the alert as it was, except
    [responses] and [notifications]. *)
Lemma respond_Ok_frame now userEmail body donor alert a' :
  respond now userEmail body donor alert = Ok a' ->
  exists d a ty r n,
    donor = Some d /\ alert = Some a /\ responseType body = Some ty
    /\ a' = Alert.set_notifications n
              (Alert.set_responses (Alert.responses a ++ [r]) a)
    /\ Response.donor r = Donor._id d
    /\ Response.responseType r = ty
    /\ Notifications.sent n = Notifications.sent (Alert.notifications a)
    /\ Notifications.opened n = Notifications.opened (Alert.notifications a)
    /\ Notifications.responded n
       = Notifications.responded (Alert.notifications a) + 1.
Proof.
  intros H.
  destruct (respond_Ok_inv _ _ _ _ _ _ H)
    as (d & a & ty & -> & -> & T & Hty & _ & _ & E & _).
  pose proof (respond_type_not_donated _ Hty) as ND.
  destruct (addResponse_responses now (Donor._id d) ty
              (responseData userEmail body d) a) as (r & Er & Hd & Ht).
  destruct (addResponse_not_donated now (Donor._id d) ty
              (responseData userEmail body d) a) as (r' & n & En & Hn).
  { rewrite ND. reflexivity. }
  rewrite <- E in Er, En. rewrite En in Er. cbn in Er.
  apply app_inj_tail in Er as [_ <-].
  exists d, a, ty, r', n. cbn in Hd, Ht. rewrite T in Ht. cbn in Ht.
  repeat split; try assumption; apply Hn.
Qed.

End Respond.

(** C1 (the method alone). [addResponse] makes no check of the responses
    already recorded: called twice for the same donor on the alert of the
    scenario, it records two responses of that donor. *)
Lemma addResponse_twice_same_donor :
  map Response.donor
    (Alert.responses
       (Alert.addResponse (Examples.t0 + 120000)
          (Donor._id Examples.donorONeg) "interested" AdditionalData.empty
          (Alert.addResponse (Examples.t0 + 60000)
             (Donor._id Examples.donorONeg) "interested" AdditionalData.empty
             Examples.alert0)))
  = [Donor._id Examples.donorONeg; Donor._id Examples.donorONeg]
  /\ List.length
       (Alert.responses
          (Alert.addResponse (Examples.t0 + 120000)
             (Donor._id Examples.donorONeg) "interested" AdditionalData.empty
             (Alert.addResponse (Examples.t0 + 60000)
                (Donor._id Examples.donorONeg) "interested"
                AdditionalData.empty Examples.alert0)))
     <> 1%nat.
Proof. split; [reflexivity | cbn; discriminate]. Qed.

(** C1 (as the code has it). The check is made by the route handler, the
    only caller of [addResponse]: for a donor who already has a response
    on the alert, the handler replies with status 400 and stores nothing;
    and once a first response of the donor is stored, the list of
    responses is one longer than before (of length 1 on an alert without
    responses), and every further well-formed request of that donor is
    answered 400 'You have already responded to this alert', the alert
    staying as it was. *)
Theorem respond_rejects_second_response :
  (forall now userEmail body d a,
      (exists r, In r (Alert.responses a) /\ Response.donor r = Donor._id d) ->
      exists b,
        DonorRoutes.respond now userEmail body (Some d) (Some a)
        = Http.Fail 400 b)
  /\ (forall now userEmail body d a a1,
        DonorRoutes.respond now userEmail body (Some d) (Some a)
        = Http.Ok a1 ->
        List.length (Alert.responses a1) = S (List.length (Alert.responses a))
        /\ (Alert.responses a = [] ->
            List.length (Alert.responses a1) = 1%nat)
        /\ forall now' userEmail' body',
            DonorRoutes.validRespondBody body' = true ->
            DonorRoutes.respond now' userEmail' body' (Some d) (Some a1)
            = Http.Fail 400
                (Http.Message "You have already responded to this alert")
            /\ DonorRoutes.stored a1
                 (DonorRoutes.respond now' userEmail' body' (Some d) (Some a1))
               = a1).
Proof.
  split.
  - intros now userEmail body d a Hex.
    destruct (find_hasResponse_Some _ _ Hex) as [r Hr].
    unfold DonorRoutes.respond.
    destruct (DonorRoutes.validRespondBody body); cbn [negb];
      [| eexists; reflexivity].
    destruct (String.eqb (Alert.status a) "active"); cbn [negb];
      [| eexists; reflexivity].
    rewrite Hr. eexists; reflexivity.
  - intros now userEmail body d a a1 H.
    destruct (respond_Ok_frame _ _ _ _ _ _ H)
      as (d' & a' & ty & r & n & [= <-] & [= <-] & _ & E & Hd & _).
    destruct (respond_Ok_inv _ _ _ _ _ _ H)
      as (d' & a' & ty' & [= <-] & [= <-] & _ & _ & St & _).
    assert (L : List.length (Alert.responses a1)
                = S (List.length (Alert.responses a))).
    { rewrite E. cbn. rewrite length_app. cbn. lia. }
    split; [exact L |]. split; [intros Hnil; rewrite L, Hnil; reflexivity |].
    intros now' userEmail' body' V.
    assert (R : DonorRoutes.respond now' userEmail' body' (Some d) (Some a1)
                = Http.Fail 400
                    (Http.Message "You have already responded to this alert")).
    { unfold DonorRoutes.respond. rewrite V. cbn [negb].
      replace (Alert.status a1) with "active" by (rewrite E; cbn; now rewrite St).
      cbn [String.eqb Ascii.eqb Bool.eqb negb].
      destruct (find_hasResponse_Some (Donor._id d) (Alert.responses a1))
        as [r' ->]; [| reflexivity].
      exists r. split; [| exact Hd].
      rewrite E. cbn. apply in_or_app. right. now left. }
    split; [exact R | rewrite R; reflexivity].
Qed.

Lemma respond_rejects_second_response_witness :
  exists a1,
    DonorRoutes.respond (Examples.t0 + 60000) "asha@example.org"
      Examples.interested (Some Examples.donorONeg) (Some Examples.alert0)
    = Http.Ok a1
    /\ List.length (Alert.responses a1) = 1%nat
    /\ DonorRoutes.respond (Examples.t0 + 120000) "asha@example.org"
         Examples.interested (Some Examples.donorONeg) (Some a1)
       = Http.Fail 400
           (Http.Message "You have already responded to this alert").
Proof.
  eexists. split; [reflexivity |].
  pose proof (proj2 respond_rejects_second_response
                (Examples.t0 + 60000) "asha@example.org" Examples.interested
                Examples.donorONeg Examples.alert0 _ eq_refl) as (_ & L & R).
  split; [exact (L eq_refl) |].
  exact (proj1 (R (Examples.t0 + 120000) "asha@example.org"
                  Examples.interested eq_refl)).
Defined.

(** C10. The donor-facing respond operation never changes
    [unitsCollected], [status] or [expiresAt]: whatever the request, the
    alert in the store afterwards agrees with the alert before on these
    three fields. Its validators accept a [responseType] among
    'interested', 'committed', 'not_available' and 'not_eligible' only,
    so never 'donated'; an alert whose status is not 'active' is
    rejected; and a call that succeeds was made on an active alert with
    one of the four types, and stores the alert with one response
    appended and the notification bookkeeping updated, every other field
    as it was. *)
Theorem respond_never_changes_fulfillment :
  (forall now userEmail body donor a,
      let after :=
        DonorRoutes.stored a
          (DonorRoutes.respond now userEmail body donor (Some a)) in
      Alert.unitsCollected after = Alert.unitsCollected a
      /\ Alert.status after = Alert.status a
      /\ Alert.expiresAt after = Alert.expiresAt a)
  /\ (forall now userEmail body donor alert,
        (forall ty, DonorRoutes.responseType body = Some ty ->
                    ~ In ty ["interested"; "committed"; "not_available";
                             "not_eligible"]) ->
        DonorRoutes.respond now userEmail body donor alert
        = Http.Fail 400 Http.Errors)
  /\ (forall now userEmail body donor alert,
        DonorRoutes.responseType body = Some "donated" ->
        DonorRoutes.respond now userEmail body donor alert
        = Http.Fail 400 Http.Errors)
  /\ (forall now userEmail body d a,
        Alert.status a <> "active" ->
        exists b,
          DonorRoutes.respond now userEmail body (Some d) (Some a)
          = Http.Fail 400 b)
  /\ (forall now userEmail body donor alert a',
        DonorRoutes.respond now userEmail body donor alert = Http.Ok a' ->
        exists d a ty r n,
          donor = Some d /\ alert = Some a
          /\ Alert.status a = "active"
          /\ DonorRoutes.responseType body = Some ty
          /\ In ty ["interested"; "committed"; "not_available";
                    "not_eligible"]
          /\ ty <> "donated"
          /\ a' = Alert.set_notifications n
                    (Alert.set_responses (Alert.responses a ++ [r]) a)
          /\ Response.donor r = Donor._id d
          /\ Response.responseType r = ty
          /\ Notifications.sent n
             = Notifications.sent (Alert.notifications a)
          /\ Notifications.responded n
             = Notifications.responded (Alert.notifications a) + 1).
Proof.
  assert (Reject : forall now userEmail body donor alert,
             (forall ty, DonorRoutes.responseType body = Some ty ->
                         ~ In ty DonorRoutes.RESPOND_TYPES) ->
             DonorRoutes.respond now userEmail body donor alert
             = Http.Fail 400 Http.Errors).
  { intros now userEmail body donor alert H.
    unfold DonorRoutes.respond, DonorRoutes.validRespondBody.
    destruct (DonorRoutes.responseType body) as [ty |]; [| reflexivity].
    specialize (H ty eq_refl). apply includes_false in H. rewrite H.
    reflexivity. }
  assert (Success : forall now userEmail body donor alert a',
             DonorRoutes.respond now userEmail body donor alert = Http.Ok a' ->
             exists d a ty r n,
               donor = Some d /\ alert = Some a
               /\ Alert.status a = "active"
               /\ DonorRoutes.responseType body = Some ty
               /\ In ty DonorRoutes.RESPOND_TYPES
               /\ ty <> "donated"
               /\ a' = Alert.set_notifications n
                         (Alert.set_responses (Alert.responses a ++ [r]) a)
               /\ Response.donor r = Donor._id d
               /\ Response.responseType r = ty
               /\ Notifications.sent n
                  = Notifications.sent (Alert.notifications a)
               /\ Notifications.responded n
                  = Notifications.responded (Alert.notifications a) + 1).
  { intros now userEmail body donor alert a' H.
    destruct (respond_Ok_frame _ _ _ _ _ _ H)
      as (d & a & ty & r & n & -> & -> & T & E & Hd & Ht & Hs & _ & Hr).
    destruct (respond_Ok_inv _ _ _ _ _ _ H)
      as (d' & a0 & ty' & [= <-] & [= <-] & T' & Hty & St & _).
    rewrite T in T'. injection T' as <-.
    exists d, a, ty, r, n.
    pose proof (respond_type_not_donated _ Hty) as ND.
    apply includes_In in Hty.
    repeat split; try assumption.
    intros ->. discriminate ND. }
  split; [| split; [| split; [| split]]].
  - intros now userEmail body donor a. cbv zeta.
    destruct (DonorRoutes.respond now userEmail body donor (Some a))
      as [a' | st b] eqn:R; cbn [DonorRoutes.stored]; [| auto].
    destruct (Success _ _ _ _ _ _ R)
      as (d & a0 & ty & r & n & _ & [= <-] & _ & _ & _ & _ & -> & _).
    cbn. auto.
  - exact Reject.
  - intros now userEmail body donor alert T. apply Reject.
    intros ty E. rewrite T in E. injection E as <-. cbn.
    intros H. repeat (destruct H as [H | H]; [discriminate H |]).
    exact H.
  - intros now userEmail body d a S.
    unfold DonorRoutes.respond.
    destruct (DonorRoutes.validRespondBody body); cbn [negb];
      [| eexists; reflexivity].
    destruct (String.eqb_spec (Alert.status a) "active") as [E | _];
      [contradiction |].
    eexists; reflexivity.
  - exact Success.
Qed.

Lemma respond_never_changes_fulfillment_witness :
  exists a',
    DonorRoutes.respond (Examples.t0 + 60000) "asha@example.org"
      Examples.interested (Some Examples.donorONeg) (Some Examples.alert0)
    = Http.Ok a'
    /\ Alert.unitsCollected a' = 0
    /\ Alert.status a' = "active"
    /\ List.length (Alert.responses a') = 1%nat.
Proof.
  eexists. split; [reflexivity |].
  destruct (proj2 (proj2 (proj2 (proj2 respond_never_changes_fulfillment)))
              (Examples.t0 + 60000) "asha@example.org" Examples.interested
              (Some Examples.donorONeg) (Some Examples.alert0) _ eq_refl)
    as (d & a & ty & r & n & _ & [= <-] & _ & _ & _ & _ & E & _).
  rewrite E. cbn. auto.
Defined.

(** ** Sharing: POST /alerts/:alertId/share and /respond-share *)

Section Sharing.

Import Http AlertRoutes.

Lemma find_app {A} (p : A -> bool) (l l' : list A) :
  find p (l ++ l')
  = match find p l with Some x => Some x | None => find p l' end.
Proof.
  induction l as [| x l IH]; cbn; [reflexivity |].
  destruct (p x); [reflexivity | exact IH].
Qed.

Lemma alreadyShared_false_find alert hospitalId :
  alreadyShared alert hospitalId = false ->
  find (sharedWithHospital hospitalId)
       (Sharing.sharedWith (Alert.sharing alert)) = None.
Proof.
  unfold alreadyShared. intros H.
  destruct (find _ _) as [s |] eqn:F; [| reflexivity].
  apply find_some in F as [Hin Hs].
  exfalso. apply Bool.diff_true_false. rewrite <- H.
  symmetry. apply existsb_exists. exists s. split; [exact Hin | exact Hs].
Qed.

(** The sharing loop keeps its invariant [freshFor]. *)
Lemma shareWith_freshFor now hospital message st hospitalId :
  freshFor st -> freshFor (shareWith now hospital message st hospitalId).
Proof.
  destruct st as [alert results]. unfold freshFor, shareWith. cbn [fst snd].
  intros IH.
  destruct (isPartner hospital hospitalId); cbn [negb].
  - destruct (alreadyShared alert hospitalId) eqn:AS; cbn [fst snd].
    + intros res Hin Hs. apply in_app_or in Hin as [Hin | [<- | []]].
      * now apply IH.
      * discriminate Hs.
    + intros res Hin Hs. cbn.
      rewrite find_app.
      apply in_app_or in Hin as [Hin | [<- | []]].
      * destruct (IH res Hin Hs) as (s & -> & Hr). now exists s.
      * cbn [result_hospitalId].
        rewrite (alreadyShared_false_find _ _ AS). cbn.
        unfold sharedWithHospital. cbn. rewrite String.eqb_refl.
        eexists. split; reflexivity.
  - cbn [fst snd]. intros res Hin Hs.
    apply in_app_or in Hin as [Hin | [<- | []]].
    + now apply IH.
    + discriminate Hs.
Qed.

Lemma fold_shareWith_freshFor now hospital message ids st :
  freshFor st ->
  freshFor (fold_left (shareWith now hospital message) ids st).
Proof.
  revert st. induction ids as [| h ids IH]; intros st Hst; cbn.
  - exact Hst.
  - apply IH. now apply shareWith_freshFor.
Qed.

End Sharing.

(** C3, on the code. A sharing record is stored without [response]: the
    schema gives that field no default and the handler does not set it.
    Hence after any successful share with a hospital, the record that
    [respond-share] finds for that hospital has no [response], which is
    not 'pending', and every request of that hospital to respond is
    answered 400, although the hospital never responded. *)
Theorem share_then_respondShare_rejected :
  forall now hospital body alert stored results target partner body',
    AlertRoutes.share now hospital body alert
    = Http.Ok (stored, results) ->
    In {| AlertRoutes.result_hospitalId := target;
          AlertRoutes.success := true;
          AlertRoutes.reason := None |} results ->
    Hospital._id partner = target ->
    (exists s,
        find (AlertRoutes.sharedWithHospital target)
             (Sharing.sharedWith (Alert.sharing stored)) = Some s
        /\ SharedWith.response s = None
        /\ SharedWith.response s <> Some "pending")
    /\ exists b,
        AlertRoutes.respondShare partner body' (Some stored)
        = Http.Fail 400 b
        /\ (AlertRoutes.validRespondShareBody body' = true ->
            b = Http.Message "You have already responded to this alert").
Proof.
  intros now hospital body alert stored results target partner body' H Hin Hp.
  unfold AlertRoutes.share in H.
  destruct (AlertRoutes.validShareBody body); cbn [negb] in H;
    [| discriminate].
  destruct (AlertRoutes.ownedBy hospital alert) as [a |]; [| discriminate].
  destruct (Sharing.allowSharing (Alert.sharing a)); cbn [negb] in H;
    [| discriminate].
  pose proof (fold_shareWith_freshFor now hospital
                (AlertRoutes.message body) (AlertRoutes.hospitalIds body)
                (a, [])) as Inv.
  destruct (fold_left _ _ _) as [a' results'].
  unfold Alert.save in H. destruct (Alert.validate a'); [| discriminate].
  injection H as <- <-.
  destruct (Inv (fun res F => match F with end) _ Hin eq_refl)
    as (s & Fs & Rs).
  cbn [fst AlertRoutes.result_hospitalId] in Fs.
  split.
  - exists s. repeat split; [exact Fs | exact Rs |].
    rewrite Rs. discriminate.
  - unfold AlertRoutes.respondShare. rewrite Hp, Fs.
    destruct (AlertRoutes.validRespondShareBody body'); cbn [negb].
    + unfold AlertRoutes.notPending. rewrite Rs.
      eexists. split; reflexivity.
    + eexists. split; [reflexivity | discriminate].
Qed.

Lemma share_then_respondShare_rejected_witness :
  exists stored,
    AlertRoutes.share (Examples.t0 + 3600000) Examples.hospitalADoc
      Examples.shareWithB (Some Examples.alert0)
    = Http.Ok (stored,
               [ {| AlertRoutes.result_hospitalId := Examples.hospitalB;
                    AlertRoutes.success := true;
                    AlertRoutes.reason := None |} ])
    /\ map SharedWith.response (Sharing.sharedWith (Alert.sharing stored))
       = [None]
    /\ AlertRoutes.respondShare Examples.hospitalBDoc Examples.accept2
         (Some stored)
       = Http.Fail 400
           (Http.Message "You have already responded to this alert").
Proof.
  eexists. split; [reflexivity |]. split; [reflexivity |].
  destruct (share_then_respondShare_rejected
              (Examples.t0 + 3600000) Examples.hospitalADoc
              Examples.shareWithB (Some Examples.alert0) _ _
              Examples.hospitalB Examples.hospitalBDoc Examples.accept2
              eq_refl (or_introl eq_refl) eq_refl)
    as (_ & b & -> & Hb).
  now rewrite (Hb eq_refl).
Defined.

(** ** The donor model: [checkEligibility] *)

Section Eligibility.

Import Rules.

Variables (now : JsDate.t) (d : Donor.t).

(** The day count of the code is the number of whole days. *)
Lemma daysSinceLastDonation_wholeDays last k :
  Donor.daysSinceLastDonation now last = k <-> wholeDays k now last.
Proof.
  unfold Donor.daysSinceLastDonation, wholeDays.
  change Donor.MS_PER_DAY with DAY.
  assert (P : 0 < DAY) by reflexivity.
  set (t := JsDate.getTime now - JsDate.getTime last).
  pose proof (Z.div_mod t DAY ltac:(lia)) as Q.
  pose proof (Z.mod_pos_bound t DAY P) as B.
  split; [intros <-; lia |].
  intros W. symmetry. apply (Z.div_unique t DAY k (t - k * DAY)); lia.
Qed.

Lemma daysSinceLastDonation_gap last :
  56 <= Donor.daysSinceLastDonation now last
  <-> 56 * DAY <= JsDate.getTime now - JsDate.getTime last.
Proof.
  destruct (proj1 (daysSinceLastDonation_wholeDays last _) eq_refl) as [L U].
  assert (P : 0 < DAY) by reflexivity. split; nia.
Qed.

Lemma mustWait_None : Donor.mustWait now d = None <-> gapOk now d.
Proof.
  unfold Donor.mustWait, gapOk.
  destruct (Donor.lastDonationDate d) as [last |].
  - destruct (Z.ltb_spec (Donor.daysSinceLastDonation now last) 56) as [G | G].
    + split; [discriminate |]. intros H. specialize (H last eq_refl).
      apply daysSinceLastDonation_gap in H. lia.
    + split; [| reflexivity]. intros _ last' [= <-].
      now apply daysSinceLastDonation_gap.
  - split; [| reflexivity]. intros _ last' E. discriminate E.
Qed.

Lemma mustWait_Some more :
  Donor.mustWait now d = Some more <->
  exists last,
    Donor.lastDonationDate d = Some last
    /\ Donor.daysSinceLastDonation now last < 56
    /\ more = 56 - Donor.daysSinceLastDonation now last.
Proof.
  unfold Donor.mustWait.
  destruct (Donor.lastDonationDate d) as [last |].
  - destruct (Z.ltb_spec (Donor.daysSinceLastDonation now last) 56) as [G | G].
    + split.
      * intros [= <-]. exists last. auto.
      * intros (last' & [= <-] & _ & ->). reflexivity.
    + split; [discriminate |]. intros (last' & [= <-] & L & _). lia.
  - split; [discriminate |]. intros (last' & E & _). discriminate E.
Qed.

Lemma deferred_None : Donor.deferred now d = None <-> notDeferred now d.
Proof.
  unfold Donor.deferred, notDeferred.
  destruct (Donor.temporaryDeferral d) as [td |].
  - destruct (TemporaryDeferral.until td) as [u |] eqn:U.
    + destruct (Z.ltb_spec (JsDate.getTime now) (JsDate.getTime u)) as [L | L].
      * split; [discriminate |]. intros H.
        specialize (H td u eq_refl U). lia.
      * split; [| reflexivity]. intros _ td' u' [= <-] E.
        rewrite U in E. injection E as <-. exact L.
    + split; [| reflexivity]. intros _ td' u' [= <-] E.
      rewrite U in E. discriminate E.
  - split; [| reflexivity]. intros _ td' u' E. discriminate E.
Qed.

Lemma deferred_Some why :
  Donor.deferred now d = Some why <->
  exists td until,
    Donor.temporaryDeferral d = Some td
    /\ TemporaryDeferral.until td = Some until
    /\ JsDate.getTime now < JsDate.getTime until
    /\ why = TemporaryDeferral.reason td.
Proof.
  unfold Donor.deferred.
  destruct (Donor.temporaryDeferral d) as [td |].
  - destruct (TemporaryDeferral.until td) as [u |] eqn:U.
    + destruct (Z.ltb_spec (JsDate.getTime now) (JsDate.getTime u)) as [L | L].
      * split.
        -- intros [= <-]. exists td, u. auto.
        -- intros (td' & u' & [= <-] & _ & _ & ->). reflexivity.
      * split; [discriminate |].
        intros (td' & u' & [= <-] & E & L' & _).
        rewrite U in E. injection E as <-. lia.
    + split; [discriminate |].
      intros (td' & u' & [= <-] & E & _). rewrite U in E. discriminate E.
  - split; [discriminate |]. intros (td' & u' & E & _). discriminate E.
Qed.

(** The virtual [age] counts the birthdays that have been reached. *)
Lemma age_birthdayReached birth n :
  Donor.dateOfBirth d = Some birth ->
  n <= Donor.toNumber (Donor.age now d) <-> birthdayReached n now birth.
Proof.
  intros B. unfold Donor.age, birthdayReached. rewrite B.
  destruct (Z.ltb_spec (JsDate.getMonth now - JsDate.getMonth birth) 0);
    destruct (Z.eqb_spec (JsDate.getMonth now - JsDate.getMonth birth) 0);
    destruct (Z.ltb_spec (JsDate.getDate now) (JsDate.getDate birth));
    cbn [orb andb Donor.toNumber]; lia.
Qed.

Lemma ageOk_age :
  ageOk now d <-> 18 <= Donor.toNumber (Donor.age now d) <= 65.
Proof.
  unfold ageOk. split.
  - intros (birth & B & R18 & R66).
    apply (age_birthdayReached birth 18 B) in R18.
    rewrite <- (age_birthdayReached birth 66 B) in R66. lia.
  - intros [L U]. destruct (Donor.dateOfBirth d) as [birth |] eqn:B.
    + exists birth. split; [reflexivity |].
      rewrite <- !(age_birthdayReached birth _ B). lia.
    + unfold Donor.age in L. rewrite B in L. cbn in L. lia.
Qed.

(** The code of the age and weight tests, in terms of the rules. *)
Lemma age_test :
  (Donor.toNumber (Donor.age now d) <? 18)
  || (65 <? Donor.toNumber (Donor.age now d)) = false <-> ageOk now d.
Proof.
  rewrite ageOk_age.
  destruct (Z.ltb_spec (Donor.toNumber (Donor.age now d)) 18);
    destruct (Z.ltb_spec 65 (Donor.toNumber (Donor.age now d)));
    cbn; split; intros; try discriminate; try reflexivity; lia.
Qed.

Lemma weight_test :
  Js.ltQ (Donor.weight d) (inject_Z 45) = false <-> weightOk d.
Proof. apply ltQ_false. Qed.

End Eligibility.

(** C6. [checkEligibility], evaluated at time [now], applies the five
    rules in order and returns at the first that fails: age (whole years
    since the date of birth, by the calendar) within 18..65, weight at
    least 45 kg, at least 56 whole days since the last donation when
    there is one, no temporary deferral that ends after [now], no
    infectious disease. The donor is eligible exactly when the five
    rules hold, and each failure is reported with the reason of the
    first rule that fails. At the boundary of the donation gap, 56 whole
    days pass the rule (the donor is eligible when the other rules hold)
    and 55 whole days do not. At the boundaries of the age, a donor is
    in the range from the 18th birthday to the day before the 66th, and
    a donor without a date of birth is not. *)
Theorem checkEligibility_first_failure_wins :
  forall now d,
    let E := Donor.checkEligibility now d in
    (Eligibility.eligible E = true
     <-> Rules.ageOk now d /\ Rules.weightOk d /\ Rules.gapOk now d
         /\ Rules.notDeferred now d /\ Rules.healthy d)
    /\ (~ Rules.ageOk now d ->
        E = {| Eligibility.eligible := false;
               Eligibility.reason :=
                 Some "Age not within eligible range (18-65)" |})
    /\ (Rules.ageOk now d -> ~ Rules.weightOk d ->
        E = {| Eligibility.eligible := false;
               Eligibility.reason :=
                 Some "Weight below minimum requirement (45kg)" |})
    /\ (Rules.ageOk now d -> Rules.weightOk d ->
        forall last k,
          Donor.lastDonationDate d = Some last ->
          Rules.wholeDays k now last ->
          k < 56 ->
          E = {| Eligibility.eligible := false;
                 Eligibility.reason :=
                   Some ("Must wait " ++ Js.numToString (56 - k)
                         ++ " more days since last donation")%string |})
    /\ (Rules.ageOk now d -> Rules.weightOk d -> Rules.gapOk now d ->
        forall td until,
          Donor.temporaryDeferral d = Some td ->
          TemporaryDeferral.until td = Some until ->
          JsDate.getTime now < JsDate.getTime until ->
          E = {| Eligibility.eligible := false;
                 Eligibility.reason := TemporaryDeferral.reason td |})
    /\ (Rules.ageOk now d -> Rules.weightOk d -> Rules.gapOk now d ->
        Rules.notDeferred now d -> ~ Rules.healthy d ->
        E = {| Eligibility.eligible := false;
               Eligibility.reason :=
                 Some "Medical condition prevents donation" |})
    /\ (Rules.ageOk now d -> Rules.weightOk d -> Rules.gapOk now d ->
        Rules.notDeferred now d -> Rules.healthy d ->
        E = {| Eligibility.eligible := true;
               Eligibility.reason := Some "Eligible for donation" |})
    /\ (forall last,
          Donor.lastDonationDate d = Some last ->
          (Rules.wholeDays 56 now last ->
           Rules.ageOk now d -> Rules.weightOk d ->
           Rules.notDeferred now d -> Rules.healthy d ->
           Eligibility.eligible E = true)
          /\ (Rules.wholeDays 55 now last ->
              Eligibility.eligible E = false))
    /\ (Donor.dateOfBirth d = None -> Eligibility.eligible E = false)
    /\ (forall birth,
          Donor.dateOfBirth d = Some birth ->
          Donor.age now d
          = Some (JsDate.getFullYear now - JsDate.getFullYear birth
                  - (if (JsDate.getMonth now <? JsDate.getMonth birth)
                        || ((JsDate.getMonth now =? JsDate.getMonth birth)
                            && (JsDate.getDate now <? JsDate.getDate birth))
                     then 1 else 0))
          /\ (forall n,
                n <= Donor.toNumber (Donor.age now d)
                <-> Rules.birthdayReached n now birth)
          /\ (Rules.ageOk now d
              <-> Rules.birthdayReached 18 now birth
                  /\ ~ Rules.birthdayReached 66 now birth)).
Proof.
  intros now d E.
  assert (Ok : Rules.ageOk now d -> Rules.weightOk d -> Rules.gapOk now d ->
               Rules.notDeferred now d -> Rules.healthy d ->
               E = {| Eligibility.eligible := true;
                      Eligibility.reason := Some "Eligible for donation" |}).
  { intros A W G D H. subst E. unfold Donor.checkEligibility.
    apply age_test in A. apply weight_test in W.
    apply mustWait_None in G. apply deferred_None in D.
    rewrite A, W, G, D, H. reflexivity. }
  assert (Iff : Eligibility.eligible E = true
                <-> Rules.ageOk now d /\ Rules.weightOk d /\ Rules.gapOk now d
                    /\ Rules.notDeferred now d /\ Rules.healthy d).
  { split.
    - subst E. unfold Donor.checkEligibility.
      destruct (_ || _) eqn:A; [discriminate |].
      destruct (Js.ltQ (Donor.weight d) (inject_Z 45)) eqn:W; [discriminate |].
      destruct (Donor.mustWait now d) eqn:G; [discriminate |].
      destruct (Donor.deferred now d) eqn:D; [discriminate |].
      destruct (Donor.hasInfectiousDisease d) eqn:H; [discriminate |].
      intros _. apply age_test in A. apply weight_test in W.
      apply mustWait_None in G. apply deferred_None in D. auto.
    - intros (A & W & G & D & H). rewrite (Ok A W G D H). reflexivity. }
  split; [exact Iff |].
  split.
  { intros A. subst E. unfold Donor.checkEligibility.
    destruct (_ || _) eqn:T; [reflexivity |].
    apply age_test in T. contradiction. }
  split.
  { intros A W. subst E. unfold Donor.checkEligibility.
    apply age_test in A. rewrite A.
    destruct (Js.ltQ (Donor.weight d) (inject_Z 45)) eqn:T; [reflexivity |].
    apply weight_test in T. contradiction. }
  split.
  { intros A W last k L K G. subst E. unfold Donor.checkEligibility.
    apply age_test in A. apply weight_test in W. rewrite A, W.
    apply daysSinceLastDonation_wholeDays in K.
    assert (M : Donor.mustWait now d = Some (56 - k)).
    { apply mustWait_Some. exists last. rewrite K. auto. }
    rewrite M. reflexivity. }
  split.
  { intros A W G td until T U L. subst E. unfold Donor.checkEligibility.
    apply age_test in A. apply weight_test in W. apply mustWait_None in G.
    rewrite A, W, G.
    assert (M : Donor.deferred now d = Some (TemporaryDeferral.reason td)).
    { apply deferred_Some. exists td, until. auto. }
    rewrite M. reflexivity. }
  split.
  { intros A W G D H. subst E. unfold Donor.checkEligibility.
    apply age_test in A. apply weight_test in W. apply mustWait_None in G.
    apply deferred_None in D. rewrite A, W, G, D.
    unfold Rules.healthy in H.
    destruct (Donor.hasInfectiousDisease d); [reflexivity | contradiction]. }
  split; [exact Ok |].
  split.
  { intros last L. split.
    - intros G A W D H. apply Iff.
      refine (conj A (conj W (conj _ (conj D H)))).
      intros last' L'. rewrite L in L'. injection L' as <-.
      unfold Rules.wholeDays in G. lia.
    - intros G.
      destruct (Eligibility.eligible E) eqn:El; [| reflexivity].
      destruct (proj1 Iff eq_refl) as (_ & _ & Hg & _).
      specialize (Hg last L). unfold Rules.wholeDays in G.
      change (55 + 1) with 56 in G. lia. }
  split.
  { intros B. destruct (Eligibility.eligible E) eqn:El; [| reflexivity].
    destruct (proj1 Iff eq_refl) as ((birth & B' & _) & _). congruence. }
  intros birth B. split; [| split].
  - unfold Donor.age. rewrite B.
    destruct (Z.ltb_spec (JsDate.getMonth now - JsDate.getMonth birth) 0);
      destruct (Z.eqb_spec (JsDate.getMonth now - JsDate.getMonth birth) 0);
      destruct (Z.ltb_spec (JsDate.getMonth now) (JsDate.getMonth birth));
      destruct (Z.eqb_spec (JsDate.getMonth now) (JsDate.getMonth birth));
      try lia;
      destruct (Z.ltb_spec (JsDate.getDate now) (JsDate.getDate birth));
      cbn [orb andb]; f_equal; lia.
  - intros n. now apply age_birthdayReached.
  - unfold Rules.ageOk. split.
    + intros (birth' & B' & R). rewrite B in B'. injection B' as <-.
      exact R.
    + intros R. exists birth. auto.
Qed.

Lemma checkEligibility_first_failure_wins_witness :
  (Eligibility.eligible
     (Donor.checkEligibility Examples.day0
        (Examples.donorLast Examples.before56)) = true
   /\ Eligibility.eligible
        (Donor.checkEligibility Examples.day0
           (Examples.donorLast Examples.before55)) = false
   /\ Donor.checkEligibility Examples.day0
        (Examples.donorLast Examples.before55)
      = {| Eligibility.eligible := false;
           Eligibility.reason :=
             Some "Must wait 1 more days since last donation" |})
  /\ (Rules.ageOk Examples.day0 (Samples.donorBorn Samples.born2006Jan1)
      /\ Eligibility.eligible
           (Donor.checkEligibility Examples.day0
              (Samples.donorBorn Samples.born2006Jan1)) = true)
  /\ (~ Rules.ageOk Examples.day0 (Samples.donorBorn Samples.born2006Jan2)
      /\ Donor.checkEligibility Examples.day0
           (Samples.donorBorn Samples.born2006Jan2)
         = {| Eligibility.eligible := false;
              Eligibility.reason :=
                Some "Age not within eligible range (18-65)" |}).
Proof.
  pose proof (checkEligibility_first_failure_wins Examples.day0
                (Examples.donorLast Examples.before56))
    as (_ & _ & _ & _ & _ & _ & _ & B56 & _).
  pose proof (checkEligibility_first_failure_wins Examples.day0
                (Examples.donorLast Examples.before55))
    as (_ & _ & _ & W55 & _ & _ & _ & B55 & _).
  assert (A90 : forall last,
             Rules.ageOk Examples.day0 (Examples.donorLast last)).
  { intros last. exists Examples.born1990. split; [reflexivity |].
    unfold Rules.birthdayReached. cbn. lia. }
  assert (W62 : forall last, Rules.weightOk (Examples.donorLast last))
    by (intros last; unfold Rules.weightOk, Qle; cbn; lia).
  split; [split; [| split] | split].
  - apply (proj1 (B56 Examples.before56 eq_refl)).
    + unfold Rules.wholeDays. cbn. lia.
    + apply A90.
    + apply W62.
    + intros td u T. discriminate T.
    + reflexivity.
  - apply (proj2 (B55 Examples.before55 eq_refl)).
    unfold Rules.wholeDays. cbn. lia.
  - apply (W55 (A90 _) (W62 _) Examples.before55 55 eq_refl).
    + unfold Rules.wholeDays. cbn. lia.
    + lia.
  - pose proof (checkEligibility_first_failure_wins Examples.day0
                  (Samples.donorBorn Samples.born2006Jan1))
      as (I & _ & _ & _ & _ & _ & _ & _ & _ & A).
    destruct (A Samples.born2006Jan1 eq_refl) as (_ & _ & R).
    assert (Ok : Rules.ageOk Examples.day0
                   (Samples.donorBorn Samples.born2006Jan1)).
    { apply R. unfold Rules.birthdayReached. cbn. lia. }
    split; [exact Ok |]. apply I.
    refine (conj Ok (conj _ (conj _ (conj _ eq_refl)))).
    + unfold Rules.weightOk, Qle. cbn. lia.
    + intros last L. discriminate L.
    + intros td u T. discriminate T.
  - pose proof (checkEligibility_first_failure_wins Examples.day0
                  (Samples.donorBorn Samples.born2006Jan2))
      as (_ & N & _ & _ & _ & _ & _ & _ & _ & A).
    destruct (A Samples.born2006Jan2 eq_refl) as (_ & _ & R).
    assert (No : ~ Rules.ageOk Examples.day0
                     (Samples.donorBorn Samples.born2006Jan2)).
    { intros Ok. apply R in Ok. destruct Ok as [Ok _].
      unfold Rules.birthdayReached in Ok. cbn in Ok. lia. }
    split; [exact No | exact (N No)].
Defined.

(** ** Donor matching: [findEligibleDonors] *)

Section Matching.

Import AlertRoutes.

Variables (now : JsDate.t) (alert : Alert.t).

(** The loop pushes, in order, the donors that reach its last line. *)
Lemma pushEligible_filter donors acc :
  pushEligible now alert donors acc
  = acc ++ filter (keepDonor now alert) donors.
Proof.
  revert acc. induction donors as [| d donors IH]; intros acc; cbn.
  - now rewrite app_nil_r.
  - rewrite IH. destruct (keepDonor now alert d); [| reflexivity].
    now rewrite <- app_assoc.
Qed.

Lemma hasResponded_iff d :
  hasResponded alert d = true
  <-> exists r, In r (Alert.responses alert)
                /\ Response.donor r = Donor._id d.
Proof.
  unfold hasResponded. rewrite existsb_exists.
  split; intros (r & Hin & E); exists r; (split; [exact Hin |]);
    now apply String.eqb_eq.
Qed.

(** The four tests of the loop body. *)
Lemma keepDonor_iff d :
  keepDonor now alert d = true
  <-> Eligibility.eligible (Donor.checkEligibility now d) = true
      /\ (inject_Z (Alert.searchRadius alert)
          <= Preferences.maxTravelDistance (Donor.preferences d))%Q
      /\ hasResponded alert d = false
      /\ (Preferences.emergencyOnly (Donor.preferences d) = true ->
          Alert.urgencyLevel alert = "critical").
Proof.
  unfold keepDonor.
  destruct (Eligibility.eligible (Donor.checkEligibility now d));
    cbn [negb]; [| intuition discriminate].
  destruct (Js.ltQ (Preferences.maxTravelDistance (Donor.preferences d))
                   (inject_Z (Alert.searchRadius alert))) eqn:T.
  { apply ltQ_true in T. split; [discriminate | intros (_ & L & _)].
    exfalso. exact (Qlt_not_le _ _ T L). }
  apply ltQ_false in T.
  destruct (hasResponded alert d); [intuition discriminate |].
  destruct (Preferences.emergencyOnly (Donor.preferences d)); cbn [andb].
  - destruct (String.eqb_spec (Alert.urgencyLevel alert) "critical");
      cbn [negb]; [tauto |].
    split; [discriminate | intros (_ & _ & _ & C)].
    specialize (C eq_refl). contradiction.
  - intuition discriminate.
Qed.

End Matching.

(** C7. [findEligibleDonors] returns, in the order of the proximity
    query, exactly the candidates of the query that pass the four tests
    of the loop. So a candidate is excluded when its
    [preferences.maxTravelDistance] is below the [searchRadius] of the
    alert, when it is [emergencyOnly] and the alert is not critical, when
    a response of it is recorded on the alert, or when [checkEligibility]
    reports it ineligible. In particular a candidate with a travel
    ceiling of 10 is excluded from an alert with a search radius of
    50. *)
Theorem findEligibleDonors_exclusions :
  forall now near collection alert,
    let candidates :=
      AlertRoutes.queryDonors near
        (compatibleDonorTypes (Alert.bloodType alert)) collection in
    let found := AlertRoutes.findEligibleDonors now near collection alert in
    found = filter (AlertRoutes.keepDonor now alert) candidates
    /\ (forall d,
          In d found
          <-> In d candidates
              /\ Eligibility.eligible (Donor.checkEligibility now d) = true
              /\ ~ (Preferences.maxTravelDistance (Donor.preferences d)
                    < inject_Z (Alert.searchRadius alert))%Q
              /\ ~ (exists r, In r (Alert.responses alert)
                              /\ Response.donor r = Donor._id d)
              /\ ~ (Preferences.emergencyOnly (Donor.preferences d) = true
                    /\ Alert.urgencyLevel alert <> "critical"))
    /\ (forall d,
          (Preferences.maxTravelDistance (Donor.preferences d)
           < inject_Z (Alert.searchRadius alert))%Q ->
          ~ In d found)
    /\ (forall d,
          Preferences.emergencyOnly (Donor.preferences d) = true ->
          Alert.urgencyLevel alert <> "critical" ->
          ~ In d found)
    /\ (forall d r,
          In r (Alert.responses alert) ->
          Response.donor r = Donor._id d ->
          ~ In d found)
    /\ (forall d,
          Eligibility.eligible (Donor.checkEligibility now d) = false ->
          ~ In d found)
    /\ (forall d,
          (Preferences.maxTravelDistance (Donor.preferences d)
           == inject_Z 10)%Q ->
          Alert.searchRadius alert = 50 ->
          ~ In d found).
Proof.
  intros now near collection alert candidates found.
  assert (F : found = filter (AlertRoutes.keepDonor now alert) candidates).
  { subst found candidates. unfold AlertRoutes.findEligibleDonors.
    now rewrite pushEligible_filter. }
  assert (I : forall d,
             In d found
             <-> In d candidates
                 /\ Eligibility.eligible (Donor.checkEligibility now d) = true
                 /\ ~ (Preferences.maxTravelDistance (Donor.preferences d)
                       < inject_Z (Alert.searchRadius alert))%Q
                 /\ ~ (exists r, In r (Alert.responses alert)
                                 /\ Response.donor r = Donor._id d)
                 /\ ~ (Preferences.emergencyOnly (Donor.preferences d) = true
                       /\ Alert.urgencyLevel alert <> "critical")).
  { intros d. rewrite F, filter_In, keepDonor_iff.
    rewrite <- hasResponded_iff.
    assert (QQ : (inject_Z (Alert.searchRadius alert)
                  <= Preferences.maxTravelDistance (Donor.preferences d))%Q
                 <-> ~ (Preferences.maxTravelDistance (Donor.preferences d)
                        < inject_Z (Alert.searchRadius alert))%Q)
      by (split; [apply Qle_not_lt | apply Qnot_lt_le]).
    rewrite QQ.
    destruct (AlertRoutes.hasResponded alert d);
      destruct (String.eqb_spec (Alert.urgencyLevel alert) "critical");
      intuition (try discriminate; try congruence). }
  split; [exact F |]. split; [exact I |].
  repeat split.
  - intros d H Hin. apply I in Hin. tauto.
  - intros d H1 H2 Hin. apply I in Hin. tauto.
  - intros d r H1 H2 Hin. apply I in Hin.
    destruct Hin as (_ & _ & _ & N & _). apply N. now exists r.
  - intros d H Hin. apply I in Hin. destruct Hin as (_ & E & _).
    rewrite H in E. discriminate E.
  - intros d H1 H2 Hin. apply I in Hin. destruct Hin as (_ & _ & N & _).
    apply N. rewrite H1, H2. reflexivity.
Qed.

Lemma findEligibleDonors_exclusions_witness :
  In Examples.donorABNeg
     (AlertRoutes.queryDonors (fun _ => true)
        (compatibleDonorTypes (Alert.bloodType Examples.alertABNeg))
        [Examples.donorABNeg; Examples.donorONeg])
  /\ Eligibility.eligible
       (Donor.checkEligibility Examples.day0 Examples.donorABNeg) = true
  /\ ~ In Examples.donorABNeg
         (AlertRoutes.findEligibleDonors Examples.day0 (fun _ => true)
            [Examples.donorABNeg; Examples.donorONeg] Examples.alertABNeg)
  /\ AlertRoutes.findEligibleDonors Examples.day0 (fun _ => true)
       [Examples.donorABNeg; Examples.donorONeg] Examples.alertABNeg
     = [Examples.donorONeg].
Proof.
  split; [cbn; auto |]. split; [reflexivity |]. split; [| reflexivity].
  pose proof (findEligibleDonors_exclusions Examples.day0 (fun _ => true)
                [Examples.donorABNeg; Examples.donorONeg]
                Examples.alertABNeg) as (_ & _ & _ & _ & _ & _ & S).
  apply S; reflexivity.
Defined.

(** ** Notification dispatch: [sendBloodShortageAlert] *)

Section DispatchLoop.

Import NotificationService Dispatch.

Variables (now : Z) (tr : Transports).

(** One donor leaves the three counters of the alert as they are. *)
Lemma notifyDonor_counters st donor :
  let n := Alert.notifications (alert st) in
  let n' := Alert.notifications (alert (notifyDonor now tr st donor)) in
  Notifications.sent n' = Notifications.sent n
  /\ Notifications.opened n' = Notifications.opened n
  /\ Notifications.responded n' = Notifications.responded n.
Proof.
  unfold notifyDonor, sendVia, recordNotification.
  cbn [results alert calls delivers].
  destruct (enabled Email donor), (enabled Sms donor), (enabled Push donor),
    (emailDelivers tr (alert st) donor), (smsDelivers tr (alert st) donor);
    cbn; auto.
Qed.

Lemma fold_notifyDonor_counters donors st :
  let n := Alert.notifications (alert st) in
  let n' :=
    Alert.notifications (alert (fold_left (notifyDonor now tr) donors st)) in
  Notifications.sent n' = Notifications.sent n
  /\ Notifications.opened n' = Notifications.opened n
  /\ Notifications.responded n' = Notifications.responded n.
Proof.
  revert st. induction donors as [| d donors IH]; intros st; cbn.
  - auto.
  - destruct (IH (notifyDonor now tr st d)) as (S & O & R).
    destruct (notifyDonor_counters st d) as (S' & O' & R').
    cbv zeta in *. repeat split; congruence.
Qed.

(** The donor for whom a sender throws. *)
Lemma notifyDonor_throw st donor ch :
  firstThrow tr (alert st) donor = Some ch ->
  let st' := notifyDonor now tr st donor in
  ch <> Push
  /\ calls st' = calls st ++ callsOf donor (upTo ch)
  /\ alert st' = alert st
  /\ forall c,
      Count.failed (count c (results st'))
      = Count.failed (count c (results st)) + one (enabled c donor)
      /\ Count.sent (count c (results st'))
         = Count.sent (count c (results st))
           + one (enabled c donor && before c ch).
Proof.
  unfold firstThrow, throws, CHANNELS, notifyDonor, sendVia,
    incrementFailedCount, callsOf, recordNotification.
  cbn [find delivers results alert calls]. unfold enabled.
  destruct (Preferences.notificationMethods (Donor.preferences donor))
    as [e s p].
  destruct e, s, p,
    (emailDelivers tr (alert st) donor), (smsDelivers tr (alert st) donor);
    cbn; intros [= <-]; cbn;
    (split; [discriminate |]);
    (split; [now rewrite ?app_nil_r, <- ?app_assoc |]);
    (split; [reflexivity |]);
    intros [| |]; cbn; split; lia.
Qed.

(** The donor for whom no sender throws. *)
Lemma notifyDonor_complete st donor :
  firstThrow tr (alert st) donor = None ->
  let st' := notifyDonor now tr st donor in
  calls st' = calls st ++ callsOf donor CHANNELS
  /\ (exists entry,
         Notifications.sentTo (Alert.notifications (alert st'))
         = Notifications.sentTo (Alert.notifications (alert st)) ++ [entry]
         /\ SentTo.donor entry = Donor._id donor
         /\ SentTo.method entry = getPreferredMethod donor)
  /\ forall c,
      Count.failed (count c (results st'))
      = Count.failed (count c (results st))
      /\ Count.sent (count c (results st'))
         = Count.sent (count c (results st)) + one (enabled c donor).
Proof.
  unfold firstThrow, throws, CHANNELS, notifyDonor, sendVia,
    incrementFailedCount, callsOf, recordNotification.
  cbn [find delivers results alert calls]. unfold getPreferredMethod, enabled.
  destruct (Preferences.notificationMethods (Donor.preferences donor))
    as [e s p].
  destruct e, s, p,
    (emailDelivers tr (alert st) donor), (smsDelivers tr (alert st) donor);
    cbn; intros [=]; cbn;
    (split; [now rewrite ?app_nil_r, <- ?app_assoc |]);
    (split; [eexists; split; [reflexivity | split; reflexivity] |]);
    intros [| |]; cbn; split; lia.
Qed.

Lemma callsOf_upTo_skips donor ch c :
  before ch c = true -> ~ In (Donor._id donor, c) (callsOf donor (upTo ch)).
Proof.
  unfold callsOf. intros B Hin.
  apply in_map_iff in Hin as (c' & [= <-] & Hin).
  apply filter_In in Hin as [Hin _].
  destruct ch, c'; cbn in B, Hin; try discriminate B;
    repeat (destruct Hin as [Hin | Hin]; [discriminate Hin |]);
    exact Hin.
Qed.

End DispatchLoop.

(** C8. [sendBloodShortageAlert] adds to [alert.notifications.sent] the
    number of donors of the list, whatever the number of messages sent.
    Each donor of the list is processed in turn from the state that the
    donors before left. When a sender throws for a donor, the senders of
    the later channels are not called for that donor, the [failed]
    counter of every channel that the donor enabled goes up by one (the
    [sent] counters of the channels already served keep their
    increment), and no notification is recorded for the donor on the
    alert; when none throws, every enabled channel is served and counted
    as sent, and one notification is recorded. *)
Theorem sendBloodShortageAlert_bookkeeping :
  forall now tr a donors,
    let init :=
      {| NotificationService.results := NotificationService.noResults;
         NotificationService.alert := a;
         NotificationService.calls := [] |} in
    let out := NotificationService.sendBloodShortageAlert now tr a donors in
    Notifications.sent (Alert.notifications (NotificationService.alert out))
    = Notifications.sent (Alert.notifications a)
      + Z.of_nat (List.length donors)
    /\ (forall pre donor post,
          donors = pre ++ donor :: post ->
          let st := fold_left (NotificationService.notifyDonor now tr)
                              pre init in
          let st' := NotificationService.notifyDonor now tr st donor in
          NotificationService.results out
          = NotificationService.results
              (fold_left (NotificationService.notifyDonor now tr) post st')
          /\ NotificationService.calls out
             = NotificationService.calls
                 (fold_left (NotificationService.notifyDonor now tr) post st')
          /\ (forall ch,
                Dispatch.firstThrow tr (NotificationService.alert st) donor
                = Some ch ->
                NotificationService.calls st'
                = NotificationService.calls st
                  ++ Dispatch.callsOf donor (Dispatch.upTo ch)
                /\ (forall c, Dispatch.before ch c = true ->
                              ~ In (Donor._id donor, c)
                                   (Dispatch.callsOf donor (Dispatch.upTo ch)))
                /\ NotificationService.alert st'
                   = NotificationService.alert st
                /\ forall c,
                    NotificationService.Count.failed
                      (NotificationService.count c
                         (NotificationService.results st'))
                    = NotificationService.Count.failed
                        (NotificationService.count c
                           (NotificationService.results st))
                      + Dispatch.one (NotificationService.enabled c donor)
                    /\ NotificationService.Count.sent
                         (NotificationService.count c
                            (NotificationService.results st'))
                       = NotificationService.Count.sent
                           (NotificationService.count c
                              (NotificationService.results st))
                         + Dispatch.one
                             (NotificationService.enabled c donor
                              && Dispatch.before c ch))
          /\ (Dispatch.firstThrow tr (NotificationService.alert st) donor
              = None ->
              NotificationService.calls st'
              = NotificationService.calls st
                ++ Dispatch.callsOf donor Dispatch.CHANNELS
              /\ (exists entry,
                     Notifications.sentTo
                       (Alert.notifications (NotificationService.alert st'))
                     = Notifications.sentTo
                         (Alert.notifications (NotificationService.alert st))
                       ++ [entry]
                     /\ SentTo.donor entry = Donor._id donor
                     /\ SentTo.method entry
                        = NotificationService.getPreferredMethod donor)
              /\ forall c,
                  NotificationService.Count.failed
                    (NotificationService.count c
                       (NotificationService.results st'))
                  = NotificationService.Count.failed
                      (NotificationService.count c
                         (NotificationService.results st))
                  /\ NotificationService.Count.sent
                       (NotificationService.count c
                          (NotificationService.results st'))
                     = NotificationService.Count.sent
                         (NotificationService.count c
                            (NotificationService.results st))
                       + Dispatch.one (NotificationService.enabled c donor))).
Proof.
  intros now tr a donors init out. split.
  - subst out. unfold NotificationService.sendBloodShortageAlert. cbn.
    destruct (fold_notifyDonor_counters now tr donors init) as (S & _).
    cbv zeta in S. fold init. rewrite S. reflexivity.
  - intros pre donor post -> st st'.
    assert (F : fold_left (NotificationService.notifyDonor now tr)
                          (pre ++ donor :: post) init
                = fold_left (NotificationService.notifyDonor now tr) post st').
    { now rewrite fold_left_app. }
    subst out. unfold NotificationService.sendBloodShortageAlert.
    cbn [NotificationService.results NotificationService.calls].
    fold init. rewrite F.
    split; [reflexivity |]. split; [reflexivity |]. split.
    + intros ch T.
      destruct (notifyDonor_throw now tr st donor ch T) as (_ & C & A & R).
      split; [exact C |]. split; [| split; [exact A | exact R]].
      intros c. apply callsOf_upTo_skips.
    + intros T. exact (notifyDonor_complete now tr st donor T).
Qed.

Lemma sendBloodShortageAlert_bookkeeping_witness :
  NotificationService.calls
    (NotificationService.sendBloodShortageAlert Examples.t0
       Examples.emailNotConfigured Examples.alert0
       [Examples.donorONeg; Examples.donorSmsPush])
  = [ (Donor._id Examples.donorONeg, NotificationService.Email);
      (Donor._id Examples.donorSmsPush, NotificationService.Sms);
      (Donor._id Examples.donorSmsPush, NotificationService.Push) ]
  /\ NotificationService.results
       (NotificationService.sendBloodShortageAlert Examples.t0
          Examples.emailNotConfigured Examples.alert0
          [Examples.donorONeg; Examples.donorSmsPush])
     = {| NotificationService.email :=
            {| NotificationService.Count.sent := 0;
               NotificationService.Count.failed := 1 |};
          NotificationService.sms :=
            {| NotificationService.Count.sent := 1;
               NotificationService.Count.failed := 1 |};
          NotificationService.push :=
            {| NotificationService.Count.sent := 1;
               NotificationService.Count.failed := 1 |} |}
  /\ NotificationService.calls
       (NotificationService.notifyDonor Examples.t0
          Examples.emailNotConfigured
          {| NotificationService.results := NotificationService.noResults;
             NotificationService.alert := Examples.alert0;
             NotificationService.calls := [] |}
          Examples.donorONeg)
     = [] ++ Dispatch.callsOf Examples.donorONeg
               (Dispatch.upTo NotificationService.Email)
  /\ Notifications.sent
       (Alert.notifications
          (NotificationService.alert
             (NotificationService.sendBloodShortageAlert Examples.t0
                Examples.emailNotConfigured Examples.alert0
                [Examples.donorONeg; Examples.donorSmsPush])))
     = 0 + 2.
Proof.
  split; [reflexivity |]. split; [reflexivity |].
  destruct (sendBloodShortageAlert_bookkeeping Examples.t0
              Examples.emailNotConfigured Examples.alert0
              [Examples.donorONeg; Examples.donorSmsPush]) as (S & P).
  split; [| exact S].
  destruct (P [] Examples.donorONeg [Examples.donorSmsPush] eq_refl)
    as (_ & _ & T & _).
  exact (proj1 (T NotificationService.Email eq_refl)).
Defined.

(** ** The two rates *)

Section Rates.

Import Spec.

Lemma percentage_Z num den :
  0 < den -> percentage num den = percentageZ num den.
Proof.
  intros H. unfold percentage, percentageZ.
  destruct den as [| p | p]; try lia.
  cbn [Z.eqb]. unfold Qfloor, Qplus, Qmult, Qdiv, Qinv, inject_Z.
  cbn [Qnum Qden Qmult]. f_equal; lia.
Qed.

Lemma in_range lo n x : lo <= x < lo + Z.of_nat n -> In x (range lo n).
Proof.
  intros H. unfold range. apply in_map_iff.
  exists (Z.to_nat (x - lo)). split; [lia |].
  apply in_seq. lia.
Qed.

Lemma agrees_in_bound :
  forallb (fun den => forallb (fun num => agrees num den) (range 0 (S BOUND)))
          (range 1 BOUND) = true.
Proof. vm_compute. reflexivity. Qed.

(** Over the range of the comparison, the computation of the code gives
    the percentage rounded, except that a value exactly halfway between
    two integers may be rounded down. *)
Lemma computed_percentage num den :
  0 <= num <= Z.of_nat BOUND -> 1 <= den <= Z.of_nat BOUND ->
  exists v,
    F64.toZ (computed num den) = Some v
    /\ (halfway num den = false -> v = percentage num den)
    /\ (halfway num den = true ->
        v = percentage num den \/ v = percentage num den - 1).
Proof.
  intros Hn Hd.
  pose proof agrees_in_bound as A.
  rewrite forallb_forall in A.
  specialize (A den (in_range 1 BOUND den ltac:(lia))).
  rewrite forallb_forall in A.
  specialize (A num (in_range 0 (S BOUND) num ltac:(lia))).
  unfold agrees in A. rewrite percentage_Z by lia.
  destruct (F64.toZ (computed num den)) as [v |]; [| discriminate].
  exists v. split; [reflexivity |].
  destruct (halfway num den).
  - split; [discriminate |]. intros _.
    apply orb_prop in A as [A | A]; apply Z.eqb_eq in A; auto.
  - split; [| discriminate]. intros _. now apply Z.eqb_eq.
Qed.

End Rates.




(** * Further properties *)

(** ** Expiry: [timeRemaining], [isExpired], [extendExpiry] *)

(** X1. [timeRemaining] is never negative, is 0 exactly when less than
    one hour is left (in particular once the alert is expired), and on an
    alert that is not yet expired [extendExpiry(hours)] raises it by
    exactly [hours]; two extensions add up. *)
Theorem timeRemaining_extendExpiry :
  forall now a,
    0 <= Alert.timeRemaining now a
    /\ (Alert.timeRemaining now a = 0
        <-> Alert.expiresAt a - now < 1000 * 60 * 60)
    /\ (Alert.isExpired now a = true -> Alert.timeRemaining now a = 0)
    /\ (forall h,
          now < Alert.expiresAt a -> 0 <= h ->
          Alert.timeRemaining now (Alert.extendExpiry h a)
          = Alert.timeRemaining now a + h)
    /\ (forall h1 h2,
          Alert.extendExpiry h2 (Alert.extendExpiry h1 a)
          = Alert.extendExpiry (h1 + h2) a).
Proof.
  intros now a. unfold Alert.timeRemaining, Alert.isExpired.
  set (r := Alert.expiresAt a - now).
  assert (K : 1000 * 60 * 60 = 3600000) by reflexivity. rewrite !K.
  repeat apply conj.
  - destruct (Z.leb_spec r 0); [lia |]. apply Z.div_pos; lia.
  - destruct (Z.leb_spec r 0); [lia |].
    intros E. apply Z.div_small_iff in E; lia.
  - destruct (Z.leb_spec r 0); [lia |].
    intros L. apply Z.div_small. lia.
  - intros E. apply Z.ltb_lt in E. destruct (Z.leb_spec r 0); [reflexivity |].
    subst r. lia.
  - intros h L H. cbn.
    replace (Alert.expiresAt a + h * 60 * 60 * 1000 - now)
      with (r + h * 3600000) by (subst r; lia).
    destruct (Z.leb_spec r 0) as [R | R]; [subst r; lia |].
    destruct (Z.leb_spec (r + h * 3600000) 0); [nia |].
    apply Z.div_add. lia.
  - intros h1 h2. unfold Alert.extendExpiry, Alert.set_expiresAt. cbn.
    f_equal. lia.
Qed.

Lemma timeRemaining_extendExpiry_witness :
  Alert.timeRemaining (Examples.t0 + 3600000) Examples.alert0 = 23
  /\ Alert.timeRemaining (Examples.t0 + 3600000)
       (Alert.extendExpiry 12 Examples.alert0) = 23 + 12.
Proof.
  split; [reflexivity |].
  destruct (timeRemaining_extendExpiry (Examples.t0 + 3600000)
              Examples.alert0) as (_ & _ & _ & E & _).
  apply (E 12); cbn; lia.
Defined.

(** X2. The extend handler extends an alert of the hospital whose status
    is 'active' or 'partially_fulfilled' by between 1 and 168 hours: it
    moves [expiresAt] later by that many hours and changes nothing
    else. An alert in another status is not extended, whatever the
    request. The handler does not read the clock: run on an alert that
    expired longer ago than the extension, and that the store still
    holds (its TTL index on [expiresAt] removes expired alerts on its
    own schedule), it extends the alert all the same, and the alert is
    still expired afterwards. *)
Theorem extend_moves_expiry_only :
  (forall hospital body alert a',
      AlertLifecycle.extend hospital body alert = Http.Ok a' ->
      exists a h,
        alert = Some a /\ AlertLifecycle.hours body = Some h
        /\ 1 <= h <= 168
        /\ Alert.hospital a = Hospital._id hospital
        /\ (Alert.status a = "active"
            \/ Alert.status a = "partially_fulfilled")
        /\ a' = Alert.set_expiresAt
                  (Alert.expiresAt a + h * (1000 * 60 * 60)) a
        /\ forall now,
            Alert.expiresAt a + h * (1000 * 60 * 60) < now ->
            Alert.isExpired now a' = true)
  /\ (forall hospital body a,
        Alert.status a <> "active" ->
        Alert.status a <> "partially_fulfilled" ->
        exists st b,
          AlertLifecycle.extend hospital body (Some a) = Http.Fail st b
          /\ (st = 400 \/ st = 404))
  /\ (forall hospital h a,
        Alert.validate a = true ->
        Alert.hospital a = Hospital._id hospital ->
        Alert.status a = "active" \/ Alert.status a = "partially_fulfilled" ->
        1 <= h <= 168 ->
        AlertLifecycle.extend hospital {| AlertLifecycle.hours := Some h |}
          (Some a)
        = Http.Ok (Alert.extendExpiry h a)).
Proof.
  repeat apply conj.
  - intros hospital body alert a'. unfold AlertLifecycle.extend.
    unfold AlertLifecycle.validExtendBody.
    destruct (AlertLifecycle.hours body) as [h |]; [| discriminate].
    destruct (Z.leb_spec 1 h); [| discriminate].
    destruct (Z.leb_spec h 168); [| discriminate]. cbn [andb negb].
    destruct alert as [a |]; [| discriminate]. cbn [AlertRoutes.ownedBy].
    destruct (String.eqb_spec (Alert.hospital a) (Hospital._id hospital))
      as [O | O]; [| discriminate].
    destruct (String.eqb_spec (Alert.status a) "active") as [S1 | S1];
      destruct (String.eqb_spec (Alert.status a) "partially_fulfilled")
        as [S2 | S2]; cbn [andb negb]; try discriminate;
      unfold Alert.save;
      destruct (Alert.validate _); try discriminate;
      intros [= <-]; exists a, h;
      (repeat split; auto; try lia;
       [ unfold Alert.extendExpiry; f_equal; cbn; lia
       | intros now L; unfold Alert.isExpired; cbn; apply Z.ltb_lt; lia ]).
  - intros hospital body a S1 S2. unfold AlertLifecycle.extend.
    destruct (AlertLifecycle.validExtendBody body); cbn [negb];
      [| eexists; eexists; split; [reflexivity | auto]].
    cbn [AlertRoutes.ownedBy].
    destruct (String.eqb (Alert.hospital a) (Hospital._id hospital));
      [| eexists; eexists; split; [reflexivity | auto]].
    destruct (String.eqb_spec (Alert.status a) "active"); [contradiction |].
    destruct (String.eqb_spec (Alert.status a) "partially_fulfilled");
      [contradiction |].
    cbn. eexists; eexists; split; [reflexivity | auto].
  - intros hospital h a V O S H. unfold AlertLifecycle.extend.
    unfold AlertLifecycle.validExtendBody. cbn.
    destruct (Z.leb_spec 1 h); [| lia]. destruct (Z.leb_spec h 168); [| lia].
    cbn. rewrite O, String.eqb_refl.
    assert (G : negb (String.eqb (Alert.status a) "active")
                && negb (String.eqb (Alert.status a) "partially_fulfilled")
                = false).
    { destruct S as [-> | ->]; reflexivity. }
    rewrite G. unfold Alert.save.
    replace (Alert.validate (Alert.extendExpiry h a)) with (Alert.validate a)
      by reflexivity.
    now rewrite V.
Qed.

Lemma extend_moves_expiry_only_witness :
  AlertLifecycle.extend Examples.hospitalADoc Samples.extendBy12
    (Some Examples.alert0)
  = Http.Ok (Alert.extendExpiry 12 Examples.alert0)
  /\ Alert.isExpired (Examples.t0 + 40 * 3600000)
       (Alert.extendExpiry 12 Examples.alert0) = true.
Proof.
  destruct extend_moves_expiry_only as (F & _ & S).
  assert (E : AlertLifecycle.extend Examples.hospitalADoc Samples.extendBy12
                (Some Examples.alert0)
              = Http.Ok (Alert.extendExpiry 12 Examples.alert0)).
  { apply (S Examples.hospitalADoc 12 Examples.alert0);
      [reflexivity | reflexivity | left; reflexivity | lia]. }
  split; [exact E |].
  destruct (F _ _ _ _ E) as (a & h & [= <-] & [= <-] & _ & _ & _ & _ & X).
  apply X. cbn. lia.
Defined.

(** ** The completion percentage *)

Lemma ends_in_bound :
  forallb (fun n => forallb (fun c => implb (c <=? n) (Completion.ends c n))
                            (Spec.range 0 (S Spec.BOUND)))
          (Spec.range 1 Spec.BOUND) = true.
Proof. vm_compute. reflexivity. Qed.

(** X3. For an alert that needs between 1 and 100 units (the range the
    create route accepts) and has collected at most that many, the
    virtual [completionPercentage] is an integer between 0 and 100; it is
    100 exactly when every unit is collected and 0 exactly when none is,
    and it is the exactly rounded percentage unless that lies halfway
    between two integers. *)
Theorem completionPercentage_scale :
  forall a,
    1 <= Alert.unitsNeeded a <= 100 ->
    0 <= Alert.unitsCollected a <= Alert.unitsNeeded a ->
    exists v,
      F64.toZ (Alert.completionPercentage a) = Some v
      /\ 0 <= v <= 100
      /\ (v = 100 <-> Alert.unitsCollected a = Alert.unitsNeeded a)
      /\ (v = 0 <-> Alert.unitsCollected a = 0)
      /\ (Spec.halfway (Alert.unitsCollected a) (Alert.unitsNeeded a) = false
          -> v = Spec.percentage (Alert.unitsCollected a)
                                 (Alert.unitsNeeded a)).
Proof.
  intros a Hn Hc.
  set (c := Alert.unitsCollected a) in *.
  set (n := Alert.unitsNeeded a) in *.
  change (Alert.completionPercentage a) with (Spec.computed c n).
  destruct (computed_percentage c n) as (v & E & NH & HW);
    [change (Z.of_nat Spec.BOUND) with 100; lia
    |change (Z.of_nat Spec.BOUND) with 100; lia |].
  pose proof ends_in_bound as A.
  rewrite forallb_forall in A.
  specialize (A n (in_range 1 Spec.BOUND n
                     ltac:(change (Z.of_nat Spec.BOUND) with 100; lia))).
  rewrite forallb_forall in A.
  specialize (A c (in_range 0 (S Spec.BOUND) c
                     ltac:(change (Z.of_nat (S Spec.BOUND)) with 101; lia))).
  destruct (Z.leb_spec c n); [| lia]. cbn [implb] in A.
  unfold Completion.ends in A.
  rewrite percentage_Z in NH, HW |- * by lia.
  set (p := Spec.percentageZ c n) in *.
  exists v. split; [exact E |].
  destruct (Spec.halfway c n).
  - specialize (HW eq_refl). clear NH.
    repeat (apply andb_prop in A as [A ?]).
    cbn [implb negb] in *.
    destruct (Z.eqb_spec (p - 1) 0); [discriminate |].
    destruct (Z.eqb_spec p 100); [discriminate |].
    destruct (Z.eqb_spec c n); [discriminate |].
    apply Z.leb_le in A.
    assert (p <= 100) by (apply Z.leb_le; assumption).
    destruct (Z.eqb_spec p 0); destruct (Z.eqb_spec c 0);
      try discriminate; try lia.
  - specialize (NH eq_refl). clear HW. subst v.
    repeat (apply andb_prop in A as [A ?]).
    apply Z.leb_le in A.
    assert (p <= 100) by (apply Z.leb_le; assumption).
    destruct (Z.eqb_spec p 100); destruct (Z.eqb_spec c n);
      try discriminate;
      destruct (Z.eqb_spec p 0); destruct (Z.eqb_spec c 0);
        try discriminate; repeat split; try lia; auto.
Qed.

Lemma completionPercentage_scale_witness :
  exists v,
    F64.toZ (Alert.completionPercentage Samples.alertTwoOfThree) = Some v
    /\ 0 <= v <= 100
    /\ (v = 100 <-> 2 = 3) /\ (v = 0 <-> 2 = 0)
    /\ (Spec.halfway 2 3 = false -> v = Spec.percentage 2 3).
Proof.
  apply (completionPercentage_scale Samples.alertTwoOfThree); cbn; lia.
Defined.

(** ** The static [checkDonorEligibility] *)

Lemma findEligibleDonors_filter now near collection alert :
  AlertRoutes.findEligibleDonors now near collection alert
  = filter (AlertRoutes.keepDonor now alert)
      (AlertRoutes.queryDonors near
         (compatibleDonorTypes (Alert.bloodType alert)) collection).
Proof.
  unfold AlertRoutes.findEligibleDonors. now rewrite pushEligible_filter.
Qed.

Lemma findEligibleDonors_In now near collection alert d :
  In d (AlertRoutes.findEligibleDonors now near collection alert) ->
  In d collection
  /\ In (Donor.bloodGroup d) (compatibleDonorTypes (Alert.bloodType alert))
  /\ Eligibility.eligible (Donor.checkEligibility now d) = true
  /\ AlertRoutes.hasResponded alert d = false.
Proof.
  rewrite findEligibleDonors_filter. intros I.
  apply filter_In in I as [I K].
  unfold AlertRoutes.queryDonors in I. apply filter_In in I as [I Q].
  apply keepDonor_iff in K.
  repeat (apply andb_prop in Q as [Q ?]).
  apply includes_In in Q. tauto.
Qed.

(** X4. [Alert.checkDonorEligibility] accepts a donor exactly when the
    donor's blood group is in the compatibility list of the alert's blood
    type and the donor's own [checkEligibility] passes; an incompatible
    group is reported first, whatever the donor's own state, and
    otherwise the donor's own failure is passed on. Every donor that
    [findEligibleDonors] returns for an alert passes it. *)
Theorem checkDonorEligibility_meaning :
  (forall now d a,
      Eligibility.eligible (AlertStatics.checkDonorEligibility now d a) = true
      <-> In (Donor.bloodGroup d) (compatibleDonorTypes (Alert.bloodType a))
          /\ Eligibility.eligible (Donor.checkEligibility now d) = true)
  /\ (forall now d a,
        ~ In (Donor.bloodGroup d) (compatibleDonorTypes (Alert.bloodType a)) ->
        AlertStatics.checkDonorEligibility now d a
        = {| Eligibility.eligible := false;
             Eligibility.reason := Some "Blood type incompatible" |})
  /\ (forall now d a,
        In (Donor.bloodGroup d) (compatibleDonorTypes (Alert.bloodType a)) ->
        Eligibility.eligible (Donor.checkEligibility now d) = false ->
        AlertStatics.checkDonorEligibility now d a
        = Donor.checkEligibility now d)
  /\ (forall now near collection a d,
        In d (AlertRoutes.findEligibleDonors now near collection a) ->
        AlertStatics.checkDonorEligibility now d a
        = {| Eligibility.eligible := true;
             Eligibility.reason := Some "Eligible for this alert" |}).
Proof.
  assert (T : forall t, compatibleBloodTypes t = compatibleDonorTypes t)
    by reflexivity.
  assert (C : forall now d a,
             In (Donor.bloodGroup d) (compatibleDonorTypes (Alert.bloodType a))
             -> AlertStatics.checkDonorEligibility now d a
                = if negb (Eligibility.eligible (Donor.checkEligibility now d))
                  then Donor.checkEligibility now d
                  else {| Eligibility.eligible := true;
                          Eligibility.reason :=
                            Some "Eligible for this alert" |}).
  { intros now d a I. unfold AlertStatics.checkDonorEligibility.
    rewrite T. apply includes_In in I. now rewrite I. }
  assert (N : forall now d a,
             ~ In (Donor.bloodGroup d)
                  (compatibleDonorTypes (Alert.bloodType a))
             -> AlertStatics.checkDonorEligibility now d a
                = {| Eligibility.eligible := false;
                     Eligibility.reason := Some "Blood type incompatible" |}).
  { intros now d a I. unfold AlertStatics.checkDonorEligibility.
    rewrite T.
    destruct (Js.includes (compatibleDonorTypes (Alert.bloodType a))
                          (Donor.bloodGroup d)) eqn:E; [| reflexivity].
    apply includes_In in E. contradiction. }
  repeat apply conj.
  - intros now d a. split.
    + intros E.
      destruct (in_dec string_dec (Donor.bloodGroup d)
                  (compatibleDonorTypes (Alert.bloodType a))) as [I | I].
      * split; [exact I |]. rewrite (C now d a I) in E.
        destruct (Eligibility.eligible (Donor.checkEligibility now d)) eqn:EE;
          [reflexivity |].
        cbn [negb] in E. congruence.
      * rewrite (N now d a I) in E. discriminate.
    + intros [I E]. rewrite (C now d a I), E. reflexivity.
  - exact N.
  - intros now d a I E. rewrite (C now d a I), E. reflexivity.
  - intros now near collection a d I.
    apply findEligibleDonors_In in I as (_ & B & E & _).
    rewrite (C now d a B), E. reflexivity.
Qed.

Lemma checkDonorEligibility_meaning_witness :
  AlertStatics.checkDonorEligibility Examples.day0 Samples.donorAPos
    Examples.alert0
  = {| Eligibility.eligible := false;
       Eligibility.reason := Some "Blood type incompatible" |}.
Proof.
  destruct checkDonorEligibility_meaning as (_ & N & _).
  apply N. vm_compute. intuition discriminate.
Defined.

(** ** The status override *)

Ltac alert_fields :=
  cbn [Alert._id Alert.hospital Alert.bloodType Alert.urgencyLevel
       Alert.unitsNeeded Alert.unitsCollected Alert.reason Alert.searchRadius
       Alert.status Alert.notifications Alert.responses Alert.sharing
       Alert.expiresAt Alert.isActive Alert.createdBy Alert.lastModifiedBy
       Alert.internalNotes Alert.set_status Alert.set_unitsCollected
       Alert.set_notifications Alert.set_responses Alert.set_sharing
       Alert.set_expiresAt AlertLifecycle.set_lastModifiedBy
       AlertLifecycle.set_internalNotes Alert.new
       Notifications.sent Notifications.opened Notifications.responded
       Notifications.sentTo Sharing.allowSharing Sharing.sharedWith] in *.

(** What [validate] checks, field by field. *)
Lemma validate_iff a :
  Alert.validate a = true
  <-> (In (Alert.bloodType a) BLOOD_TYPES
       /\ In (Alert.urgencyLevel a) Alert.URGENCY_LEVELS
       /\ 1 <= Alert.unitsNeeded a
       /\ 5 <= Alert.searchRadius a <= 200
       /\ In (Alert.status a) Alert.STATUSES)
      /\ forallb Alert.validSentTo
           (Notifications.sentTo (Alert.notifications a)) = true
      /\ forallb Alert.validResponse (Alert.responses a) = true
      /\ forallb Alert.validSharedWith
           (Sharing.sharedWith (Alert.sharing a)) = true.
Proof.
  unfold Alert.validate.
  rewrite !Bool.andb_true_iff, !includes_In, !Z.leb_le. tauto.
Qed.

Lemma validate_set_status s a :
  Alert.validate a = true -> In s Alert.STATUSES ->
  Alert.validate (Alert.set_status s a) = true.
Proof.
  rewrite !validate_iff. alert_fields. tauto.
Qed.

Lemma save_Some a a' : Alert.save a = Some a' -> a' = a /\ Alert.validate a = true.
Proof.
  unfold Alert.save. destruct (Alert.validate a); [| discriminate].
  intros [= <-]. auto.
Qed.

Lemma save_valid a : Alert.validate a = true -> Alert.save a = Some a.
Proof. unfold Alert.save. now intros ->. Qed.

(** The alert that a successful status update stores. *)
Lemma updateStatus_Ok_inv iso userId hospital body a a' :
  AlertLifecycle.updateStatus iso userId hospital body (Some a) = Http.Ok a' ->
  exists s,
    AlertLifecycle.status body = Some s /\ In s Alert.STATUSES
    /\ Alert.hospital a = Hospital._id hospital
    /\ Alert.validate a' = true
    /\ (a' = AlertLifecycle.set_lastModifiedBy (Some userId)
               (Alert.set_status s a)
        \/ exists notes,
             a' = AlertLifecycle.set_internalNotes (Some notes)
                    (AlertLifecycle.set_lastModifiedBy (Some userId)
                       (Alert.set_status s a))).
Proof.
  unfold AlertLifecycle.updateStatus, AlertLifecycle.validStatusBody.
  destruct (AlertLifecycle.status body) as [s |]; [| discriminate].
  destruct (Js.includes Alert.STATUSES s) eqn:I; [| discriminate].
  apply includes_In in I. cbn [negb AlertRoutes.ownedBy Js.orElse].
  destruct (String.eqb_spec (Alert.hospital a) (Hospital._id hospital));
    [| discriminate].
  destruct (AlertLifecycle.truthy (AlertLifecycle.reason body));
    (destruct (Alert.save _) as [st |] eqn:S; [| discriminate]);
    apply save_Some in S as [-> V]; intros [= <-];
    exists s; repeat split; auto.
  right. eexists. reflexivity.
Qed.

(** The same, field by field. *)
Lemma updateStatus_Ok_eq iso userId hospital body a a' :
  AlertLifecycle.updateStatus iso userId hospital body (Some a) = Http.Ok a' ->
  a' = {| Alert._id := Alert._id a;
          Alert.hospital := Alert.hospital a;
          Alert.bloodType := Alert.bloodType a;
          Alert.urgencyLevel := Alert.urgencyLevel a;
          Alert.unitsNeeded := Alert.unitsNeeded a;
          Alert.unitsCollected := Alert.unitsCollected a;
          Alert.reason := Alert.reason a;
          Alert.searchRadius := Alert.searchRadius a;
          Alert.status := Js.orElse (AlertLifecycle.status body) "";
          Alert.notifications := Alert.notifications a;
          Alert.responses := Alert.responses a;
          Alert.sharing := Alert.sharing a;
          Alert.expiresAt := Alert.expiresAt a;
          Alert.isActive := Alert.isActive a;
          Alert.createdBy := Alert.createdBy a;
          Alert.lastModifiedBy := Some userId;
          Alert.internalNotes :=
            if AlertLifecycle.truthy (AlertLifecycle.reason body)
            then Some (AlertLifecycle.statusNote (Alert.internalNotes a) iso
                         (Alert.status a)
                         (Js.orElse (AlertLifecycle.status body) "")
                         (Js.orElse (AlertLifecycle.reason body) ""))
            else Alert.internalNotes a |}.
Proof.
  unfold AlertLifecycle.updateStatus.
  destruct (AlertLifecycle.validStatusBody body); [| discriminate].
  cbn [negb AlertRoutes.ownedBy].
  destruct (String.eqb (Alert.hospital a) (Hospital._id hospital));
    [| discriminate].
  destruct (AlertLifecycle.truthy (AlertLifecycle.reason body));
    (destruct (Alert.save _) as [st |] eqn:S; [| discriminate]);
    apply save_Some in S as [-> V]; intros [= <-]; reflexivity.
Qed.

Lemma extend_rejects_other_status hospital body a :
  Alert.status a <> "active" ->
  Alert.status a <> "partially_fulfilled" ->
  exists st b,
    AlertLifecycle.extend hospital body (Some a) = Http.Fail st b
    /\ (st = 400 \/ st = 404).
Proof.
  intros S1 S2. unfold AlertLifecycle.extend.
  destruct (AlertLifecycle.validExtendBody body); cbn [negb];
    [| eexists; eexists; split; [reflexivity | auto]].
  cbn [AlertRoutes.ownedBy].
  destruct (String.eqb (Alert.hospital a) (Hospital._id hospital));
    [| eexists; eexists; split; [reflexivity | auto]].
  destruct (String.eqb_spec (Alert.status a) "active"); [contradiction |].
  destruct (String.eqb_spec (Alert.status a) "partially_fulfilled");
    [contradiction |].
  cbn. eexists; eexists; split; [reflexivity | auto].
Qed.

(** X5. The status route is an unrestricted override: on a valid alert of
    the hospital every status of the enum can be set from every status,
    including 'active' on a fulfilled, cancelled or expired alert. The
    update writes [status] and [lastModifiedBy] (and appends to
    [internalNotes] when a reason is given) and leaves every other
    field of the alert as it was. After an update to a
    status other than 'active' every donor response is rejected, and
    after one to a status other than 'active' and 'partially_fulfilled'
    every extension is. *)
Theorem updateStatus_unrestricted_override :
  (forall iso userId hospital a s reason,
      Alert.validate a = true ->
      Alert.hospital a = Hospital._id hospital ->
      In s Alert.STATUSES ->
      exists a',
        AlertLifecycle.updateStatus iso userId hospital
          {| AlertLifecycle.status := Some s;
             AlertLifecycle.reason := reason |} (Some a) = Http.Ok a'
        /\ Alert.status a' = s
        /\ Alert.lastModifiedBy a' = Some userId
        /\ (AlertLifecycle.truthy reason = false ->
            Alert.internalNotes a' = Alert.internalNotes a))
  /\ (forall iso userId hospital body a a',
        AlertLifecycle.updateStatus iso userId hospital body (Some a)
        = Http.Ok a' ->
        AlertLifecycle.status body = Some (Alert.status a')
        /\ Alert.unitsNeeded a' = Alert.unitsNeeded a
        /\ Alert.unitsCollected a' = Alert.unitsCollected a
        /\ Alert.responses a' = Alert.responses a
        /\ Alert.notifications a' = Alert.notifications a
        /\ Alert.sharing a' = Alert.sharing a
        /\ Alert.expiresAt a' = Alert.expiresAt a
        /\ (Alert.status a' <> "active" ->
            forall now userEmail rb donor,
            exists st b,
              DonorRoutes.respond now userEmail rb donor (Some a')
              = Http.Fail st b)
        /\ (Alert.status a' <> "active" ->
            Alert.status a' <> "partially_fulfilled" ->
            forall hospital' eb,
            exists st b,
              AlertLifecycle.extend hospital' eb (Some a') = Http.Fail st b)
        /\ a' = {| Alert._id := Alert._id a;
                   Alert.hospital := Alert.hospital a;
                   Alert.bloodType := Alert.bloodType a;
                   Alert.urgencyLevel := Alert.urgencyLevel a;
                   Alert.unitsNeeded := Alert.unitsNeeded a;
                   Alert.unitsCollected := Alert.unitsCollected a;
                   Alert.reason := Alert.reason a;
                   Alert.searchRadius := Alert.searchRadius a;
                   Alert.status := Alert.status a';
                   Alert.notifications := Alert.notifications a;
                   Alert.responses := Alert.responses a;
                   Alert.sharing := Alert.sharing a;
                   Alert.expiresAt := Alert.expiresAt a;
                   Alert.isActive := Alert.isActive a;
                   Alert.createdBy := Alert.createdBy a;
                   Alert.lastModifiedBy := Some userId;
                   Alert.internalNotes :=
                     if AlertLifecycle.truthy (AlertLifecycle.reason body)
                     then
                       Some (AlertLifecycle.statusNote
                               (Alert.internalNotes a) iso (Alert.status a)
                               (Alert.status a')
                               (Js.orElse (AlertLifecycle.reason body) ""))
                     else Alert.internalNotes a |}).
Proof.
  split.
  - intros iso userId hospital a s reason V O I.
    unfold AlertLifecycle.updateStatus, AlertLifecycle.validStatusBody.
    cbn [AlertLifecycle.status AlertLifecycle.reason].
    rewrite (proj2 (includes_In _ _) I).
    cbn [negb AlertRoutes.ownedBy Js.orElse].
    rewrite O, String.eqb_refl.
    pose proof (validate_set_status s a V I) as V'.
    destruct (AlertLifecycle.truthy reason).
    + rewrite save_valid by exact V'. eexists. split; [reflexivity |].
      repeat split. discriminate.
    + rewrite save_valid by exact V'. eexists. split; [reflexivity |].
      repeat split.
  - intros iso userId hospital body a a' E.
    destruct (updateStatus_Ok_inv _ _ _ _ _ _ E) as (s & B & I & O & V & A).
    assert (F : Alert.status a' = s
                /\ Alert.unitsNeeded a' = Alert.unitsNeeded a
                /\ Alert.unitsCollected a' = Alert.unitsCollected a
                /\ Alert.responses a' = Alert.responses a
                /\ Alert.notifications a' = Alert.notifications a
                /\ Alert.sharing a' = Alert.sharing a
                /\ Alert.expiresAt a' = Alert.expiresAt a).
    { destruct A as [-> | [notes ->]]; repeat split. }
    destruct F as (F1 & F2 & F3 & F4 & F5 & F6 & F7).
    repeat (split; [congruence |]). split.
    + intros NA now userEmail rb donor. unfold DonorRoutes.respond.
      destruct (DonorRoutes.validRespondBody rb); cbn [negb];
        [| eexists; eexists; reflexivity].
      destruct donor; [| eexists; eexists; reflexivity].
      destruct (String.eqb_spec (Alert.status a') "active"); [contradiction |].
      eexists; eexists; reflexivity.
    + split.
      * intros N1 N2 hospital' eb.
        destruct extend_rejects_other_status with (hospital := hospital')
          (body := eb) (a := a') as (st & b & R & _); auto.
        eauto.
      * pose proof (updateStatus_Ok_eq _ _ _ _ _ _ E) as Q.
        rewrite B in Q. cbn [Js.orElse] in Q. rewrite <- F1 in Q.
        exact Q.
Qed.

Lemma updateStatus_unrestricted_override_witness :
  (exists a',
      AlertLifecycle.updateStatus "2024-01-01T00:00:00.000Z" Examples.userA
        Examples.hospitalADoc Samples.cancel (Some Examples.alert0)
      = Http.Ok a'
      /\ Alert.status a' = "cancelled"
      /\ Alert.lastModifiedBy a' = Some Examples.userA
      /\ (AlertLifecycle.truthy (Some "Patient transferred") = false ->
          Alert.internalNotes a' = Alert.internalNotes Examples.alert0))
  /\ exists st b,
      DonorRoutes.respond Examples.t0 "donor@example.org" Examples.interested
        (Some Examples.donorONeg)
        (Some (AlertLifecycle.set_internalNotes
                 (Some (AlertLifecycle.statusNote None
                          "2024-01-01T00:00:00.000Z" "active" "cancelled"
                          "Patient transferred"))
                 (AlertLifecycle.set_lastModifiedBy (Some Examples.userA)
                    (Alert.set_status "cancelled" Examples.alert0))))
      = Http.Fail st b.
Proof.
  destruct updateStatus_unrestricted_override as (A & B).
  split.
  - apply (A "2024-01-01T00:00:00.000Z" Examples.userA Examples.hospitalADoc
             Examples.alert0 "cancelled" (Some "Patient transferred"));
      [reflexivity | reflexivity | cbn; tauto].
  - refine (proj1 (proj2 (proj2 (proj2 (proj2 (proj2 (proj2 (proj2
              (B "2024-01-01T00:00:00.000Z" Examples.userA
                 Examples.hospitalADoc Samples.cancel Examples.alert0 _
                 eq_refl)))))))) _ _ _ _ _).
    cbn. discriminate.
Defined.

(** ** The sharing loop, as a whole *)

Section ShareLoop.

Import Http AlertRoutes.

Variables (now : Z) (hospital : Hospital.t) (msg : option string).

Let shared (a : Alert.t) := Sharing.sharedWith (Alert.sharing a).
Let keys (a : Alert.t) := map SharedWith.hospital (shared a).

Lemma alreadyShared_In a id : alreadyShared a id = true <-> In id (keys a).
Proof.
  unfold alreadyShared, keys, shared. rewrite existsb_exists, in_map_iff.
  split; intros (s & H1 & H2).
  - apply String.eqb_eq in H2. eauto.
  - exists s. split; [exact H2 | now apply String.eqb_eq].
Qed.

Lemma set_sharing_id a : Alert.set_sharing (Alert.sharing a) a = a.
Proof. now destruct a. Qed.

(** What the loop leaves for the ids [ids], started on the alert [a]. *)
Lemma fold_shareWith_spec ids :
  forall a rs a' rs',
    fold_left (shareWith now hospital msg) ids (a, rs) = (a', rs') ->
    exists new,
      rs' = rs ++ new
      /\ map result_hospitalId new = ids
      /\ shared a'
         = shared a
           ++ map (fun r => newSharedWith now (result_hospitalId r) msg)
                  (filter success new)
      /\ a' = Alert.set_sharing (Alert.sharing a') a
      /\ Sharing.allowSharing (Alert.sharing a')
         = Sharing.allowSharing (Alert.sharing a)
      /\ Forall
           (fun r =>
              (success r = true /\ reason r = None
               /\ isPartner hospital (result_hospitalId r) = true
               /\ ~ In (result_hospitalId r) (keys a))
              \/ (success r = false
                  /\ reason r = Some "Hospital is not a partner"
                  /\ isPartner hospital (result_hospitalId r) = false)
              \/ (success r = false
                  /\ reason r = Some "Alert already shared with this hospital"
                  /\ isPartner hospital (result_hospitalId r) = true))
           new
      /\ (NoDup (keys a) -> NoDup (keys a'))
      /\ (forall x,
            In x (keys a')
            <-> In x (keys a) \/ (In x ids /\ isPartner hospital x = true)).
Proof.
  induction ids as [| id ids IH]; intros a rs a' rs' E.
  - cbn in E. injection E as <- <-. exists [].
    rewrite !app_nil_r. cbn.
    repeat split; auto; try tauto. symmetry. apply set_sharing_id.
  - cbn [fold_left] in E. unfold shareWith at 2 in E.
    destruct (isPartner hospital id) eqn:P; cbn [negb] in E.
    + destruct (alreadyShared a id) eqn:AS.
      * destruct (IH _ _ _ _ E) as (new & -> & M & S & F & AL & O & ND & K).
        eexists (_ :: new). rewrite <- app_assoc. cbn [app].
        split; [reflexivity |]. cbn [map filter result_hospitalId success].
        split; [now rewrite M |]. split; [exact S |]. split; [exact F |].
        split; [exact AL |]. split.
        { constructor; [| exact O]. right. right. cbn. auto. }
        split; [exact ND |].
        intros x. rewrite K. cbn [In]. apply alreadyShared_In in AS.
        split; [tauto |]. intros [H | [[<- | H] H']]; auto.
      * destruct (IH _ _ _ _ E) as (new & -> & M & S & F & AL & O & ND & K).
        assert (NI : ~ In id (keys a)).
        { intros I. apply alreadyShared_In in I. congruence. }
        assert (KP : keys (pushSharedWith (newSharedWith now id msg) a)
                     = keys a ++ [id]).
        { unfold keys, shared, pushSharedWith. cbn. now rewrite map_app. }
        eexists (_ :: new). rewrite <- app_assoc. cbn [app].
        split; [reflexivity |]. cbn [map filter result_hospitalId success].
        split; [now rewrite M |]. split.
        { rewrite S. unfold shared, pushSharedWith. cbn.
          now rewrite <- app_assoc. }
        split; [rewrite F at 1; reflexivity |].
        split; [rewrite AL; reflexivity |]. split.
        { constructor.
          - left. cbn. auto.
          - eapply Forall_impl; [| exact O]. cbn beta.
            intros r [(A1 & A2 & A3 & A4) | H]; [| tauto].
            left. repeat split; auto. intros I. apply A4. rewrite KP.
            apply in_or_app. now left. }
        split.
        { intros N. apply ND. rewrite KP.
          apply NoDup_app; [exact N | repeat constructor; intros [] | ].
          intros x I [<- | []]. contradiction. }
        intros x. rewrite K, KP, in_app_iff. cbn [In].
        split; [intros [[H | [<- | []]] | H]; auto; tauto |].
        intros [H | [[<- | H] H']]; auto.
    + destruct (IH _ _ _ _ E) as (new & -> & M & S & F & AL & O & ND & K).
      eexists (_ :: new). rewrite <- app_assoc. cbn [app].
      split; [reflexivity |]. cbn [map filter result_hospitalId success].
      split; [now rewrite M |]. split; [exact S |]. split; [exact F |].
      split; [exact AL |]. split.
      { constructor; [| exact O]. right. left. cbn. auto. }
      split; [exact ND |].
      intros x. rewrite K. cbn [In].
      split; [tauto |]. intros [H | [[<- | H] H']]; auto. congruence.
Qed.

(** On an alert that every partner among [ids] already has, the loop
    reports failures only and leaves the alert as it is. *)
Lemma fold_shareWith_nothing_new ids :
  forall a rs,
    (forall x, In x ids -> isPartner hospital x = true -> In x (keys a)) ->
    exists new,
      fold_left (shareWith now hospital msg) ids (a, rs) = (a, rs ++ new)
      /\ Forall (fun r => success r = false) new.
Proof.
  induction ids as [| id ids IH]; intros a rs H.
  - exists []. now rewrite app_nil_r.
  - cbn [fold_left]. unfold shareWith at 2.
    destruct (isPartner hospital id) eqn:P; cbn [negb].
    + assert (AS : alreadyShared a id = true).
      { apply alreadyShared_In. apply H; [now left | exact P]. }
      rewrite AS.
      destruct (IH a (rs ++ [{| result_hospitalId := id; success := false;
                                reason := Some "Alert already shared with this hospital" |}]))
        as (new & E & F); [intros x I; apply H; now right |].
      eexists (_ :: new). rewrite E, <- app_assoc. cbn [app].
      split; [reflexivity |]. constructor; [reflexivity | exact F].
    + destruct (IH a (rs ++ [{| result_hospitalId := id; success := false;
                                reason := Some "Hospital is not a partner" |}]))
        as (new & E & F); [intros x I; apply H; now right |].
      eexists (_ :: new). rewrite E, <- app_assoc. cbn [app].
      split; [reflexivity |]. constructor; [reflexivity | exact F].
Qed.

(** The request that [share] accepts, and its loop. *)
Lemma share_Ok_inv body a a' results :
  share now hospital body (Some a) = Ok (a', results) ->
  validShareBody body = true
  /\ Alert.hospital a = Hospital._id hospital
  /\ Sharing.allowSharing (Alert.sharing a) = true
  /\ Alert.validate a' = true
  /\ fold_left (shareWith now hospital (message body)) (hospitalIds body)
       (a, []) = (a', results).
Proof.
  unfold share.
  destruct (validShareBody body); [| discriminate]. cbn [negb ownedBy].
  destruct (String.eqb_spec (Alert.hospital a) (Hospital._id hospital));
    [| discriminate].
  destruct (Sharing.allowSharing (Alert.sharing a)); [| discriminate].
  cbn [negb].
  destruct (fold_left _ _ _) as [a1 r1].
  destruct (Alert.save a1) eqn:S; [| discriminate].
  apply save_Some in S as [-> V]. intros [= <- <-]. auto.
Qed.

End ShareLoop.



(** X7. Sharing never records a hospital twice: if the hospitals of
    [sharing.sharedWith] are pairwise distinct before a successful share,
    they are so after it, also when the request names a hospital more
    than once. Sharing is idempotent: the same request sent again
    succeeds, reports a failure for every id, and stores the alert
    unchanged. *)
Theorem share_no_duplicates_idempotent :
  forall now hospital body a a' results,
    AlertRoutes.share now hospital body (Some a) = Http.Ok (a', results) ->
    (NoDup (map SharedWith.hospital (Sharing.sharedWith (Alert.sharing a)))
     -> NoDup (map SharedWith.hospital
                   (Sharing.sharedWith (Alert.sharing a'))))
    /\ forall now',
        exists results',
          AlertRoutes.share now' hospital body (Some a')
          = Http.Ok (a', results')
          /\ map AlertRoutes.result_hospitalId results'
             = AlertRoutes.hospitalIds body
          /\ Forall (fun r => AlertRoutes.success r = false) results'.
Proof.
  intros now hospital body a a' results E.
  apply share_Ok_inv in E as (VB & O & AL & V & E).
  apply fold_shareWith_spec in E
    as (new & _ & _ & _ & F & AL' & _ & ND & K).
  split; [exact ND |].
  intros now'.
  destruct (fold_shareWith_nothing_new now' hospital
              (AlertRoutes.message body) (AlertRoutes.hospitalIds body) a' [])
    as (new' & E' & F').
  { intros x I P. apply K. auto. }
  exists new'. cbn [app] in E'.
  assert (M : map AlertRoutes.result_hospitalId new'
              = AlertRoutes.hospitalIds body).
  { apply fold_shareWith_spec in E' as (n2 & -> & M & _). exact M. }
  split; [| split; [exact M | exact F']].
  unfold AlertRoutes.share. rewrite VB. cbn [negb AlertRoutes.ownedBy].
  replace (Alert.hospital a') with (Alert.hospital a)
    by (rewrite F; reflexivity).
  rewrite O, String.eqb_refl, AL', AL. cbn [negb].
  rewrite E'. now rewrite save_valid.
Qed.

Lemma share_no_duplicates_idempotent_witness :
  exists a' results results',
    AlertRoutes.share Examples.t0 Examples.hospitalADoc Examples.shareWithB
      (Some Examples.alert0) = Http.Ok (a', results)
    /\ AlertRoutes.share (Examples.t0 + 1) Examples.hospitalADoc
         Examples.shareWithB (Some a') = Http.Ok (a', results')
    /\ Forall (fun r => AlertRoutes.success r = false) results'.
Proof.
  eexists. eexists.
  destruct (proj2 (share_no_duplicates_idempotent Examples.t0
                     Examples.hospitalADoc Examples.shareWithB
                     Examples.alert0 _ _ eq_refl) (Examples.t0 + 1))
    as (results' & E & _ & F).
  exists results'. split; [reflexivity |]. split; [exact E | exact F].
Defined.

(** ** Partnerships *)

Section Partnerships.

Import Http HospitalRoutes.








End Partnerships.



(** ** The inventory of a hospital *)

Section Inventory.

Import HospitalDoc.

Lemma prop_assign_same {A} (o : list (string * A)) k v x :
  Js.prop o k = Some x -> Js.prop (assign o k v) k = Some v.
Proof.
  induction o as [| [k' y] o IH]; cbn; [discriminate |].
  destruct (String.eqb k' k) eqn:E; cbn; rewrite E; auto.
Qed.

Lemma prop_assign_other {A} (o : list (string * A)) k v k' :
  k' <> k -> Js.prop (assign o k v) k' = Js.prop o k'.
Proof.
  intros N. induction o as [| [k0 y] o IH]; cbn; [reflexivity |].
  destruct (String.eqb_spec k0 k) as [-> | N0]; cbn.
  - destruct (String.eqb_spec k k'); [congruence | reflexivity].
  - now rewrite IH.
Qed.

Lemma map_fst_assign {A} (o : list (string * A)) k v :
  map fst (assign o k v) = map fst o.
Proof.
  induction o as [| [k0 y] o IH]; cbn; [reflexivity |].
  destruct (String.eqb k0 k); cbn; [reflexivity | now rewrite IH].
Qed.

Lemma prop_In {A} (o : list (string * A)) k v :
  Js.prop o k = Some v -> In k (map fst o).
Proof.
  induction o as [| [k0 y] o IH]; cbn; [discriminate |].
  destruct (String.eqb_spec k0 k); auto.
Qed.

(** With pairwise distinct keys, every entry is the value of its key. *)
Lemma prop_entry {A} (o : list (string * A)) k v :
  NoDup (map fst o) -> In (k, v) o -> Js.prop o k = Some v.
Proof.
  induction o as [| [k0 y] o IH]; cbn; [tauto |].
  intros N [[= -> ->] | I].
  - now rewrite String.eqb_refl.
  - inversion N as [| ? ? N1 N2]; subst.
    destruct (String.eqb_spec k0 k) as [-> | _]; [| auto].
    exfalso. apply N1. apply in_map_iff. exists (k, v). auto.
Qed.

Lemma units_set_units_same h bt v x :
  units h bt = Some x -> units (set_units bt v h) bt = Some v.
Proof. apply prop_assign_same. Qed.

Lemma units_set_units_other h bt v bt' :
  bt' <> bt -> units (set_units bt v h) bt' = units h bt'.
Proof. apply prop_assign_other. Qed.

Lemma NoDup_BLOOD_TYPES : NoDup BLOOD_TYPES.
Proof.
  unfold BLOOD_TYPES.
  repeat (constructor; [cbn; intuition discriminate |]). constructor.
Qed.

End Inventory.

(** ** Sums of integral doubles *)


Lemma nearest_sign z :
  (0 <= z -> 0 <= F64.nearest z) /\ (z <= 0 -> F64.nearest z <= 0).
Proof.
  unfold F64.nearest.
  destruct (Z.leb_spec (Z.log2 (Z.abs z) - 52) 0) as [_ | P]; [lia |].
  set (e := Z.log2 (Z.abs z) - 52) in *.
  assert (Q : 0 <= Z.abs z / 2 ^ e)
    by (apply Z.div_pos; [lia | apply Z.pow_pos_nonneg; lia]).
  assert (E : 0 < 2 ^ e) by (apply Z.pow_pos_nonneg; lia).
  match goal with
  | |- context [Z.sgn z * (?x * 2 ^ e)] => set (q' := x)
  end.
  assert (Q' : 0 <= q' * 2 ^ e)
    by (subst q'; destruct (orb _ _); nia).
  split; intros S; [pose proof (Z.sgn_nonneg z) | pose proof (Z.sgn_nonpos z)];
    nia.
Qed.

(** The definition agrees with the rounding of [SpecFloat], here on
    integers around 2^53 and beyond. *)
Lemma nearest_ofZ_samples :
  forallb
    (fun z =>
       match F64.toZ (F64.ofZ z) with
       | Some v => v =? F64.nearest z
       | None => false
       end)
    [ 0; 7; -7; 2 ^ 53 - 1; 2 ^ 53; 2 ^ 53 + 1; 2 ^ 53 + 2; 2 ^ 53 + 3;
      - (2 ^ 53 + 1); - (2 ^ 53 + 3); 2 ^ 54 + 2; 2 ^ 54 + 6; 2 ^ 54 + 7;
      2 ^ 60 + 2 ^ 7; 2 ^ 60 + 2 ^ 7 + 1; 10 ^ 21; 10 ^ 21 + 65537;
      10 ^ 30 + 1 ]
  = true.
Proof. vm_compute. reflexivity. Qed.




(** ** Critical shortages *)

Section Shortages.

Import HospitalDoc.

Variable h : HospitalDoc.t.

(** The body of the loop of [getCriticalShortages]. *)
Let pushed (bloodType : string) : list Shortage.t :=
  if isCriticalShortage h bloodType then
    match units h bloodType with
    | Some u =>
        [ {| Shortage.bloodType := bloodType;
             Shortage.available := Units.available u;
             Shortage.critical := Units.critical u;
             Shortage.deficit := Units.critical u - Units.available u |} ]
    | None => []
    end
  else [].

Lemma getCriticalShortages_pushed :
  getCriticalShortages h = flat_map pushed BLOOD_TYPES.
Proof. reflexivity. Qed.


Lemma pushed_entries l :
  Forall
    (fun s =>
       exists u,
         units h (Shortage.bloodType s) = Some u
         /\ Shortage.available s = Units.available u
         /\ Shortage.critical s = Units.critical u
         /\ Shortage.deficit s = Units.critical u - Units.available u
         /\ 0 <= Shortage.deficit s)
    (flat_map pushed l).
Proof.
  induction l as [| x l IH]; cbn; [constructor |].
  apply Forall_app. split; [| exact IH].
  unfold pushed, isCriticalShortage.
  destruct (units h x) as [u |] eqn:U; [| constructor].
  destruct (Z.leb_spec (Units.available u) (Units.critical u));
    constructor; [| constructor].
  exists u. cbn. repeat split; auto. lia.
Qed.

Lemma flat_map_map {A B C} (f : B -> list C) (g : A -> B) l :
  flat_map f (map g l) = flat_map (fun x => f (g x)) l.
Proof.
  induction l as [| x l IH]; cbn; [reflexivity | now rewrite IH].
Qed.

Hypothesis distinct : NoDup (map fst (bloodUnits h)).

Lemma isCriticalShortage_entry k u :
  In (k, u) (bloodUnits h) ->
  isCriticalShortage h k = (Units.available u <=? Units.critical u).
Proof.
  intros I. unfold isCriticalShortage, units.
  now rewrite (prop_entry _ _ _ distinct I).
Qed.

(** The rows of [GET /inventory] against the shortages, over a part of
    the inventory. *)
Lemma rows_shortages o :
  incl o (bloodUnits h) ->
  map Shortage.bloodType (flat_map (fun e => pushed (fst e)) o)
  = map InventoryRoutes.bloodType
      (filter InventoryRoutes.isCritical (map (InventoryRoutes.row h) o))
  /\ (forall acc,
        fold_left (fun sum item => sum + InventoryRoutes.deficit item)
                  (map (InventoryRoutes.row h) o) acc
        = acc + fold_right Z.add 0
                  (map Shortage.deficit
                       (flat_map (fun e => pushed (fst e)) o)))
  /\ (forall acc,
        fold_left (fun sum item => sum + InventoryRoutes.available item)
                  (map (InventoryRoutes.row h) o) acc
        = acc + fold_right Z.add 0 (map (fun e => Units.available (snd e)) o)).
Proof.
  induction o as [| [k u] o IH]; intros I.
  - cbn. repeat split; intros; lia.
  - assert (Ik : In (k, u) (bloodUnits h)) by (apply I; now left).
    destruct IH as (IH1 & IH2 & IH3);
      [intros x Hx; apply I; now right |].
    assert (Rk : InventoryRoutes.row h (k, u)
                 = {| InventoryRoutes.bloodType := k;
                      InventoryRoutes.available := Units.available u;
                      InventoryRoutes.reserved := Units.reserved u;
                      InventoryRoutes.critical := Units.critical u;
                      InventoryRoutes.isCritical :=
                        Units.available u <=? Units.critical u;
                      InventoryRoutes.lastUpdated := Units.lastUpdated u;
                      InventoryRoutes.deficit :=
                        if Units.available u <=? Units.critical u
                        then Units.critical u - Units.available u else 0 |}).
    { unfold InventoryRoutes.row.
      now rewrite (isCriticalShortage_entry k u Ik). }
    assert (Pk : pushed k
                 = if Units.available u <=? Units.critical u
                   then [ {| Shortage.bloodType := k;
                             Shortage.available := Units.available u;
                             Shortage.critical := Units.critical u;
                             Shortage.deficit :=
                               Units.critical u - Units.available u |} ]
                   else []).
    { unfold pushed. rewrite (isCriticalShortage_entry k u Ik).
      unfold units. now rewrite (prop_entry _ _ _ distinct Ik). }
    cbn [map flat_map fold_left fst snd filter].
    rewrite Rk, Pk.
    cbn [InventoryRoutes.isCritical InventoryRoutes.deficit
         InventoryRoutes.available].
    destruct (Units.available u <=? Units.critical u);
      cbn [app map fold_right InventoryRoutes.bloodType Shortage.bloodType
           Shortage.deficit].
    + split; [now rewrite IH1 |].
      split; intros acc; [rewrite IH2 | rewrite IH3]; lia.
    + split; [exact IH1 |].
      split; intros acc; [rewrite IH2 | rewrite IH3]; lia.
Qed.

End Shortages.



(** X11. In the reply of [GET /inventory] for an inventory with the
    eight blood types of the schema, the summary agrees with the rows:
    there is one row per blood type, in the order of the schema; the
    types of [criticalShortages] are those of the rows flagged
    [isCritical], so [totalCritical] counts these rows; [totalDeficit]
    is the sum of the deficits of [criticalShortages] and is not
    negative; [totalUnits] is the sum of the available units. *)
Theorem getInventory_summary_consistent :
  forall h,
    HospitalDoc.wellFormed h ->
    let s := InventoryRoutes.getInventory h in
    map InventoryRoutes.bloodType (InventoryRoutes.inventory s) = BLOOD_TYPES
    /\ map Shortage.bloodType (InventoryRoutes.criticalShortages s)
       = map InventoryRoutes.bloodType
           (filter InventoryRoutes.isCritical (InventoryRoutes.inventory s))
    /\ InventoryRoutes.totalCritical s
       = List.length
           (filter InventoryRoutes.isCritical (InventoryRoutes.inventory s))
    /\ InventoryRoutes.totalDeficit s
       = fold_right Z.add 0
           (map Shortage.deficit (InventoryRoutes.criticalShortages s))
    /\ 0 <= InventoryRoutes.totalDeficit s
    /\ InventoryRoutes.totalUnits s
       = fold_right Z.add 0
           (map (fun e => Units.available (snd e)) (HospitalDoc.bloodUnits h)).
Proof.
  intros h WF s.
  assert (N : NoDup (map fst (HospitalDoc.bloodUnits h)))
    by (rewrite WF; apply NoDup_BLOOD_TYPES).
  destruct (rows_shortages h N (HospitalDoc.bloodUnits h) (incl_refl _))
    as (R1 & R2 & R3).
  assert (G : HospitalDoc.getCriticalShortages h
              = flat_map
                  (fun e =>
                     if HospitalDoc.isCriticalShortage h (fst e) then
                       match HospitalDoc.units h (fst e) with
                       | Some u =>
                           [ {| Shortage.bloodType := fst e;
                                Shortage.available := Units.available u;
                                Shortage.critical := Units.critical u;
                                Shortage.deficit :=
                                  Units.critical u - Units.available u |} ]
                       | None => []
                       end
                     else [])
                  (HospitalDoc.bloodUnits h)).
  { unfold HospitalDoc.getCriticalShortages. rewrite <- WF.
    apply flat_map_map. }
  subst s. unfold InventoryRoutes.getInventory.
  cbn [InventoryRoutes.inventory InventoryRoutes.criticalShortages
       InventoryRoutes.totalCritical InventoryRoutes.totalDeficit
       InventoryRoutes.totalUnits].
  rewrite G. split.
  { rewrite map_map. rewrite <- WF. apply map_ext. now intros [k u]. }
  split; [exact R1 |]. split.
  { rewrite <- (length_map Shortage.bloodType), R1. apply length_map. }
  split; [rewrite R2; lia |]. split; [| rewrite R3; lia].
  rewrite R2. rewrite <- G, getCriticalShortages_pushed.
  pose proof (pushed_entries h BLOOD_TYPES) as F.
  induction F as [| x l (u & _ & _ & _ & _ & P) F IH]; cbn; lia.
Qed.

Lemma getInventory_summary_consistent_witness :
  InventoryRoutes.totalDeficit (InventoryRoutes.getInventory Samples.inventoryA)
  = fold_right Z.add 0
      (map Shortage.deficit
           (InventoryRoutes.criticalShortages
              (InventoryRoutes.getInventory Samples.inventoryA))).
Proof.
  destruct (getInventory_summary_consistent Samples.inventoryA eq_refl)
    as (_ & _ & _ & D & _).
  exact D.
Defined.

(** ** The inventory routes *)

Section InventoryUpdate.

Import Http HospitalDoc.


Lemma isCriticalShortage_units (h : HospitalDoc.t) bt v :
  units h bt = Some v ->
  isCriticalShortage h bt = (Units.available v <=? Units.critical v).
Proof. unfold isCriticalShortage. now intros ->. Qed.





End InventoryUpdate.

(** ** Numerals *)

Section Numerals.










End Numerals.



(** X13. [PUT /hospitals/inventory/:bloodType] on a blood type of the
    inventory assigns the fields of the body and stores the hospital.
    With automatic alerts enabled and the stock below the critical level
    it also stores a new alert for that blood type: critical, active,
    asking for exactly the deficit, with nothing collected and expiring
    24 hours later. With the stock equal to the critical level the route
    still counts a shortage, the deficit is 0, which the alert schema
    rejects: the reply is 500 and no alert is stored, although the
    inventory has been stored. With automatic alerts disabled or the
    stock above the critical level no alert is created. *)
Theorem updateInventory_auto_alert :
  forall id now userId h bloodType body u,
    InventoryRoutes.validUpdateBody body = true ->
    In bloodType BLOOD_TYPES ->
    HospitalDoc.units h bloodType = Some u ->
    let u' :=
      {| Units.available :=
           Js.orElse (InventoryRoutes.body_available body) (Units.available u);
         Units.reserved :=
           Js.orElse (InventoryRoutes.body_reserved body) (Units.reserved u);
         Units.critical :=
           Js.orElse (InventoryRoutes.body_critical body) (Units.critical u);
         Units.lastUpdated := now |} in
    let out :=
      HospitalRoutes.updateInventory id now userId h bloodType body in
    HospitalDoc.units (HospitalRoutes.storedHospital out) bloodType = Some u'
    /\ (HospitalDoc.autoAlertEnabled h = true ->
        Units.available u' < Units.critical u' ->
        HospitalRoutes.reply out = Http.Ok (Some u', true)
        /\ exists a,
            HospitalRoutes.storedAlert out = Some a
            /\ Alert._id a = id
            /\ Alert.hospital a = Hospital._id (HospitalDoc.profile h)
            /\ Alert.bloodType a = bloodType
            /\ Alert.urgencyLevel a = "critical"
            /\ Alert.status a = "active"
            /\ Alert.unitsNeeded a = Units.critical u' - Units.available u'
            /\ Alert.unitsCollected a = 0
            /\ Alert.expiresAt a = now + 24 * 60 * 60 * 1000
            /\ Alert.createdBy a = userId)
    /\ (HospitalDoc.autoAlertEnabled h = true ->
        Units.available u' = Units.critical u' ->
        HospitalRoutes.reply out = Http.Fail 500 (Http.Message "Server error")
        /\ HospitalRoutes.storedAlert out = None)
    /\ (HospitalDoc.autoAlertEnabled h = false
        \/ Units.critical u' < Units.available u' ->
        HospitalRoutes.reply out
        = Http.Ok (Some u', Units.available u' <=? Units.critical u')
        /\ HospitalRoutes.storedAlert out = None).
Proof.
  intros id now userId h bloodType body u V B U u' out.
  set (h' := HospitalDoc.set_units bloodType u' h).
  assert (U' : HospitalDoc.units h' bloodType = Some u')
    by (eapply units_set_units_same; exact U).
  pose proof (isCriticalShortage_units h' bloodType u' U') as C.
  assert (E : out
              = if HospitalDoc.autoAlertEnabled h
                   && (Units.available u' <=? Units.critical u')
                then
                  match Alert.save
                          (Alert.new id now
                             (HospitalRoutes.autoAlertData userId h'
                                bloodType u')) with
                  | Some autoAlert =>
                      {| HospitalRoutes.reply :=
                           Http.Ok (Some u',
                                    Units.available u' <=? Units.critical u');
                         HospitalRoutes.storedHospital := h';
                         HospitalRoutes.storedAlert := Some autoAlert |}
                  | None =>
                      {| HospitalRoutes.reply :=
                           Http.Fail 500 (Http.Message "Server error");
                         HospitalRoutes.storedHospital := h';
                         HospitalRoutes.storedAlert := None |}
                  end
                else
                  {| HospitalRoutes.reply :=
                       Http.Ok (Some u',
                                Units.available u' <=? Units.critical u');
                     HospitalRoutes.storedHospital := h';
                     HospitalRoutes.storedAlert := None |}).
  { subst out. unfold HospitalRoutes.updateInventory. rewrite V, U.
    cbn [negb].
    change (HospitalDoc.set_units bloodType
              (HospitalDoc.set_lastUpdated now
                 (InventoryRoutes.assignFields
                    (InventoryRoutes.body_available body)
                    (InventoryRoutes.body_reserved body)
                    (InventoryRoutes.body_critical body) u)) h) with h'.
    rewrite C, U'. reflexivity. }
  assert (VA : Alert.validate
                 (Alert.new id now
                    (HospitalRoutes.autoAlertData userId h' bloodType u'))
               = (1 <=? Units.critical u' - Units.available u')).
  { unfold Alert.validate. alert_fields.
    cbn [Alert.data_bloodType Alert.data_urgencyLevel Alert.data_unitsNeeded
         Alert.data_searchRadius HospitalRoutes.autoAlertData forallb].
    rewrite (proj2 (includes_In _ _) B).
    destruct (1 <=? Units.critical u' - Units.available u'); reflexivity. }
  split.
  { rewrite E.
    destruct (HospitalDoc.autoAlertEnabled h
              && (Units.available u' <=? Units.critical u'));
      [destruct (Alert.save _) |]; exact U'. }
  split; [| split].
  - intros A L. rewrite E, A. unfold Alert.save. rewrite VA.
    destruct (Z.leb_spec (Units.available u') (Units.critical u')); [| lia].
    destruct (Z.leb_spec 1 (Units.critical u' - Units.available u')); [| lia].
    cbn [andb HospitalRoutes.reply HospitalRoutes.storedAlert].
    split; [reflexivity |]. eexists. split; [reflexivity |].
    repeat split.
  - intros A L. rewrite E, A. unfold Alert.save. rewrite VA.
    destruct (Z.leb_spec (Units.available u') (Units.critical u')); [| lia].
    destruct (Z.leb_spec 1 (Units.critical u' - Units.available u')); [lia |].
    cbn. auto.
  - intros D. rewrite E.
    destruct D as [-> | L]; [cbn; auto |].
    destruct (Z.leb_spec (Units.available u') (Units.critical u')); [lia |].
    rewrite Bool.andb_false_r. cbn. auto.
Qed.

Lemma updateInventory_auto_alert_witness :
  HospitalRoutes.reply
    (HospitalRoutes.updateInventory Examples.alertId (Examples.t0 + 1)
       Examples.userA Samples.inventoryA "O-" (Samples.setTo 5))
  = Http.Fail 500 (Http.Message "Server error")
  /\ HospitalDoc.units
       (HospitalRoutes.storedHospital
          (HospitalRoutes.updateInventory Examples.alertId (Examples.t0 + 1)
             Examples.userA Samples.inventoryA "O-" (Samples.setTo 5))) "O-"
     = Some {| Units.available := 5; Units.reserved := 1; Units.critical := 5;
               Units.lastUpdated := Examples.t0 + 1 |}.
Proof.
  assert (B : In "O-" BLOOD_TYPES) by (cbn; tauto).
  destruct (updateInventory_auto_alert Examples.alertId (Examples.t0 + 1)
              Examples.userA Samples.inventoryA "O-" (Samples.setTo 5) _
              eq_refl B eq_refl) as (S & _ & F & _).
  split; [| exact S].
  exact (proj1 (F eq_refl eq_refl)).
Defined.

(** ** Read receipts *)

Section ReadReceipts.

Import Http NotificationRoutes.

Variables (now : Z) (userId : ObjectId).

Lemma find_existsb_true {A} (p : A -> bool) l x :
  find p l = Some x -> existsb p l = true.
Proof.
  intros F. apply find_some in F as [I P]. apply existsb_exists. eauto.
Qed.

Lemma existsb_find {A} (p : A -> bool) l :
  existsb p l = true -> exists x, find p l = Some x.
Proof.
  induction l as [| y l IH]; cbn; [discriminate |].
  destruct (p y); [eauto | exact IH].
Qed.

(** [updateFound] rewrites the element that [find] returns. *)
Lemma find_updateFound {A} (p : A -> bool) (f : A -> A) l x :
  find p l = Some x -> p (f x) = true ->
  find p (Alert.updateFound p f l) = Some (f x).
Proof.
  induction l as [| y l IH]; cbn; [discriminate |].
  destruct (p y) eqn:P.
  - intros [= ->] Pf. cbn. now rewrite Pf.
  - intros F Pf. cbn. rewrite P. auto.
Qed.

Lemma updateFound_opened l n :
  find (Alert.isDonor userId) l = Some n -> SentTo.opened n = false ->
  List.length
    (filter SentTo.opened
            (Alert.updateFound (Alert.isDonor userId) (markOpened now) l))
  = S (List.length (filter SentTo.opened l)).
Proof.
  induction l as [| y l IH]; cbn; [discriminate |].
  destruct (Alert.isDonor userId y) eqn:P.
  - intros [= ->] O. cbn. now rewrite O.
  - intros F O. cbn. destruct (SentTo.opened y); cbn; auto.
Qed.

Lemma updateFound_length {A} (p : A -> bool) (f : A -> A) l :
  List.length (Alert.updateFound p f l) = List.length l.
Proof.
  induction l as [| y l IH]; cbn; [reflexivity |].
  destruct (p y); cbn; auto.
Qed.

Lemma updateFound_valid (f : SentTo.t -> SentTo.t) p l :
  (forall n, Alert.validSentTo n = true -> Alert.validSentTo (f n) = true) ->
  forallb Alert.validSentTo l = true ->
  forallb Alert.validSentTo (Alert.updateFound p f l) = true.
Proof.
  intros Hf. induction l as [| y l IH]; cbn; [reflexivity |].
  intros V. apply andb_prop in V as [V1 V2].
  destruct (p y); cbn; rewrite ?V1, ?V2, ?IH, ?Hf; auto.
Qed.

(** What a read request of a donor does to the alert it finds. *)
Lemma markRead_Ok_inv a a1 :
  markRead now "donor" userId (Some a) = Ok (Some a1) ->
  exists n,
    find (Alert.isDonor userId) (Notifications.sentTo (Alert.notifications a))
    = Some n
    /\ ((SentTo.opened n = true /\ a1 = a)
        \/ (SentTo.opened n = false
            /\ Alert.validate a1 = true
            /\ a1 = Alert.set_notifications
                      {| Notifications.sent :=
                           Notifications.sent (Alert.notifications a);
                         Notifications.opened :=
                           Notifications.opened (Alert.notifications a) + 1;
                         Notifications.responded :=
                           Notifications.responded (Alert.notifications a);
                         Notifications.sentTo :=
                           Alert.updateFound (Alert.isDonor userId)
                             (markOpened now)
                             (Notifications.sentTo (Alert.notifications a))
                      |} a)).
Proof.
  unfold markRead, sentToUser. cbn [String.eqb Ascii.eqb Bool.eqb].
  destruct (existsb _ _) eqn:E; [| discriminate].
  apply existsb_find in E as (n & F). rewrite F.
  destruct (SentTo.opened n) eqn:O; cbn [negb].
  - intros [= <-]. exists n. auto.
  - destruct (Alert.save _) eqn:S; [| discriminate].
    apply save_Some in S as [-> V]. intros [= <-]. exists n.
    split; [reflexivity |]. right. auto.
Qed.

Lemma markRead_opened a n now' :
  find (Alert.isDonor userId) (Notifications.sentTo (Alert.notifications a))
  = Some n ->
  SentTo.opened n = true ->
  markRead now' "donor" userId (Some a) = Ok (Some a).
Proof.
  intros F O. unfold markRead, sentToUser.
  cbn [String.eqb Ascii.eqb Bool.eqb].
  rewrite (find_existsb_true _ _ _ F), F, O. reflexivity.
Qed.

(** A read request for a notification that is not opened yet marks
    it. *)
Lemma markRead_marks a n :
  Alert.validate a = true ->
  find (Alert.isDonor userId) (Notifications.sentTo (Alert.notifications a))
  = Some n ->
  SentTo.opened n = false ->
  markRead now "donor" userId (Some a)
  = Ok (Some (Alert.set_notifications
                {| Notifications.sent :=
                     Notifications.sent (Alert.notifications a);
                   Notifications.opened :=
                     Notifications.opened (Alert.notifications a) + 1;
                   Notifications.responded :=
                     Notifications.responded (Alert.notifications a);
                   Notifications.sentTo :=
                     Alert.updateFound (Alert.isDonor userId)
                       (markOpened now)
                       (Notifications.sentTo (Alert.notifications a)) |} a)).
Proof.
  intros V F O. unfold markRead, sentToUser.
  cbn [String.eqb Ascii.eqb Bool.eqb].
  rewrite (find_existsb_true _ _ _ F), F, O. cbn [negb].
  rewrite save_valid; [reflexivity |].
  apply validate_iff in V. apply validate_iff. alert_fields.
  cbn [Notifications.sentTo].
  repeat split; try tauto.
  apply updateFound_valid; [| tauto].
  intros m. unfold Alert.validSentTo, markOpened. cbn. auto.
Qed.

End ReadReceipts.

(** X14. A read request of a donor is answered 404 when no notification
    of the alert carries the id of the requesting user. Otherwise it
    marks the first notification with that id as opened, stamps
    [openedAt] and raises [notifications.opened] by one, unless that
    notification was opened already, in which case nothing changes; all
    other notifications and the rest of the alert are left alone. So
    the number of opened notifications grows with the counter, and a
    second read request changes nothing: reading is idempotent. On a
    valid alert the request for a notification that is not opened yet
    succeeds. *)
Theorem markRead_once :
  forall now userId a,
    ((forall n,
         In n (Notifications.sentTo (Alert.notifications a)) ->
         SentTo.donor n <> userId) ->
     NotificationRoutes.markRead now "donor" userId (Some a)
     = Http.Fail 404 (Http.Message "Notification not found"))
    /\ (forall a1,
        NotificationRoutes.markRead now "donor" userId (Some a)
        = Http.Ok (Some a1) ->
        exists n,
          find (Alert.isDonor userId)
               (Notifications.sentTo (Alert.notifications a)) = Some n
          /\ Notifications.opened (Alert.notifications a1)
             = Notifications.opened (Alert.notifications a)
               + (if SentTo.opened n then 0 else 1)
          /\ Z.of_nat (List.length
                         (filter SentTo.opened
                            (Notifications.sentTo (Alert.notifications a1))))
             = Z.of_nat (List.length
                           (filter SentTo.opened
                              (Notifications.sentTo (Alert.notifications a))))
               + (if SentTo.opened n then 0 else 1)
          /\ find (Alert.isDonor userId)
                  (Notifications.sentTo (Alert.notifications a1))
             = Some (if SentTo.opened n then n
                     else NotificationRoutes.markOpened now n)
          /\ a1 = Alert.set_notifications (Alert.notifications a1) a
          /\ Notifications.sent (Alert.notifications a1)
             = Notifications.sent (Alert.notifications a)
          /\ Notifications.responded (Alert.notifications a1)
             = Notifications.responded (Alert.notifications a)
          /\ forall now',
              NotificationRoutes.markRead now' "donor" userId (Some a1)
              = Http.Ok (Some a1))
    /\ (forall n,
          Alert.validate a = true ->
          find (Alert.isDonor userId)
               (Notifications.sentTo (Alert.notifications a)) = Some n ->
          SentTo.opened n = false ->
          exists a1,
            NotificationRoutes.markRead now "donor" userId (Some a)
            = Http.Ok (Some a1)
            /\ Notifications.opened (Alert.notifications a1)
               = Notifications.opened (Alert.notifications a) + 1
            /\ find (Alert.isDonor userId)
                    (Notifications.sentTo (Alert.notifications a1))
               = Some (NotificationRoutes.markOpened now n))
    /\ (forall n,
          find (Alert.isDonor userId)
               (Notifications.sentTo (Alert.notifications a)) = Some n ->
          SentTo.opened n = true ->
          NotificationRoutes.markRead now "donor" userId (Some a)
          = Http.Ok (Some a)).
Proof.
  intros now userId a. split; [| split; [| split]].
  - intros N. unfold NotificationRoutes.markRead, NotificationRoutes.sentToUser.
    cbn [String.eqb Ascii.eqb Bool.eqb].
    destruct (existsb _ _) eqn:E; [| reflexivity].
    apply existsb_exists in E as (n & I & E).
    apply String.eqb_eq in E. exfalso. exact (N n I E).
  - intros a1 E.
    destruct (markRead_Ok_inv _ _ _ _ E) as (n & F & [[O ->] | (O & V & ->)]);
      exists n; rewrite O.
    + split; [exact F |]. split; [lia |]. split; [lia |].
      split; [exact F |]. split; [now destruct a |].
      split; [reflexivity |]. split; [reflexivity |].
      intros now'. exact (markRead_opened userId a n now' F O).
    + assert (P : Alert.isDonor userId (NotificationRoutes.markOpened now n)
                  = true).
      { apply find_some in F as [_ P]. exact P. }
      pose proof (find_updateFound _ (NotificationRoutes.markOpened now)
                    _ _ F P) as F'.
      alert_fields.
      split; [exact F |]. split; [reflexivity |].
      split; [rewrite (updateFound_opened now userId _ n F O); lia |].
      split; [exact F' |]. split; [reflexivity |].
      split; [reflexivity |]. split; [reflexivity |].
      intros now'.
      apply (markRead_opened userId _ (NotificationRoutes.markOpened now n));
        [exact F' | reflexivity].
  - intros n V F O. eexists.
    split; [exact (markRead_marks now userId a n V F O) |].
    alert_fields. split; [reflexivity |].
    apply find_updateFound; [exact F |].
    apply find_some in F as [_ P]. exact P.
  - intros n F O. exact (markRead_opened userId a n now F O).
Qed.

Lemma markRead_once_witness :
  NotificationRoutes.markRead (Examples.t0 + 5) "donor"
    (Donor.user Examples.donorONeg) (Some Samples.alertNotified)
  = Http.Fail 404 (Http.Message "Notification not found")
  /\ exists a1,
      NotificationRoutes.markRead (Examples.t0 + 5) "donor"
        (Donor._id Examples.donorONeg) (Some Samples.alertNotified)
      = Http.Ok (Some a1)
      /\ Notifications.opened (Alert.notifications a1) = 1
      /\ option_map SentTo.openedAt
           (find (Alert.isDonor (Donor._id Examples.donorONeg))
                 (Notifications.sentTo (Alert.notifications a1)))
         = Some (Some (Examples.t0 + 5))
      /\ NotificationRoutes.markRead (Examples.t0 + 9) "donor"
           (Donor._id Examples.donorONeg) (Some a1)
         = Http.Ok (Some a1).
Proof.
  split.
  - apply (proj1 (markRead_once (Examples.t0 + 5)
                    (Donor.user Examples.donorONeg) Samples.alertNotified)).
    cbn. intros n [<- | []]. cbn. discriminate.
  - destruct (markRead_once (Examples.t0 + 5) (Donor._id Examples.donorONeg)
                Samples.alertNotified) as (_ & A & M & _).
    destruct (M _ eq_refl eq_refl eq_refl) as (a1 & E & O & F).
    exists a1. split; [exact E |]. split; [exact O |].
    split; [rewrite F; reflexivity |].
    destruct (A a1 E) as (n & _ & _ & _ & _ & _ & _ & _ & I).
    apply I.
Defined.

(** ** The dispatch as a whole *)

Section DispatchTotals.

Import NotificationService Dispatch.

Variables (now : Z) (tr : Transports).

Lemma appendSentTo_nil a : Delivery.appendSentTo [] a = a.
Proof.
  destruct a as [? ? ? ? ? ? ? ? ? [s o r l] ? ? ? ? ? ? ?].
  unfold Delivery.appendSentTo. cbn. now rewrite app_nil_r.
Qed.

Lemma appendSentTo_app l1 l2 a :
  Delivery.appendSentTo l2 (Delivery.appendSentTo l1 a)
  = Delivery.appendSentTo (l1 ++ l2) a.
Proof.
  unfold Delivery.appendSentTo. cbn. now rewrite app_assoc.
Qed.

Lemma entry_valid d : Alert.validSentTo (Delivery.entry now d) = true.
Proof.
  unfold Alert.validSentTo, Delivery.entry, getPreferredMethod, enabled.
  destruct (Preferences.notificationMethods (Donor.preferences d))
    as [e s p].
  destruct e, s, p; reflexivity.
Qed.

Lemma validate_appendSentTo new a :
  Alert.validate a = true ->
  forallb Alert.validSentTo new = true ->
  Alert.validate (Delivery.appendSentTo new a) = true.
Proof.
  rewrite !validate_iff. unfold Delivery.appendSentTo. alert_fields.
  rewrite forallb_app. intros (H1 & -> & H3 & H4) ->. auto.
Qed.

(** One donor: the alert. *)
Lemma notifyDonor_alert st d :
  alert (notifyDonor now tr st d) = alert st
  \/ alert (notifyDonor now tr st d)
     = Delivery.appendSentTo [Delivery.entry now d] (alert st).
Proof.
  unfold notifyDonor, sendVia, recordNotification.
  cbn [results alert calls delivers].
  destruct (enabled Email d), (enabled Sms d), (enabled Push d),
    (emailDelivers tr (alert st) d), (smsDelivers tr (alert st) d);
    cbn; auto.
Qed.

(** One donor: the counters of a channel. *)
Lemma notifyDonor_totals st d c :
  let e := one (enabled c d) in
  let ds := Delivery.sent c (results (notifyDonor now tr st d))
            - Delivery.sent c (results st) in
  let df := Delivery.failed c (results (notifyDonor now tr st d))
            - Delivery.failed c (results st) in
  0 <= ds <= e /\ 0 <= df <= e /\ e <= ds + df
  /\ (c = Push -> ds + df = e).
Proof.
  unfold notifyDonor, sendVia, incrementFailedCount, recordNotification,
    Delivery.sent, Delivery.failed.
  cbn [results alert calls delivers]. unfold enabled.
  destruct (Preferences.notificationMethods (Donor.preferences d))
    as [e s p].
  destruct c, e, s, p,
    (emailDelivers tr (alert st) d), (smsDelivers tr (alert st) d);
    cbn; repeat split; try lia; discriminate.
Qed.

(** One donor, when no sender throws. *)
Lemma notifyDonor_delivered st d :
  emailDelivers tr (alert st) d = true ->
  smsDelivers tr (alert st) d = true ->
  alert (notifyDonor now tr st d)
  = Delivery.appendSentTo [Delivery.entry now d] (alert st)
  /\ forall c,
      Delivery.sent c (results (notifyDonor now tr st d))
      = Delivery.sent c (results st) + one (enabled c d)
      /\ Delivery.failed c (results (notifyDonor now tr st d))
         = Delivery.failed c (results st).
Proof.
  intros E S.
  unfold notifyDonor, sendVia, incrementFailedCount, recordNotification,
    Delivery.sent, Delivery.failed.
  cbn [results alert calls delivers]. rewrite E, S. unfold enabled.
  destruct (Preferences.notificationMethods (Donor.preferences d))
    as [e s p].
  destruct e, s, p; cbn; (split; [reflexivity |]);
    intros [| |]; cbn; split; lia.
Qed.

Lemma enabledCount_cons c d donors :
  Delivery.enabledCount c (d :: donors)
  = one (enabled c d) + Delivery.enabledCount c donors.
Proof.
  unfold Delivery.enabledCount. cbn [filter].
  destruct (enabled c d); cbn [one List.length]; lia.
Qed.

Lemma enabledCount_nonneg c donors : 0 <= Delivery.enabledCount c donors.
Proof. unfold Delivery.enabledCount. lia. Qed.

(** The loop: the counters of a channel. *)
Lemma fold_notifyDonor_totals donors c :
  forall st,
    let k := Delivery.enabledCount c donors in
    let ds := Delivery.sent c (results (fold_left (notifyDonor now tr) donors st))
              - Delivery.sent c (results st) in
    let df := Delivery.failed c
                (results (fold_left (notifyDonor now tr) donors st))
              - Delivery.failed c (results st) in
    0 <= ds <= k /\ 0 <= df <= k /\ k <= ds + df
    /\ (c = Push -> ds + df = k).
Proof.
  induction donors as [| d donors IH]; intros st; cbn zeta.
  - cbn [fold_left]. unfold Delivery.enabledCount. cbn.
    repeat split; lia.
  - cbn [fold_left]. rewrite enabledCount_cons.
    specialize (IH (notifyDonor now tr st d)). cbn zeta in IH.
    pose proof (notifyDonor_totals st d c) as T. cbn zeta in T.
    destruct IH as (I1 & I2 & I3 & I4). destruct T as (T1 & T2 & T3 & T4).
    repeat split; try lia.
    intros P. specialize (I4 P). specialize (T4 P). lia.
Qed.

(** The loop: the alert. *)
Lemma fold_notifyDonor_alert donors :
  forall st,
  exists new,
    alert (fold_left (notifyDonor now tr) donors st)
    = Delivery.appendSentTo new (alert st)
    /\ Forall (fun n => exists d, In d donors /\ n = Delivery.entry now d) new
    /\ (List.length new <= List.length donors)%nat.
Proof.
  induction donors as [| d donors IH]; intros st.
  - exists []. cbn. rewrite appendSentTo_nil. auto.
  - cbn [fold_left].
    destruct (IH (notifyDonor now tr st d)) as (new & E & F & L).
    assert (F' : Forall (fun n => exists d0, In d0 (d :: donors)
                                             /\ n = Delivery.entry now d0)
                        new).
    { eapply Forall_impl; [| exact F]. cbn beta.
      intros n (d0 & I & ->). exists d0. split; [now right | reflexivity]. }
    destruct (notifyDonor_alert st d) as [A | A]; rewrite A in E.
    + exists new. split; [exact E |]. split; [exact F' |]. cbn. lia.
    + exists (Delivery.entry now d :: new).
      rewrite appendSentTo_app in E. split; [exact E |]. split.
      * constructor; [| exact F']. exists d. split; [now left | reflexivity].
      * cbn. lia.
Qed.

(** The loop, when no sender ever throws. *)
Lemma fold_notifyDonor_delivered donors :
  (forall a d, emailDelivers tr a d = true /\ smsDelivers tr a d = true) ->
  forall st,
    alert (fold_left (notifyDonor now tr) donors st)
    = Delivery.appendSentTo (map (Delivery.entry now) donors) (alert st)
    /\ forall c,
        Delivery.sent c (results (fold_left (notifyDonor now tr) donors st))
        = Delivery.sent c (results st) + Delivery.enabledCount c donors
        /\ Delivery.failed c
             (results (fold_left (notifyDonor now tr) donors st))
           = Delivery.failed c (results st).
Proof.
  intros D. induction donors as [| d donors IH]; intros st.
  - cbn. rewrite appendSentTo_nil. split; [reflexivity |].
    intros c. unfold Delivery.enabledCount. cbn. split; lia.
  - cbn [fold_left map].
    destruct (IH (notifyDonor now tr st d)) as (E & C).
    destruct (notifyDonor_delivered st d (proj1 (D _ _)) (proj2 (D _ _)))
      as (E1 & C1).
    rewrite E, E1, appendSentTo_app. split; [reflexivity |].
    intros c. rewrite enabledCount_cons.
    destruct (C c) as (-> & ->). destruct (C1 c) as (-> & ->). split; lia.
Qed.

(** What the dispatch hands to [save]. *)
Lemma sendBloodShortageAlert_alert a donors :
  exists new,
    alert (sendBloodShortageAlert now tr a donors)
    = Delivery.addSent (Z.of_nat (List.length donors))
        (Delivery.appendSentTo new a)
    /\ Forall (fun n => exists d, In d donors /\ n = Delivery.entry now d) new
    /\ (List.length new <= List.length donors)%nat.
Proof.
  destruct (fold_notifyDonor_alert donors
              {| results := noResults; alert := a; calls := [] |})
    as (new & E & F & L).
  exists new. split; [| auto].
  unfold sendBloodShortageAlert. cbn [alert] in E |- *. rewrite E.
  reflexivity.
Qed.

Lemma entries_valid donors new :
  Forall (fun n => exists d, In d donors /\ n = Delivery.entry now d) new ->
  forallb Alert.validSentTo new = true.
Proof.
  intros F. apply forallb_forall. rewrite Forall_forall in F.
  intros n I. destruct (F n I) as (d & _ & ->). apply entry_valid.
Qed.

Lemma sendBloodShortageAlert_valid a donors :
  Alert.validate a = true ->
  Alert.validate (alert (sendBloodShortageAlert now tr a donors)) = true.
Proof.
  intros V. destruct (sendBloodShortageAlert_alert a donors)
    as (new & -> & F & _).
  change (Alert.validate (Delivery.appendSentTo new a) = true).
  apply validate_appendSentTo; [exact V |].
  eapply entries_valid. exact F.
Qed.

End DispatchTotals.

(** X15. The totals of a dispatch. For every channel, the [sent] and the
    [failed] counter each count at most the donors of the list who
    enabled the channel, and together at least all of them; a donor
    served on a channel before a later sender throws is counted in both,
    so the two can add up to more than the number of donors. For push,
    the last channel, whose sender never throws, they add up to exactly
    the donors who enabled it. The alert gains at most one notification
    per donor, each for a donor of the list, unopened and without
    response, and otherwise only its [sent] counter changes; a valid
    alert stays valid, so the [save] that ends the dispatch does not fail
    on validation. When no sender throws, every donor of the list is
    recorded, in order, a donor who disabled all channels included,
    every [sent] counter is the number of donors who enabled the channel
    and every [failed] counter is 0. *)
Theorem sendBloodShortageAlert_totals :
  forall now tr a donors,
    let out := NotificationService.sendBloodShortageAlert now tr a donors in
    let r := NotificationService.results out in
    (forall c,
        0 <= Delivery.sent c r <= Delivery.enabledCount c donors
        /\ 0 <= Delivery.failed c r <= Delivery.enabledCount c donors
        /\ Delivery.enabledCount c donors
           <= Delivery.sent c r + Delivery.failed c r)
    /\ Delivery.sent NotificationService.Push r
       + Delivery.failed NotificationService.Push r
       = Delivery.enabledCount NotificationService.Push donors
    /\ (exists new,
          NotificationService.alert out
          = Delivery.addSent (Z.of_nat (List.length donors))
              (Delivery.appendSentTo new a)
          /\ Forall (fun n => exists d,
                                In d donors /\ n = Delivery.entry now d) new
          /\ (List.length new <= List.length donors)%nat)
    /\ (Alert.validate a = true ->
        Alert.validate (NotificationService.alert out) = true)
    /\ ((forall a' d,
            NotificationService.emailDelivers tr a' d = true
            /\ NotificationService.smsDelivers tr a' d = true) ->
        NotificationService.alert out
        = Delivery.addSent (Z.of_nat (List.length donors))
            (Delivery.appendSentTo (map (Delivery.entry now) donors) a)
        /\ forall c,
            Delivery.sent c r = Delivery.enabledCount c donors
            /\ Delivery.failed c r = 0).
Proof.
  intros now tr a donors out r.
  set (init := {| NotificationService.results := NotificationService.noResults;
                  NotificationService.alert := a;
                  NotificationService.calls := [] |}).
  assert (R : r = NotificationService.results
                    (fold_left (NotificationService.notifyDonor now tr)
                               donors init)) by reflexivity.
  assert (Z0 : forall c, Delivery.sent c (NotificationService.results init) = 0
                         /\ Delivery.failed c
                              (NotificationService.results init) = 0).
  { intros [| |]; split; reflexivity. }
  split; [| split; [| split; [| split]]].
  - intros c. pose proof (fold_notifyDonor_totals now tr donors c init) as T.
    cbn zeta in T. rewrite <- R in T. destruct (Z0 c) as (S0 & F0).
    rewrite S0, F0 in T. lia.
  - pose proof (fold_notifyDonor_totals now tr donors
                  NotificationService.Push init) as T.
    cbn zeta in T. rewrite <- R in T.
    destruct (Z0 NotificationService.Push) as (S0 & F0).
    rewrite S0, F0 in T. destruct T as (_ & _ & _ & T).
    specialize (T eq_refl). lia.
  - apply sendBloodShortageAlert_alert.
  - apply sendBloodShortageAlert_valid.
  - intros D.
    destruct (fold_notifyDonor_delivered now tr donors D init) as (E & C).
    split.
    + subst out. unfold NotificationService.sendBloodShortageAlert.
      cbn [NotificationService.alert]. fold init. rewrite E. reflexivity.
    + intros c. rewrite R. destruct (C c) as (-> & ->).
      destruct (Z0 c) as (-> & ->). split; lia.
Qed.

Lemma sendBloodShortageAlert_totals_witness :
  NotificationService.alert
    (NotificationService.sendBloodShortageAlert Examples.t0 Samples.allDeliver
       Examples.alert0 [Examples.donorONeg; Samples.donorSilent])
  = Delivery.addSent 2
      (Delivery.appendSentTo
         [Delivery.entry Examples.t0 Examples.donorONeg;
          Delivery.entry Examples.t0 Samples.donorSilent] Examples.alert0)
  /\ SentTo.method (Delivery.entry Examples.t0 Samples.donorSilent) = "email".
Proof.
  split; [| reflexivity].
  destruct (sendBloodShortageAlert_totals Examples.t0 Samples.allDeliver
              Examples.alert0 [Examples.donorONeg; Samples.donorSilent])
    as (_ & _ & _ & _ & D).
  apply D. intros a' d. split; reflexivity.
Defined.

(** ** Creating an alert *)

Section Create.

Import Http AlertCreate.

Variables (id : ObjectId) (now : JsDate.t) (env : Env) (userId : ObjectId)
          (hospital : Hospital.t) (requests : Z) (body : CreateBody).

Let a0 : Alert.t :=
  Alert.new id (JsDate.getTime now) (alertData userId hospital body).
Let eligible : list Donor.t :=
  AlertRoutes.findEligibleDonors now (near env a0) (donors env) a0.
Let sent : NotificationService.State :=
  NotificationService.sendBloodShortageAlert (JsDate.getTime now)
    (transports env) a0 eligible.

Lemma validCreateBody_inv :
  validCreateBody body = true ->
  exists t u n,
    bloodType body = Some t /\ In t BLOOD_TYPES
    /\ urgencyLevel body = Some u /\ In u Alert.URGENCY_LEVELS
    /\ unitsNeeded body = Some n /\ 1 <= n <= 100
    /\ 5 <= Alert.data_searchRadius (alertData userId hospital body) <= 200.
Proof.
  unfold validCreateBody. intros V.
  repeat (apply andb_prop in V as [V ?]).
  destruct (bloodType body) as [t |]; [| discriminate].
  destruct (urgencyLevel body) as [u |]; [| discriminate].
  destruct (unitsNeeded body) as [n |]; [| discriminate].
  apply includes_In in V.
  match goal with H : Js.includes Alert.URGENCY_LEVELS u = true |- _ =>
    apply includes_In in H end.
  match goal with H : (1 <=? n) && (n <=? 100) = true |- _ =>
    apply andb_prop in H as [N1 N2] end.
  exists t, u, n. repeat split; auto; try lia.
  - cbn. destruct (searchRadius body) as [r |]; [| lia].
    match goal with H : (5 <=? r) && (r <=? 200) = true |- _ =>
      apply andb_prop in H as [R1 R2] end.
    destruct (Z.eqb_spec r 0); lia.
  - cbn. destruct (searchRadius body) as [r |]; [| lia].
    match goal with H : (5 <=? r) && (r <=? 200) = true |- _ =>
      apply andb_prop in H as [R1 R2] end.
    destruct (Z.eqb_spec r 0); lia.
Qed.

Lemma validCreateBody_validate :
  validCreateBody body = true -> Alert.validate a0 = true.
Proof.
  intros V. destruct (validCreateBody_inv V)
    as (t & u & n & B & Bt & U & Uu & N & Nn & R).
  apply validate_iff. subst a0. alert_fields.
  unfold alertData in *. cbn [Alert.data_bloodType Alert.data_urgencyLevel
    Alert.data_unitsNeeded Alert.data_searchRadius] in *.
  rewrite B, U, N. cbn [Js.orElse forallb In Alert.STATUSES].
  repeat split; auto; lia.
Qed.

(** The three ways the handler ends. *)
Lemma create_cases :
  let out := create id now env userId hospital requests body in
  (validCreateBody body = false
   /\ out = {| reply := Fail 400 Errors; storedAlert := None;
               totalBloodRequests := requests |})
  \/ (validCreateBody body = true
      /\ documentCasts body = false
      /\ out = {| reply := Fail 500 (Message "Server error");
                  storedAlert := None; totalBloodRequests := requests |})
  \/ (validCreateBody body = true
      /\ documentCasts body = true
      /\ Alert.validate a0 = true
      /\ out
         = if hospitalMailDelivers env then
             {| reply :=
                  Ok {| alert := NotificationService.alert sent;
                        notificationResults :=
                          NotificationService.results sent;
                        eligibleDonors := List.length eligible |};
                storedAlert := Some (NotificationService.alert sent);
                totalBloodRequests := requests + 1 |}
           else
             {| reply := Fail 500 (Message "Server error");
                storedAlert := Some (NotificationService.alert sent);
                totalBloodRequests := requests |}).
Proof.
  cbn zeta. unfold create.
  destruct (validCreateBody body) eqn:V; cbn [negb]; [| auto].
  right. destruct (documentCasts body); [| auto].
  right. pose proof (validCreateBody_validate V) as V0.
  fold a0. rewrite (save_valid a0 V0). fold eligible. fold sent.
  rewrite (save_valid (NotificationService.alert sent)
             (sendBloodShortageAlert_valid (JsDate.getTime now)
                (transports env) a0 eligible V0)).
  repeat split; auto.
  destruct (hospitalMailDelivers env); reflexivity.
Qed.

(** The alert that the handler stores. *)
Lemma create_stored a :
  storedAlert (create id now env userId hospital requests body) = Some a ->
  validCreateBody body = true
  /\ Alert.validate a0 = true
  /\ exists new,
      a = Delivery.addSent (Z.of_nat (List.length eligible))
            (Delivery.appendSentTo new a0)
      /\ Forall (fun n => exists d,
                            In d eligible
                            /\ n = Delivery.entry (JsDate.getTime now) d) new
      /\ (List.length new <= List.length eligible)%nat.
Proof.
  destruct create_cases as [(_ & ->) | [(_ & _ & ->) | (V & _ & V0 & ->)]];
    try discriminate.
  intros E.
  assert (A : a = NotificationService.alert sent)
    by (destruct (hospitalMailDelivers env); cbn [storedAlert] in E;
        congruence).
  split; [exact V |]. split; [exact V0 |].
  rewrite A. apply sendBloodShortageAlert_alert.
Qed.

End Create.

(** X16. The alert that [POST /alerts] stores is active, has nothing
    collected, no response and no sharing record, asks for the 1 to 100
    units of the request within a search radius between 5 and 200 km (50
    when the request names none), and expires 24 hours after its
    creation when critical and 72 hours otherwise. Its [sent] counter is
    the number of eligible donors found, and each of its notifications
    belongs to one of them. The reply is 201 only if the confirmation
    mail to the hospital went out, and then the request counter of the
    hospital is raised by one. When that mail fails, the reply is 500
    and the counter is unchanged although the alert is stored and the
    donors have been notified. A request that fails the validators of the
    route, which count the characters of the reason, is answered 400 and
    stores nothing. A request that passes them and holds a value that
    the schema cannot cast (a date that [isISO8601] accepts and [Date]
    does not parse, as a week date) or a gender outside the enum is
    answered 500 and stores nothing. *)
Theorem create_outcome :
  forall id now env userId hospital requests body,
    let out := AlertCreate.create id now env userId hospital requests body in
    let a0 :=
      Alert.new id (JsDate.getTime now)
        (AlertCreate.alertData userId hospital body) in
    let eligible :=
      AlertRoutes.findEligibleDonors now (AlertCreate.near env a0)
        (AlertCreate.donors env) a0 in
    (forall a,
        AlertCreate.storedAlert out = Some a ->
        Alert._id a = id
        /\ Alert.hospital a = Hospital._id hospital
        /\ AlertCreate.bloodType body = Some (Alert.bloodType a)
        /\ AlertCreate.unitsNeeded body = Some (Alert.unitsNeeded a)
        /\ 1 <= Alert.unitsNeeded a <= 100
        /\ 5 <= Alert.searchRadius a <= 200
        /\ (AlertCreate.searchRadius body = None -> Alert.searchRadius a = 50)
        /\ Alert.status a = "active"
        /\ Alert.unitsCollected a = 0
        /\ Alert.responses a = []
        /\ Sharing.sharedWith (Alert.sharing a) = []
        /\ Alert.expiresAt a
           = JsDate.getTime now
             + (if String.eqb (Alert.urgencyLevel a) "critical"
                then 24 else 72) * 60 * 60 * 1000
        /\ Notifications.sent (Alert.notifications a)
           = Z.of_nat (List.length eligible)
        /\ Forall (fun n => exists d,
                              In d eligible
                              /\ n = Delivery.entry (JsDate.getTime now) d)
                  (Notifications.sentTo (Alert.notifications a)))
    /\ (forall c,
          AlertCreate.reply out = Http.Ok c ->
          AlertCreate.hospitalMailDelivers env = true
          /\ AlertCreate.storedAlert out = Some (AlertCreate.alert c)
          /\ AlertCreate.eligibleDonors c = List.length eligible
          /\ AlertCreate.totalBloodRequests out = requests + 1)
    /\ (AlertCreate.validCreateBody body = true ->
        Http.castsToDate (AlertCreate.requiredBy body) = true ->
        AlertCreate.otherFieldsCast body = true ->
        Alert.enumValid AlertCreate.GENDERS (AlertCreate.gender body) = true ->
        AlertCreate.hospitalMailDelivers env = false ->
        AlertCreate.reply out = Http.Fail 500 (Http.Message "Server error")
        /\ AlertCreate.storedAlert out <> None
        /\ AlertCreate.totalBloodRequests out = requests)
    /\ (AlertCreate.validCreateBody body = false ->
        AlertCreate.reply out = Http.Fail 400 Http.Errors
        /\ AlertCreate.storedAlert out = None
        /\ AlertCreate.totalBloodRequests out = requests)
    /\ (AlertCreate.validCreateBody body = true ->
        Http.castsToDate (AlertCreate.requiredBy body) = false
        \/ AlertCreate.otherFieldsCast body = false
        \/ Alert.enumValid AlertCreate.GENDERS (AlertCreate.gender body)
           = false ->
        AlertCreate.reply out = Http.Fail 500 (Http.Message "Server error")
        /\ AlertCreate.storedAlert out = None
        /\ AlertCreate.totalBloodRequests out = requests)
    /\ (AlertCreate.validCreateBody body = true ->
        10 <= Z.of_nat (Js.characters
                          (Js.orElse (AlertCreate.reason body) ""))
        /\ exists d, AlertCreate.requiredBy body = Some d
                     /\ Http.isISO8601 d = true).
Proof.
  intros id now env userId hospital requests body out a0 eligible.
  split; [| split; [| split; [| split; [| split]]]].
  - intros a S.
    destruct (create_stored _ _ _ _ _ _ _ _ S) as (V & V0 & new & E & F & L).
    destruct (validCreateBody_inv userId hospital body V)
      as (t & u & n & B & Bt & U & Uu & N & Nn & R).
    fold a0 in E, F, L. fold eligible in E, F, L.
    assert (A0 : Alert.bloodType a0 = t /\ Alert.urgencyLevel a0 = u
                 /\ Alert.unitsNeeded a0 = n
                 /\ Alert.searchRadius a0
                    = Alert.data_searchRadius
                        (AlertCreate.alertData userId hospital body)).
    { subst a0. cbn. rewrite B, U, N. auto. }
    destruct A0 as (A1 & A2 & A3 & A4).
    assert (A5 : Alert.bloodType a = Alert.bloodType a0
                 /\ Alert.urgencyLevel a = Alert.urgencyLevel a0
                 /\ Alert.unitsNeeded a = Alert.unitsNeeded a0
                 /\ Alert.searchRadius a = Alert.searchRadius a0)
      by (rewrite E; auto).
    destruct A5 as (-> & -> & -> & ->). rewrite A1, A2, A3, A4.
    rewrite E. clear E.
    split; [reflexivity |]. split; [reflexivity |].
    split; [exact B |]. split; [exact N |].
    split; [exact Nn |]. split; [exact R |].
    split; [intros SR; cbn; now rewrite SR |].
    split; [reflexivity |]. split; [reflexivity |].
    split; [reflexivity |]. split; [reflexivity |].
    split; [cbn; unfold Alert.expiresAt_default; now rewrite U |].
    split; [cbn; lia |].
    exact F.
  - intros c R. subst out.
    destruct (create_cases id now env userId hospital requests body)
      as [(_ & E) | [(_ & _ & E) | (_ & _ & _ & E)]];
      rewrite E in R |- *; try discriminate.
    destruct (AlertCreate.hospitalMailDelivers env); [| discriminate].
    cbn in R |- *. injection R as <-. auto.
  - intros V D O G M. subst out.
    assert (G' : AlertCreate.documentCasts body = true)
      by (unfold AlertCreate.documentCasts; now rewrite D, O, G).
    destruct (create_cases id now env userId hospital requests body)
      as [(V' & _) | [(_ & G'' & _) | (_ & _ & _ & E)]]; try congruence.
    rewrite E, M. cbn. repeat split. discriminate.
  - intros V. subst out.
    destruct (create_cases id now env userId hospital requests body)
      as [(_ & E) | [(V' & _) | (V' & _)]]; try congruence.
    rewrite E. auto.
  - intros V D. subst out.
    assert (G' : AlertCreate.documentCasts body = false).
    { unfold AlertCreate.documentCasts.
      destruct D as [-> | [-> | ->]];
        rewrite ?Bool.andb_false_r; reflexivity. }
    destruct (create_cases id now env userId hospital requests body)
      as [(V' & _) | [(_ & _ & E) | (_ & G'' & _)]]; try congruence.
    rewrite E. auto.
  - intros V. unfold AlertCreate.validCreateBody in V.
    repeat (apply andb_prop in V as [V ?]).
    split.
    + unfold Http.isLength in *.
      match goal with
      | H : (10 <=? _)%nat = true |- _ => apply Nat.leb_le in H; lia
      end.
    + destruct (AlertCreate.requiredBy body) as [d |]; [| discriminate].
      eauto.
Qed.

Lemma create_outcome_witness :
  let run :=
    AlertCreate.create Examples.alertId Examples.day0
      Samples.envNoHospitalMail Examples.userA Examples.hospitalADoc 7 in
  (AlertCreate.reply (run Samples.requestONeg)
   = Http.Fail 500 (Http.Message "Server error")
   /\ AlertCreate.storedAlert (run Samples.requestONeg) <> None)
  /\ (AlertCreate.reply
        (run (Samples.requestWith Samples.fiveAccents
                (Http.Iso8601 (Examples.t0 + 86400000))))
      = Http.Fail 400 Http.Errors)
  /\ (AlertCreate.reply
        (run (Samples.requestWith "Trauma surgery, stock exhausted"
                (Http.IsoNotParsed "2024-W01-1")))
      = Http.Fail 500 (Http.Message "Server error")
      /\ AlertCreate.storedAlert
           (run (Samples.requestWith "Trauma surgery, stock exhausted"
                   (Http.IsoNotParsed "2024-W01-1")))
         = None).
Proof.
  intros run. split; [| split].
  - destruct (create_outcome Examples.alertId Examples.day0
                Samples.envNoHospitalMail Examples.userA
                Examples.hospitalADoc 7 Samples.requestONeg)
      as (_ & _ & F & _).
    destruct (F eq_refl eq_refl eq_refl eq_refl eq_refl) as (R & S & _).
    split; [exact R | exact S].
  - destruct (create_outcome Examples.alertId Examples.day0
                Samples.envNoHospitalMail Examples.userA
                Examples.hospitalADoc 7
                (Samples.requestWith Samples.fiveAccents
                   (Http.Iso8601 (Examples.t0 + 86400000))))
      as (_ & _ & _ & F & _).
    exact (proj1 (F eq_refl)).
  - destruct (create_outcome Examples.alertId Examples.day0
                Samples.envNoHospitalMail Examples.userA
                Examples.hospitalADoc 7
                (Samples.requestWith "Trauma surgery, stock exhausted"
                   (Http.IsoNotParsed "2024-W01-1")))
      as (_ & _ & _ & _ & F & _).
    destruct (F eq_refl (or_introl eq_refl)) as (R & S & _).
    split; [exact R | exact S].
Defined.

(** ** The invariant of the stored alerts *)

Section SystemInvariant.

Import Http System.

(** A new document satisfies the invariant once it is valid. *)
Lemma invariant_new id now d :
  Alert.validate (Alert.new id now d) = true -> Invariant (Alert.new id now d).
Proof.
  intros V. constructor; cbn; auto; try constructor; lia.
Qed.

Lemma entries_unopened {now donors} new :
  Forall (fun n => exists d, In d donors /\ n = Delivery.entry now d) new ->
  filter SentTo.opened new = [].
Proof.
  induction 1 as [| n new (d & _ & ->) F IH]; cbn; auto.
Qed.

Lemma invariant_create id now env userId hospital requests body a :
  AlertCreate.storedAlert
    (AlertCreate.create id now env userId hospital requests body) = Some a ->
  Invariant a.
Proof.
  intros S.
  destruct (create_stored _ _ _ _ _ _ _ _ S) as (_ & V0 & new & -> & F & L).
  pose proof (entries_valid _ _ _ F) as VN.
  pose proof (entries_unopened _ F) as UN.
  constructor; unfold Delivery.addSent, Delivery.appendSentTo; alert_fields;
    cbn [app]; try (constructor; fail); try reflexivity.
  - change (Alert.validate
              (Delivery.appendSentTo new
                 (Alert.new id (JsDate.getTime now)
                    (AlertCreate.alertData userId hospital body))) = true).
    now apply validate_appendSentTo.
  - now rewrite UN.
  - lia.
Qed.

Lemma invariant_autoAlert id now userId hospital bloodType body a :
  HospitalRoutes.storedAlert
    (HospitalRoutes.updateInventory id now userId hospital bloodType body)
  = Some a ->
  Invariant a.
Proof.
  unfold HospitalRoutes.updateInventory.
  destruct (InventoryRoutes.validUpdateBody body); cbn [negb];
    [| discriminate].
  destruct (HospitalDoc.units hospital bloodType); [| discriminate].
  destruct (_ && _); [| discriminate].
  destruct (HospitalDoc.units _ bloodType); [| discriminate].
  destruct (Alert.save _) eqn:S; [| discriminate].
  apply save_Some in S as [-> V]. intros [= <-].
  now apply invariant_new.
Qed.

(** The alert that a successful response stores. *)
Lemma respond_Ok_shape now userEmail body donor a a' :
  DonorRoutes.respond now userEmail body donor (Some a) = Ok a' ->
  exists d r,
    donor = Some d
    /\ ~ In (Donor._id d) (map Response.donor (Alert.responses a))
    /\ Response.donor r = Donor._id d
    /\ Response.donationCompleted r = false
    /\ Response.responseType r <> "donated"
    /\ Alert.validate a' = true
    /\ a' = Alert.set_notifications
              {| Notifications.sent :=
                   Notifications.sent (Alert.notifications a);
                 Notifications.opened :=
                   Notifications.opened (Alert.notifications a);
                 Notifications.responded :=
                   Notifications.responded (Alert.notifications a) + 1;
                 Notifications.sentTo :=
                   Alert.updateFound (Alert.isDonor (Donor._id d))
                     (Alert.markResponded now (Response.responseType r))
                     (Notifications.sentTo (Alert.notifications a)) |}
              (Alert.set_responses (Alert.responses a ++ [r]) a).
Proof.
  intros H.
  destruct (respond_Ok_inv _ _ _ _ _ _ H)
    as (d & a1 & ty & -> & [= <-] & T & Hty & _ & F & E & V).
  pose proof (respond_type_not_donated _ Hty) as ND.
  assert (NI : ~ In (Donor._id d) (map Response.donor (Alert.responses a))).
  { intros I. apply in_map_iff in I as (r & Er & Ir).
    pose proof (find_none _ _ F r Ir) as N.
    unfold DonorRoutes.hasResponse in N.
    rewrite Er, String.eqb_refl in N. discriminate. }
  unfold Alert.addResponse in E. rewrite ND in E. cbn [andb] in E.
  set (r := match find (Alert.isDonor (Donor._id d))
                       (Notifications.sentTo (Alert.notifications a)) with
            | Some n => _ | None => _ end) in E.
  assert (Rf : Response.donor r = Donor._id d
               /\ Response.donationCompleted r = false
               /\ Response.responseType r = ty).
  { subst r.
    destruct (find (Alert.isDonor (Donor._id d))
                   (Notifications.sentTo (Alert.notifications a)));
      cbn; rewrite T; auto. }
  destruct Rf as (R1 & R2 & R3).
  exists d, r. rewrite R3.
  repeat (split; [first [reflexivity | assumption] |]).
  split; [intros ->; discriminate |]. split; [exact V | exact E].
Qed.

Lemma updateFound_keeps_opened (f : SentTo.t -> SentTo.t) p l :
  (forall n, SentTo.opened (f n) = SentTo.opened n) ->
  List.length (filter SentTo.opened (Alert.updateFound p f l))
  = List.length (filter SentTo.opened l).
Proof.
  intros Hf. induction l as [| y l IH]; cbn; [reflexivity |].
  destruct (p y); cbn.
  - rewrite Hf. destruct (SentTo.opened y); reflexivity.
  - destruct (SentTo.opened y); cbn; auto.
Qed.

Lemma opened_length_markResponded now ty p l :
  List.length
    (filter SentTo.opened (Alert.updateFound p (Alert.markResponded now ty) l))
  = List.length (filter SentTo.opened l).
Proof. now apply updateFound_keeps_opened. Qed.

Lemma invariant_respond a now userEmail body donor a' :
  Invariant a ->
  DonorRoutes.respond now userEmail body donor (Some a) = Ok a' ->
  Invariant a'.
Proof.
  intros [V U R N D S SU O L] H.
  destruct (respond_Ok_shape _ _ _ _ _ _ H)
    as (d & r & _ & NI & Rd & Rc & Rt & V' & E).
  constructor; [exact V' | rewrite E; alert_fields ..].
  - exact U.
  - rewrite length_app. cbn [List.length]. lia.
  - rewrite map_app. cbn [map]. rewrite Rd.
    apply NoDup_app; [exact N | repeat constructor; intros [] |].
    intros x I [<- | []]. contradiction.
  - apply Forall_app. split; [exact D |]. constructor; [| constructor]. auto.
  - exact S.
  - exact SU.
  - rewrite opened_length_markResponded. exact O.
  - rewrite updateFound_length. exact L.
Qed.

Lemma invariant_markRead a now role userId a' :
  Invariant a ->
  NotificationRoutes.markRead now role userId (Some a) = Ok (Some a') ->
  Invariant a'.
Proof.
  intros I H.
  destruct (String.eqb_spec role "donor") as [-> | NR].
  - destruct (markRead_Ok_inv _ _ _ _ H)
      as (n & F & [[_ ->] | (Op & V' & E)]); [exact I |].
    destruct I as [V U R N D S SU O L].
    constructor; [exact V' | rewrite E; alert_fields ..]; auto.
    + rewrite (updateFound_opened now userId _ n F Op). lia.
    + rewrite updateFound_length. exact L.
  - unfold NotificationRoutes.markRead in H.
    destruct (String.eqb_spec role "donor"); [contradiction |].
    injection H as <-. exact I.
Qed.

Lemma invariant_updateStatus a iso userId hospital body a' :
  Invariant a ->
  AlertLifecycle.updateStatus iso userId hospital body (Some a) = Ok a' ->
  Invariant a'.
Proof.
  intros [V U R N D S SU O L] H.
  destruct (updateStatus_Ok_inv _ _ _ _ _ _ H)
    as (s & _ & _ & _ & V' & [-> | [notes ->]]);
    constructor; auto.
Qed.

Lemma extend_Ok_inv hospital body a a' :
  AlertLifecycle.extend hospital body (Some a) = Ok a' ->
  exists h,
    AlertLifecycle.hours body = Some h /\ 1 <= h <= 168
    /\ (Alert.status a = "active" \/ Alert.status a = "partially_fulfilled")
    /\ Alert.validate a' = true
    /\ a' = Alert.extendExpiry h a.
Proof.
  unfold AlertLifecycle.extend, AlertLifecycle.validExtendBody.
  destruct (AlertLifecycle.hours body) as [h |]; [| discriminate].
  destruct (Z.leb_spec 1 h); [| discriminate].
  destruct (Z.leb_spec h 168); [| discriminate]. cbn [andb negb].
  cbn [AlertRoutes.ownedBy].
  destruct (String.eqb (Alert.hospital a) (Hospital._id hospital));
    [| discriminate].
  destruct (String.eqb_spec (Alert.status a) "active") as [S1 | S1];
    destruct (String.eqb_spec (Alert.status a) "partially_fulfilled")
      as [S2 | S2]; cbn [andb negb]; try discriminate;
    (destruct (Alert.save _) eqn:S; [| discriminate]);
    apply save_Some in S as [-> V]; intros [= <-]; exists h;
    repeat split; auto; lia.
Qed.

Lemma invariant_extend a hospital body a' :
  Invariant a ->
  AlertLifecycle.extend hospital body (Some a) = Ok a' ->
  Invariant a'.
Proof.
  intros [V U R N D S SU O L] H.
  destruct (extend_Ok_inv _ _ _ _ H) as (h & _ & _ & _ & V' & ->).
  constructor; auto.
Qed.

Lemma invariant_share a now hospital body a' results :
  Invariant a ->
  AlertRoutes.share now hospital body (Some a) = Ok (a', results) ->
  Invariant a'.
Proof.
  intros [V U R N D S SU O L] H.
  apply share_Ok_inv in H as (_ & _ & _ & V' & E).
  apply fold_shareWith_spec in E as (new & _ & _ & Sh & F & _ & _ & ND & _).
  constructor; [exact V' | rewrite F; alert_fields ..]; auto.
  rewrite Sh. apply Forall_app. split; [exact SU |].
  apply Forall_forall. intros s I. apply in_map_iff in I as (r & <- & _).
  reflexivity.
Qed.

(** While no sharing record has a response, [respond-share] rejects
    every request. *)
Lemma respondShare_rejected a hospital body :
  Forall (fun s => SharedWith.response s = None)
         (Sharing.sharedWith (Alert.sharing a)) ->
  exists st b,
    AlertRoutes.respondShare hospital body (Some a) = Fail st b
    /\ (st = 400 \/ st = 404).
Proof.
  intros SU. unfold AlertRoutes.respondShare.
  destruct (AlertRoutes.validRespondShareBody body); cbn [negb];
    [| eexists; eexists; split; [reflexivity | auto]].
  destruct (find _ _) as [s |] eqn:F;
    [| eexists; eexists; split; [reflexivity | auto]].
  apply find_some in F as [I _]. rewrite Forall_forall in SU.
  unfold AlertRoutes.notPending. rewrite (SU s I).
  eexists; eexists; split; [reflexivity | auto].
Qed.

Lemma initial_invariant a : Initial a -> Invariant a.
Proof.
  intros [id now env userId hospital requests body a' S
         | id now userId hospital bloodType body a' S].
  - eapply invariant_create; exact S.
  - eapply invariant_autoAlert; exact S.
Qed.

Lemma step_invariant a a' : Step a a' -> Invariant a -> Invariant a'.
Proof.
  intros [ a0 now userEmail body donor a1 H
         | a0 now role userId a1 H
         | a0 iso userId hospital body a1 H
         | a0 hospital body a1 H
         | a0 now hospital body a1 results H
         | a0 hospital body a1 H ] I.
  - eapply invariant_respond; eauto.
  - eapply invariant_markRead; eauto.
  - eapply invariant_updateStatus; eauto.
  - eapply invariant_extend; eauto.
  - eapply invariant_share; eauto.
  - destruct (respondShare_rejected a0 hospital body
                (inv_share_unanswered a0 I)) as (st & b & E & _).
    rewrite E in H. discriminate.
Qed.

(** Every reachable alert satisfies the invariant. *)
Lemma reachable_invariant a : Reachable a -> Invariant a.
Proof.
  induction 1 as [a I | a a' _ IH S].
  - now apply initial_invariant.
  - eapply step_invariant; eauto.
Qed.

End SystemInvariant.

Lemma samples_reachable :
  System.Initial Samples.created /\ System.Reachable Samples.answered.
Proof.
  assert (I : System.Initial Samples.created).
  { eapply System.ByCreate
      with (id := Examples.alertId) (now := Examples.day0)
           (env := Samples.envNoHospitalMail) (userId := Examples.userA)
           (hospital := Examples.hospitalADoc) (requests := 7)
           (body := Samples.requestONeg).
    reflexivity. }
  split; [exact I |].
  eapply System.Next; [apply System.Start; exact I |].
  eapply System.ByRespond
    with (now := Examples.t0 + 60000) (userEmail := "asha@example.org")
         (body := Examples.interested) (donor := Some Examples.donorONeg).
  reflexivity.
Qed.



(** X17. No route records a donation. Whatever sequence of successful
    requests an alert has gone through since its creation (responses,
    read receipts, status updates, extensions, shares), its
    [unitsCollected] is 0, below [unitsNeeded], and none of its responses
    is marked as a completed donation or has the type 'donated': the
    branch of [addResponse] that counts units is not reached by any
    handler. *)
Theorem no_route_records_a_donation :
  forall a,
    System.Reachable a ->
    Alert.unitsCollected a = 0
    /\ Alert.unitsCollected a < Alert.unitsNeeded a
    /\ Forall (fun r => Response.donationCompleted r = false
                        /\ Response.responseType r <> "donated")
              (Alert.responses a)
    /\ filter Response.donationCompleted (Alert.responses a) = [].
Proof.
  intros a R. destruct (reachable_invariant a R) as [V U _ _ D _ _ _ _].
  apply validate_iff in V. destruct V as ((_ & _ & N & _) & _).
  split; [exact U |]. split; [lia |]. split; [exact D |].
  induction D as [| r l (C & _) _ IH]; cbn; [reflexivity |].
  now rewrite C.
Qed.

Lemma no_route_records_a_donation_witness :
  Alert.unitsCollected Samples.answered = 0
  /\ List.length (Alert.responses Samples.answered) = 1%nat.
Proof.
  split; [| reflexivity].
  exact (proj1 (no_route_records_a_donation Samples.answered
                  (proj2 samples_reachable))).
Defined.







(** ** What changes the status and the expiry *)

Lemma set_notifications_id a :
  Alert.set_notifications (Alert.notifications a) a = a.
Proof. now destruct a. Qed.

(** X21. An alert enters the store as 'active'. After that its status
    changes only by a request to the status route, and its expiry only by
    a request to the extend route: responses, read receipts and shares
    leave both as they are, and no request changes the blood type, the
    units needed, the units collected or the owner. In particular no
    handler moves an alert to 'expired' when its time has run out, nor to
    'fulfilled' or 'partially_fulfilled' on a response. *)
Theorem status_changes_only_by_override :
  (forall a, System.Initial a ->
             Alert.status a = "active" /\ Alert.unitsCollected a = 0)
  /\ forall a a',
      System.Step a a' ->
      (Alert.status a' <> Alert.status a ->
       exists iso userId hospital body,
         AlertLifecycle.updateStatus iso userId hospital body (Some a)
         = Http.Ok a'
         /\ AlertLifecycle.status body = Some (Alert.status a'))
      /\ (Alert.expiresAt a' <> Alert.expiresAt a ->
          exists hospital body,
            AlertLifecycle.extend hospital body (Some a) = Http.Ok a')
      /\ Alert._id a' = Alert._id a
      /\ Alert.hospital a' = Alert.hospital a
      /\ Alert.bloodType a' = Alert.bloodType a
      /\ Alert.unitsNeeded a' = Alert.unitsNeeded a
      /\ Alert.unitsCollected a' = Alert.unitsCollected a.
Proof.
  split.
  - intros a I. pose proof (initial_invariant a I) as [_ U _ _ _ _ _ _ _].
    split; [| exact U].
    destruct I as [id now env userId hospital requests body a S
                  | id now userId hospital bloodType body a S].
    + destruct (create_stored _ _ _ _ _ _ _ _ S) as (_ & _ & new & -> & _).
      reflexivity.
    + revert S. unfold HospitalRoutes.updateInventory.
      destruct (InventoryRoutes.validUpdateBody body); cbn [negb];
        [| discriminate].
      destruct (HospitalDoc.units hospital bloodType); [| discriminate].
      destruct (_ && _); [| discriminate].
      destruct (HospitalDoc.units _ bloodType); [| discriminate].
      destruct (Alert.save _) eqn:S; [| discriminate].
      apply save_Some in S as [-> V]. intros [= <-]. reflexivity.
  - intros a a'
      [ a0 now userEmail body donor a1 H
      | a0 now role userId a1 H
      | a0 iso userId hospital body a1 H
      | a0 hospital body a1 H
      | a0 now hospital body a1 results H
      | a0 hospital body a1 H ].
    + destruct (respond_Ok_shape _ _ _ _ _ _ H)
        as (d & r & _ & _ & _ & _ & _ & _ & ->).
      alert_fields. repeat split; try reflexivity; intros N; now elim N.
    + assert (E : a1 = Alert.set_notifications (Alert.notifications a1) a0).
      { destruct (String.eqb_spec role "donor") as [-> | NR].
        - destruct (markRead_Ok_inv _ _ _ _ H)
            as (n & _ & [[_ ->] | (_ & _ & ->)]);
            [symmetry; apply set_notifications_id | reflexivity].
        - unfold NotificationRoutes.markRead in H.
          destruct (String.eqb_spec role "donor"); [contradiction |].
          injection H as <-. symmetry. apply set_notifications_id. }
      rewrite E. alert_fields.
      repeat split; try reflexivity; intros N; now elim N.
    + destruct (updateStatus_Ok_inv _ _ _ _ _ _ H)
        as (s & B & _ & _ & _ & E).
      assert (F : Alert.status a1 = s
                  /\ Alert.expiresAt a1 = Alert.expiresAt a0
                  /\ Alert._id a1 = Alert._id a0
                  /\ Alert.hospital a1 = Alert.hospital a0
                  /\ Alert.bloodType a1 = Alert.bloodType a0
                  /\ Alert.unitsNeeded a1 = Alert.unitsNeeded a0
                  /\ Alert.unitsCollected a1 = Alert.unitsCollected a0).
      { destruct E as [-> | [notes ->]]; repeat split. }
      destruct F as (F1 & F2 & F3 & F4 & F5 & F6 & F7).
      split; [intros _; exists iso, userId, hospital, body; split;
              [exact H | congruence] |].
      split; [intros N; now elim N |]. auto.
    + destruct (extend_Ok_inv _ _ _ _ H) as (h & _ & _ & _ & _ & E).
      split; [intros N; rewrite E in N; now elim N |].
      split; [intros _; exists hospital, body; exact H |].
      rewrite E. repeat split.
    + apply share_Ok_inv in H as (_ & _ & _ & _ & E).
      apply fold_shareWith_spec in E as (new & _ & _ & _ & -> & _).
      alert_fields. repeat split; try reflexivity; intros N; now elim N.
    + revert H. unfold AlertRoutes.respondShare.
      destruct (AlertRoutes.validRespondShareBody body); cbn [negb];
        [| discriminate].
      destruct (find _ _) as [s |]; [| discriminate].
      destruct (AlertRoutes.notPending s); [discriminate |].
      destruct (Alert.save _) eqn:S; [| discriminate].
      apply save_Some in S as [-> _]. intros [= <-].
      alert_fields. repeat split; try reflexivity; intros N; now elim N.
Qed.

Lemma status_changes_only_by_override_witness :
  Alert.status Samples.created = "active".
Proof.
  exact (proj1 (proj1 status_changes_only_by_override Samples.created
                  (proj1 samples_reachable))).
Defined.

(** ** Eligibility after a donation *)

(** X22. [updateEligibilityAfterDonation] at time [now] sets the last
    donation to [now] and [nextEligibleDate] to 56 days later, adds one
    donation and 450 ml to the statistics, and keeps a first donation
    date that is already set. The stored [nextEligibleDate], which
    [checkEligibility] does not read, is exactly the instant from which
    the donation-gap rule of [checkEligibility] passes again; before it
    the donor is reported ineligible, whatever the other rules say. *)
Theorem updateEligibilityAfterDonation_gap :
  forall now r,
    let r' := DonorRecord.updateEligibilityAfterDonation now r in
    let next := JsDate.getTime now + 56 * Donor.MS_PER_DAY in
    DonorRecord.nextEligibleDate r' = Some next
    /\ Donor.lastDonationDate (DonorRecord.donor r') = Some now
    /\ DonorStatistics.totalDonations (DonorRecord.statistics r')
       = DonorStatistics.totalDonations (DonorRecord.statistics r) + 1
    /\ DonorStatistics.totalVolumeDonated (DonorRecord.statistics r')
       = DonorStatistics.totalVolumeDonated (DonorRecord.statistics r) + 450
    /\ (forall first,
          DonorStatistics.firstDonationDate (DonorRecord.statistics r)
          = Some first ->
          DonorStatistics.firstDonationDate (DonorRecord.statistics r')
          = Some first)
    /\ (DonorStatistics.firstDonationDate (DonorRecord.statistics r) = None ->
        DonorStatistics.firstDonationDate (DonorRecord.statistics r')
        = Some (JsDate.getTime now))
    /\ (forall t,
          Rules.gapOk t (DonorRecord.donor r') <-> next <= JsDate.getTime t)
    /\ (forall t,
          JsDate.getTime t < next ->
          Eligibility.eligible
            (Donor.checkEligibility t (DonorRecord.donor r')) = false)
    /\ (forall t,
          Rules.ageOk t (DonorRecord.donor r')
          <-> Rules.ageOk t (DonorRecord.donor r)).
Proof.
  intros now r r' next.
  assert (G : forall t,
             56 <= Donor.daysSinceLastDonation t now
             <-> next <= JsDate.getTime t).
  { intros t. subst next. unfold Donor.daysSinceLastDonation.
    assert (M : 0 < Donor.MS_PER_DAY) by reflexivity.
    set (m := Donor.MS_PER_DAY) in *.
    split; intros H.
    - pose proof (Z.mul_div_le (JsDate.getTime t - JsDate.getTime now) m M).
      nia.
    - apply Z.div_le_lower_bound; [exact M | lia]. }
  split; [reflexivity |]. split; [reflexivity |].
  split; [reflexivity |]. split; [reflexivity |].
  split; [intros first F; cbn; now rewrite F |].
  split; [intros F; cbn; now rewrite F |].
  split; [| split].
  - intros t. unfold Rules.gapOk. subst next.
    unfold Donor.MS_PER_DAY, Rules.DAY. cbn. split.
    + intros H. specialize (H now eq_refl). lia.
    + intros H last [= <-]. lia.
  - intros t L. unfold Donor.checkEligibility.
    destruct (_ || _); [reflexivity |].
    destruct (Js.ltQ _ _); [reflexivity |].
    unfold Donor.mustWait. cbn [DonorRecord.donor r'
      DonorRecord.updateEligibilityAfterDonation
      DonorRecord.set_lastDonationDate Donor.lastDonationDate].
    destruct (Z.ltb_spec (Donor.daysSinceLastDonation t now) 56) as [D | D];
      [reflexivity |].
    apply G in D. lia.
  - intros t. reflexivity.
Qed.

Lemma updateEligibilityAfterDonation_gap_witness :
  Eligibility.eligible
    (Donor.checkEligibility Examples.day0
       (DonorRecord.donor
          (DonorRecord.updateEligibilityAfterDonation Examples.before55
             Samples.recordONeg))) = false.
Proof.
  destruct (updateEligibilityAfterDonation_gap Examples.before55
              Samples.recordONeg) as (_ & _ & _ & _ & _ & _ & _ & E & _).
  apply E. reflexivity.
Defined.

(** ** The bulk update of the inventory *)

Section Bulk.

Import Http HospitalDoc InventoryRoutes.

Variable now : Z.

Lemma assign_assign {A} (o : list (string * A)) k v1 v2 :
  assign (assign o k v1) k v2 = assign o k v2.
Proof.
  induction o as [| [k0 y] o IH]; cbn; [reflexivity |].
  destruct (String.eqb k0 k) eqn:E; cbn; rewrite E; [reflexivity |].
  now rewrite IH.
Qed.

(** One item of the bulk update, against the single update with the
    same fields. *)
Lemma bulkStep_updateOne h rs i old :
  validBulkItem i = true ->
  units h (Js.orElse (item_bloodType i) "") = Some old ->
  exists r res,
    updateOne now h (Js.orElse (item_bloodType i) "") (asUpdateBody i) = Ok r
    /\ bulkStep now (Some (h, rs)) i = Some (stored r, rs ++ [res])
    /\ result_bloodType res = Js.orElse (item_bloodType i) ""
    /\ oldValue res = Units.available old
    /\ Some (newValue res) = option_map Units.available (newInventory r)
    /\ result_isCritical res = nowCritical r
    /\ map fst (bloodUnits (stored r)) = map fst (bloodUnits h)
    /\ forall other,
        other <> Js.orElse (item_bloodType i) "" ->
        units (stored r) other = units h other.
Proof.
  intros V U. set (bt := Js.orElse (item_bloodType i) "") in *.
  assert (VB : validUpdateBody (asUpdateBody i) = true).
  { unfold validBulkItem in V. unfold validUpdateBody, asUpdateBody. cbn.
    repeat (apply andb_prop in V as [V ?]).
    repeat (apply andb_true_intro; split); assumption. }
  set (u1 := assignFields (item_available i) (item_reserved i)
                          (item_critical i) old).
  assert (U1 : units (set_units bt u1 h) bt = Some u1)
    by (eapply units_set_units_same; exact U).
  assert (S : set_units bt (set_lastUpdated now u1) (set_units bt u1 h)
              = set_units bt (set_lastUpdated now u1) h).
  { unfold set_units. cbn. now rewrite assign_assign. }
  unfold updateOne, bulkStep. cbn zeta. fold bt. rewrite VB, !U.
  cbn [negb asUpdateBody body_change body_available body_reserved
       body_critical].
  fold u1. rewrite U1, S.
  assert (U2 : units (set_units bt (set_lastUpdated now u1) h) bt
               = Some (set_lastUpdated now u1))
    by (eapply units_set_units_same; exact U).
  eexists. eexists. split; [reflexivity |].
  cbn [stored newInventory nowCritical].
  split; [reflexivity |]. cbn [result_bloodType oldValue newValue
                               result_isCritical].
  rewrite U2. repeat split.
  - apply map_fst_assign.
  - intros other N. now apply units_set_units_other.
Qed.

Lemma includes_units h t :
  wellFormed h -> Js.includes BLOOD_TYPES t = true ->
  exists old, units h t = Some old.
Proof.
  unfold wellFormed, units. intros WF I. apply includes_In in I.
  rewrite <- WF in I. clear WF.
  induction (bloodUnits h) as [| [k v] o IH]; cbn in *; [contradiction |].
  destruct (String.eqb_spec k t); [eauto |].
  destruct I as [-> | I]; [contradiction | auto].
Qed.

(** The loop of the bulk update. *)
Lemma fold_bulkStep updates :
  forall h rs,
    wellFormed h ->
    forallb validBulkItem updates = true ->
    exists h' new,
      fold_left (bulkStep now) updates (Some (h, rs)) = Some (h', rs ++ new)
      /\ oneByOne now h updates = Some h'
      /\ wellFormed h'
      /\ map result_bloodType new
         = map (fun i => Js.orElse (item_bloodType i) "") updates
      /\ (forall t,
            ~ In (Some t) (map item_bloodType updates) ->
            units h' t = units h t)
      /\ (forall i rest old,
            updates = i :: rest ->
            units h (Js.orElse (item_bloodType i) "") = Some old ->
            exists res, hd_error new = Some res
                        /\ oldValue res = Units.available old).
Proof.
  induction updates as [| i updates IH]; intros h rs WF V.
  - exists h, []. cbn. rewrite app_nil_r.
    repeat split; auto. intros i rest old [=].
  - cbn [forallb] in V. apply andb_prop in V as [Vi V].
    assert (T : Js.includes BLOOD_TYPES (Js.orElse (item_bloodType i) "")
                = true).
    { unfold validBulkItem in Vi.
      repeat (apply andb_prop in Vi as [Vi ?]).
      destruct (item_bloodType i); [exact Vi | discriminate]. }
    assert (Ti : exists t, item_bloodType i = Some t).
    { unfold validBulkItem in Vi.
      repeat (apply andb_prop in Vi as [Vi ?]).
      destruct (item_bloodType i); [eauto | discriminate]. }
    destruct (includes_units h _ WF T) as (old & U).
    destruct (bulkStep_updateOne h rs i old Vi U)
      as (r & res & E1 & E2 & B & O & _ & _ & K & F).
    assert (WF' : wellFormed (stored r)).
    { unfold wellFormed in *. now rewrite K. }
    destruct (IH (stored r) (rs ++ [res]) WF' V)
      as (h' & new & E3 & E4 & WF'' & M & Fr & _).
    exists h', (res :: new). cbn [fold_left]. rewrite E2, E3.
    rewrite <- app_assoc. cbn [app]. split; [reflexivity |].
    split.
    { unfold oneByOne in *. cbn [fold_left]. rewrite E1. exact E4. }
    split; [exact WF'' |]. split; [cbn [map]; now rewrite B, M |].
    split.
    + intros t N. cbn [map In] in N. rewrite Fr by tauto.
      apply F. destruct Ti as (t' & Et). rewrite Et in N |- *. cbn.
      intros ->. tauto.
    + intros i0 rest old0 [= <- <-] U0. exists res. split; [reflexivity |].
      rewrite O. congruence.
Qed.

End Bulk.

(** X23. On an inventory with the eight blood types of the schema, a
    bulk update whose items pass the validators succeeds, answers with
    one result per item, in order, each naming the blood type of its
    item, and stores exactly what the single-type updates with the same
    fields, sent one after another, would store; so when two items name
    the same blood type, the later one sees the entry as the earlier one
    left it. Blood types that no item names keep their entry. A request
    with one invalid item, or with no item, stores nothing. *)
Theorem bulkUpdate_is_sequential :
  forall now h updates,
    HospitalDoc.wellFormed h ->
    (InventoryRoutes.validBulkBody updates = true ->
     exists h' results,
       InventoryRoutes.bulkUpdate now h updates = Http.Ok (h', results)
       /\ InventoryRoutes.oneByOne now h updates = Some h'
       /\ HospitalDoc.wellFormed h'
       /\ map InventoryRoutes.result_bloodType results
          = map (fun i => Js.orElse (InventoryRoutes.item_bloodType i) "")
                updates
       /\ (forall t,
             ~ In (Some t) (map InventoryRoutes.item_bloodType updates) ->
             HospitalDoc.units h' t = HospitalDoc.units h t))
    /\ (InventoryRoutes.validBulkBody updates = false ->
        InventoryRoutes.bulkUpdate now h updates = Http.Fail 400 Http.Errors).
Proof.
  intros now h updates WF. split.
  - intros V. unfold InventoryRoutes.bulkUpdate. rewrite V. cbn [negb].
    unfold InventoryRoutes.validBulkBody in V.
    apply andb_prop in V as [_ V].
    destruct (fold_bulkStep now updates h [] WF V)
      as (h' & new & E & S & WF' & M & F & _).
    exists h', new. rewrite E. cbn [app]. auto.
  - intros V. unfold InventoryRoutes.bulkUpdate. now rewrite V.
Qed.

Lemma bulkUpdate_is_sequential_witness :
  exists h' results,
    InventoryRoutes.bulkUpdate (Examples.t0 + 1) Samples.inventoryA
      Samples.bulkTwice = Http.Ok (h', results)
    /\ InventoryRoutes.oneByOne (Examples.t0 + 1) Samples.inventoryA
         Samples.bulkTwice = Some h'
    /\ map InventoryRoutes.result_bloodType results = ["O-"; "O-"].
Proof.
  destruct (proj1 (bulkUpdate_is_sequential (Examples.t0 + 1)
                     Samples.inventoryA Samples.bulkTwice eq_refl) eq_refl)
    as (h' & results & E & S & _ & M & _).
  exists h', results. split; [exact E |]. split; [exact S | exact M].
Defined.
(** ** A notified donor who commits *)

Section Commit.

Import Http DonorRoutes.

Variables (now : Z) (userEmail : string) (body : RespondBody) (d : Donor.t)
          (a : Alert.t) (ty : string).

Hypothesis type_given : responseType body = Some ty.
Hypothesis body_valid : validRespondBody body = true.
Hypothesis alert_active : Alert.status a = "active".
Hypothesis first_response :
  ~ In (Donor._id d) (map Response.donor (Alert.responses a)).







End Commit.



(** ** Read receipts of the donors that were notified *)

(** X25. The dispatch records a notification under the id of the donor
    document, and the read route looks it up under the id of the user
    account. So on the alert that [POST /alerts] has stored, a read
    request of a user whose id is not the id of a donor document is
    answered 404 'Notification not found', also when the donor profile of
    that user was notified. *)
Theorem notified_donor_cannot_mark_read :
  forall id now env userId hospital requests body a t user,
    AlertCreate.storedAlert
      (AlertCreate.create id now env userId hospital requests body) = Some a ->
    (forall d, In d (AlertCreate.donors env) -> Donor._id d <> user) ->
    NotificationRoutes.markRead t "donor" user (Some a)
    = Http.Fail 404 (Http.Message "Notification not found")
    /\ forall n,
        In n (Notifications.sentTo (Alert.notifications a)) ->
        exists d, In d (AlertCreate.donors env)
                  /\ SentTo.donor n = Donor._id d.
Proof.
  intros id now env userId hospital requests body a t user S N.
  destruct (create_stored _ _ _ _ _ _ _ _ S) as (_ & _ & new & -> & F & _).
  assert (D : forall n,
             In n (Notifications.sentTo
                     (Alert.notifications
                        (Delivery.addSent
                           (Z.of_nat
                              (List.length
                                 (AlertRoutes.findEligibleDonors now
                                    (AlertCreate.near env
                                       (Alert.new id (JsDate.getTime now)
                                          (AlertCreate.alertData userId
                                             hospital body)))
                                    (AlertCreate.donors env)
                                    (Alert.new id (JsDate.getTime now)
                                       (AlertCreate.alertData userId hospital
                                          body)))))
                           (Delivery.appendSentTo new
                              (Alert.new id (JsDate.getTime now)
                                 (AlertCreate.alertData userId hospital
                                    body)))))) ->
             exists d, In d (AlertCreate.donors env)
                       /\ SentTo.donor n = Donor._id d).
  { intros n I. cbn in I. rewrite Forall_forall in F.
    destruct (F n I) as (d & Id & ->).
    apply findEligibleDonors_In in Id as (Id & _).
    exists d. split; [exact Id | reflexivity]. }
  split; [| exact D].
  unfold NotificationRoutes.markRead, NotificationRoutes.sentToUser.
  cbn [String.eqb Ascii.eqb Bool.eqb].
  destruct (existsb _ _) eqn:E; [| reflexivity].
  apply existsb_exists in E as (n & I & E).
  apply String.eqb_eq in E. destruct (D n I) as (d & Id & Ed).
  exfalso. apply (N d Id). congruence.
Qed.

Lemma notified_donor_cannot_mark_read_witness :
  NotificationRoutes.markRead (Examples.t0 + 5) "donor"
    (Donor.user Examples.donorONeg) (Some Samples.created)
  = Http.Fail 404 (Http.Message "Notification not found").
Proof.
  refine (proj1 (notified_donor_cannot_mark_read Examples.alertId
                   Examples.day0 Samples.envNoHospitalMail Examples.userA
                   Examples.hospitalADoc 7 Samples.requestONeg
                   Samples.created (Examples.t0 + 5)
                   (Donor.user Examples.donorONeg) eq_refl _)).
  cbn. intros d [<- | [<- | [<- | []]]]; discriminate.
Defined.
